(** * Roster_Fc: the roster engine and the replacement handler

    A shallow embedding of [roster_engine.py] (history analysis, the CP-SAT
    model built by [generate_roster], the result table) and of the
    "Find Replacement" handler of [app.py], with the properties the design
    document states about them.

    Python integers are [Z]; Python lists are [list]; the insertion-ordered
    dict [employee_dna] is an association list; exceptions are an error
    monad.  The CP-SAT model is the sequence of calls made on [model], and a
    solver response is a status with a value for every variable. *)

From Stdlib Require Import String Ascii DecimalString.
From Stdlib Require Import ZArith List Bool Lia.
From Stdlib Require Import Permutation Sorted.
Import ListNotations.

Local Open Scope Z_scope.

(** ** Exceptions *)

Inductive exn : Type :=
| IllegalMonthError
| ValueError
| OverflowError
| KeyError
| IndexError.

Inductive outcome (A : Type) : Type :=
| Returned (a : A)
| Raised (e : exn).

Arguments Returned {A} a.
Arguments Raised {A} e.

Definition bind {A B : Type} (m : outcome A) (k : A -> outcome B) : outcome B :=
  match m with
  | Returned a => k a
  | Raised e => Raised e
  end.

Notation "x <- m ;; k" := (bind m (fun x => k))
  (at level 61, m at next level, right associativity).

Fixpoint mapM {A B : Type} (f : A -> outcome B) (l : list A) : outcome (list B) :=
  match l with
  | [] => Returned []
  | a :: l' =>
      b <- f a ;;
      bs <- mapM f l' ;;
      Returned (b :: bs)
  end.

(** [enumerate l] pairs every element with its index, as Python's
    [enumerate]; [for e in range(len(l))] followed by [l[e]] visits the same
    pairs. *)
Definition enumerate {A : Type} (l : list A) : list (nat * A) :=
  combine (seq 0 (length l)) l.

(** ** The calendar: CPython's [calendar.monthrange] and [datetime.date] *)

Module datetime.

Definition MINYEAR : Z := 1.
Definition MAXYEAR : Z := 9999.

Record date : Type := mkdate { year : Z; month : Z; day : Z }.

Definition _is_leap (year : Z) : bool :=
  (year mod 4 =? 0) && (negb (year mod 100 =? 0) || (year mod 400 =? 0)).

Definition _DAYS_IN_MONTH : list Z :=
  [-1; 31; 28; 31; 30; 31; 30; 31; 31; 30; 31; 30; 31].

Definition _DAYS_BEFORE_MONTH : list Z :=
  [-1; 0; 31; 59; 90; 120; 151; 181; 212; 243; 273; 304; 334].

Definition _days_in_month (year month : Z) : Z :=
  if (month =? 2) && _is_leap year then 29
  else nth (Z.to_nat month) _DAYS_IN_MONTH 0.

Definition _days_before_year (year : Z) : Z :=
  let y := year - 1 in
  y * 365 + y / 4 - y / 100 + y / 400.

Definition _days_before_month (year month : Z) : Z :=
  nth (Z.to_nat month) _DAYS_BEFORE_MONTH 0
  + (if (2 <? month) && _is_leap year then 1 else 0).

Definition _ymd2ord (year month day : Z) : Z :=
  _days_before_year year + _days_before_month year month + day.

(** The constructor is C code: each argument is first converted to a C
    [int], and a Python integer outside [-2^31, 2^31 - 1] does not convert. *)
Definition INT_MIN : Z := -2147483648.
Definition INT_MAX : Z := 2147483647.

Definition fits_int (z : Z) : bool := (INT_MIN <=? z) && (z <=? INT_MAX).

(** [datetime.date(year, month, day)]: the three arguments are converted,
    then the constructor checks its fields. *)
Definition new (year month day : Z) : outcome date :=
  if negb (fits_int year && fits_int month && fits_int day) then Raised OverflowError
  else if negb ((MINYEAR <=? year) && (year <=? MAXYEAR)) then Raised ValueError
  else if negb ((1 <=? month) && (month <=? 12)) then Raised ValueError
  else if negb ((1 <=? day) && (day <=? _days_in_month year month))
       then Raised ValueError
  else Returned (mkdate year month day).

Definition toordinal (d : date) : Z := _ymd2ord (year d) (month d) (day d).

(** Monday is 0, Saturday is 5, Sunday is 6. *)
Definition weekday (d : date) : Z := (toordinal d + 6) mod 7.

End datetime.

Module calendar.

Definition isleap (year : Z) : bool :=
  (year mod 4 =? 0) && (negb (year mod 100 =? 0) || (year mod 400 =? 0)).

Definition mdays : list Z := [0; 31; 28; 31; 30; 31; 30; 31; 31; 30; 31; 30; 31].

Definition weekday (year month day : Z) : Z :=
  let year :=
    if negb ((datetime.MINYEAR <=? year) && (year <=? datetime.MAXYEAR))
    then 2000 + year mod 400 else year in
  datetime.weekday (datetime.mkdate year month day).

(** [calendar.monthrange(year, month)]: weekday of the first day and the
    number of days of the month. *)
Definition monthrange (year month : Z) : outcome (Z * Z) :=
  if negb ((1 <=? month) && (month <=? 12)) then Raised IllegalMonthError
  else
    let day1 := weekday year month 1 in
    let ndays :=
      nth (Z.to_nat month) mdays 0
      + (if (month =? 2) && isleap year then 1 else 0) in
    Returned (day1, ndays).

End calendar.

(** ** Sunday-to-Saturday weeks (roster_engine.py, lines 136-149) *)

Definition week_step (st : list (list nat) * list nat) (p : nat * datetime.date)
  : list (list nat) * list nat :=
  let '(weeks, current_week) := st in
  let current_week := current_week ++ [fst p] in
  if datetime.weekday (snd p) =? 5
  then (weeks ++ [current_week], [])
  else (weeks, current_week).

Definition group_weeks (dates : list datetime.date) : list (list nat) :=
  let '(weeks, current_week) := fold_left week_step (enumerate dates) ([], []) in
  match current_week with
  | [] => weeks
  | _ :: _ => weeks ++ [current_week]
  end.

(** Lines 83-85: [num_days] and the list [dates] of the target month. *)
Definition month_calendar (year month : Z) : outcome (nat * list datetime.date) :=
  mr <- calendar.monthrange year month ;;
  let num_days := Z.to_nat (snd mr) in
  dates <- mapM (fun day => datetime.new year month (Z.of_nat day))
                (seq 1 num_days) ;;
  Returned (num_days, dates).

(** ** Python strings and table cells

    A Python [str] is a sequence of Unicode code points.  A text between
    quotes stands for its ASCII characters, one code point each. *)

Definition str : Type := list Z.

Definition str_of (s : string) : str :=
  map (fun c => Z.of_nat (nat_of_ascii c)) (list_ascii_of_string s).

Arguments str_of s%_string.

Coercion str_of : string >-> str.

(** [==] and [<=] on [str]: by code points, in lexical order. *)
Fixpoint str_eqb (s t : str) : bool :=
  match s, t with
  | [], [] => true
  | a :: s', b :: t' => (a =? b) && str_eqb s' t'
  | _, _ => false
  end.

Arguments str_eqb (s t)%_string.

Fixpoint str_leb (s t : str) : bool :=
  match s, t with
  | [], _ => true
  | _ :: _, [] => false
  | a :: s', b :: t' => if a =? b then str_leb s' t' else a <? b
  end.

(** The code points for which [str.isspace] holds; [str.strip] removes
    them from both ends of a text.  Besides the ASCII ones they are NEL,
    the no-break space, the Ogham space mark, the spaces U+2000 to U+200A,
    the line and paragraph separators, the narrow no-break space, the
    medium mathematical space and the ideographic space. *)
Definition whitespace : list Z :=
  [0x09; 0x0A; 0x0B; 0x0C; 0x0D; 0x1C; 0x1D; 0x1E; 0x1F; 0x20; 0x85; 0xA0; 0x1680;
   0x2000; 0x2001; 0x2002; 0x2003; 0x2004; 0x2005; 0x2006; 0x2007; 0x2008; 0x2009;
   0x200A; 0x2028; 0x2029; 0x202F; 0x205F; 0x3000].

Definition isspace (c : Z) : bool := existsb (Z.eqb c) whitespace.

Fixpoint lstrip (s : str) : str :=
  match s with
  | [] => []
  | c :: s' => if isspace c then lstrip s' else s
  end.

Fixpoint rstrip (s : str) : str :=
  match s with
  | [] => []
  | c :: s' =>
      match rstrip s' with
      | [] => if isspace c then [] else [c]
      | r => c :: r
      end
  end.

Definition strip (s : str) : str := rstrip (lstrip s).

(** [str.upper] replaces every code point by its full upper-case mapping
    in the Unicode Character Database (here version 14.0, as in CPython
    3.11).  The mapping is one code point for most letters and two or three
    for some ([upper_special], from SpecialCasing.txt).  An entry
    [(first, last, step, upper_first)] of [upper_ranges] maps the code points
    [first], [first + step], ..., [last] to [upper_first],
    [upper_first + step], ...; every other code point is its own upper
    case. *)
Definition upper_ranges : list (Z * Z * Z * Z) :=
  [(0x0061, 0x007A, 1, 0x0041); (0x00B5, 0x00B5, 1, 0x039C); (0x00E0, 0x00F6, 1, 0x00C0);
   (0x00F8, 0x00FE, 1, 0x00D8); (0x00FF, 0x00FF, 1, 0x0178); (0x0101, 0x012F, 2, 0x0100);
   (0x0131, 0x0131, 1, 0x0049); (0x0133, 0x0137, 2, 0x0132); (0x013A, 0x0148, 2, 0x0139);
   (0x014B, 0x0177, 2, 0x014A); (0x017A, 0x017E, 2, 0x0179); (0x017F, 0x017F, 1, 0x0053);
   (0x0180, 0x0180, 1, 0x0243); (0x0183, 0x0185, 2, 0x0182); (0x0188, 0x0188, 1, 0x0187);
   (0x018C, 0x018C, 1, 0x018B); (0x0192, 0x0192, 1, 0x0191); (0x0195, 0x0195, 1, 0x01F6);
   (0x0199, 0x0199, 1, 0x0198); (0x019A, 0x019A, 1, 0x023D); (0x019E, 0x019E, 1, 0x0220);
   (0x01A1, 0x01A5, 2, 0x01A0); (0x01A8, 0x01A8, 1, 0x01A7); (0x01AD, 0x01AD, 1, 0x01AC);
   (0x01B0, 0x01B0, 1, 0x01AF); (0x01B4, 0x01B6, 2, 0x01B3); (0x01B9, 0x01B9, 1, 0x01B8);
   (0x01BD, 0x01BD, 1, 0x01BC); (0x01BF, 0x01BF, 1, 0x01F7); (0x01C5, 0x01C5, 1, 0x01C4);
   (0x01C6, 0x01C6, 1, 0x01C4); (0x01C8, 0x01C8, 1, 0x01C7); (0x01C9, 0x01C9, 1, 0x01C7);
   (0x01CB, 0x01CB, 1, 0x01CA); (0x01CC, 0x01CC, 1, 0x01CA); (0x01CE, 0x01DC, 2, 0x01CD);
   (0x01DD, 0x01DD, 1, 0x018E); (0x01DF, 0x01EF, 2, 0x01DE); (0x01F2, 0x01F2, 1, 0x01F1);
   (0x01F3, 0x01F3, 1, 0x01F1); (0x01F5, 0x01F5, 1, 0x01F4); (0x01F9, 0x021F, 2, 0x01F8);
   (0x0223, 0x0233, 2, 0x0222); (0x023C, 0x023C, 1, 0x023B); (0x023F, 0x0240, 1, 0x2C7E);
   (0x0242, 0x0242, 1, 0x0241); (0x0247, 0x024F, 2, 0x0246); (0x0250, 0x0250, 1, 0x2C6F);
   (0x0251, 0x0251, 1, 0x2C6D); (0x0252, 0x0252, 1, 0x2C70); (0x0253, 0x0253, 1, 0x0181);
   (0x0254, 0x0254, 1, 0x0186); (0x0256, 0x0257, 1, 0x0189); (0x0259, 0x0259, 1, 0x018F);
   (0x025B, 0x025B, 1, 0x0190); (0x025C, 0x025C, 1, 0xA7AB); (0x0260, 0x0260, 1, 0x0193);
   (0x0261, 0x0261, 1, 0xA7AC); (0x0263, 0x0263, 1, 0x0194); (0x0265, 0x0265, 1, 0xA78D);
   (0x0266, 0x0266, 1, 0xA7AA); (0x0268, 0x0268, 1, 0x0197); (0x0269, 0x0269, 1, 0x0196);
   (0x026A, 0x026A, 1, 0xA7AE); (0x026B, 0x026B, 1, 0x2C62); (0x026C, 0x026C, 1, 0xA7AD);
   (0x026F, 0x026F, 1, 0x019C); (0x0271, 0x0271, 1, 0x2C6E); (0x0272, 0x0272, 1, 0x019D);
   (0x0275, 0x0275, 1, 0x019F); (0x027D, 0x027D, 1, 0x2C64); (0x0280, 0x0280, 1, 0x01A6);
   (0x0282, 0x0282, 1, 0xA7C5); (0x0283, 0x0283, 1, 0x01A9); (0x0287, 0x0287, 1, 0xA7B1);
   (0x0288, 0x0288, 1, 0x01AE); (0x0289, 0x0289, 1, 0x0244); (0x028A, 0x028B, 1, 0x01B1);
   (0x028C, 0x028C, 1, 0x0245); (0x0292, 0x0292, 1, 0x01B7); (0x029D, 0x029D, 1, 0xA7B2);
   (0x029E, 0x029E, 1, 0xA7B0); (0x0345, 0x0345, 1, 0x0399); (0x0371, 0x0373, 2, 0x0370);
   (0x0377, 0x0377, 1, 0x0376); (0x037B, 0x037D, 1, 0x03FD); (0x03AC, 0x03AC, 1, 0x0386);
   (0x03AD, 0x03AF, 1, 0x0388); (0x03B1, 0x03C1, 1, 0x0391); (0x03C2, 0x03C2, 1, 0x03A3);
   (0x03C3, 0x03CB, 1, 0x03A3); (0x03CC, 0x03CC, 1, 0x038C); (0x03CD, 0x03CE, 1, 0x038E);
   (0x03D0, 0x03D0, 1, 0x0392); (0x03D1, 0x03D1, 1, 0x0398); (0x03D5, 0x03D5, 1, 0x03A6);
   (0x03D6, 0x03D6, 1, 0x03A0); (0x03D7, 0x03D7, 1, 0x03CF); (0x03D9, 0x03EF, 2, 0x03D8);
   (0x03F0, 0x03F0, 1, 0x039A); (0x03F1, 0x03F1, 1, 0x03A1); (0x03F2, 0x03F2, 1, 0x03F9);
   (0x03F3, 0x03F3, 1, 0x037F); (0x03F5, 0x03F5, 1, 0x0395); (0x03F8, 0x03F8, 1, 0x03F7);
   (0x03FB, 0x03FB, 1, 0x03FA); (0x0430, 0x044F, 1, 0x0410); (0x0450, 0x045F, 1, 0x0400);
   (0x0461, 0x0481, 2, 0x0460); (0x048B, 0x04BF, 2, 0x048A); (0x04C2, 0x04CE, 2, 0x04C1);
   (0x04CF, 0x04CF, 1, 0x04C0); (0x04D1, 0x052F, 2, 0x04D0); (0x0561, 0x0586, 1, 0x0531);
   (0x10D0, 0x10FA, 1, 0x1C90); (0x10FD, 0x10FF, 1, 0x1CBD); (0x13F8, 0x13FD, 1, 0x13F0);
   (0x1C80, 0x1C80, 1, 0x0412); (0x1C81, 0x1C81, 1, 0x0414); (0x1C82, 0x1C82, 1, 0x041E);
   (0x1C83, 0x1C84, 1, 0x0421); (0x1C85, 0x1C85, 1, 0x0422); (0x1C86, 0x1C86, 1, 0x042A);
   (0x1C87, 0x1C87, 1, 0x0462); (0x1C88, 0x1C88, 1, 0xA64A); (0x1D79, 0x1D79, 1, 0xA77D);
   (0x1D7D, 0x1D7D, 1, 0x2C63); (0x1D8E, 0x1D8E, 1, 0xA7C6); (0x1E01, 0x1E95, 2, 0x1E00);
   (0x1E9B, 0x1E9B, 1, 0x1E60); (0x1EA1, 0x1EFF, 2, 0x1EA0); (0x1F00, 0x1F07, 1, 0x1F08);
   (0x1F10, 0x1F15, 1, 0x1F18); (0x1F20, 0x1F27, 1, 0x1F28); (0x1F30, 0x1F37, 1, 0x1F38);
   (0x1F40, 0x1F45, 1, 0x1F48); (0x1F51, 0x1F57, 2, 0x1F59); (0x1F60, 0x1F67, 1, 0x1F68);
   (0x1F70, 0x1F71, 1, 0x1FBA); (0x1F72, 0x1F75, 1, 0x1FC8); (0x1F76, 0x1F77, 1, 0x1FDA);
   (0x1F78, 0x1F79, 1, 0x1FF8); (0x1F7A, 0x1F7B, 1, 0x1FEA); (0x1F7C, 0x1F7D, 1, 0x1FFA);
   (0x1FB0, 0x1FB1, 1, 0x1FB8); (0x1FBE, 0x1FBE, 1, 0x0399); (0x1FD0, 0x1FD1, 1, 0x1FD8);
   (0x1FE0, 0x1FE1, 1, 0x1FE8); (0x1FE5, 0x1FE5, 1, 0x1FEC); (0x214E, 0x214E, 1, 0x2132);
   (0x2170, 0x217F, 1, 0x2160); (0x2184, 0x2184, 1, 0x2183); (0x24D0, 0x24E9, 1, 0x24B6);
   (0x2C30, 0x2C5F, 1, 0x2C00); (0x2C61, 0x2C61, 1, 0x2C60); (0x2C65, 0x2C65, 1, 0x023A);
   (0x2C66, 0x2C66, 1, 0x023E); (0x2C68, 0x2C6C, 2, 0x2C67); (0x2C73, 0x2C73, 1, 0x2C72);
   (0x2C76, 0x2C76, 1, 0x2C75); (0x2C81, 0x2CE3, 2, 0x2C80); (0x2CEC, 0x2CEE, 2, 0x2CEB);
   (0x2CF3, 0x2CF3, 1, 0x2CF2); (0x2D00, 0x2D25, 1, 0x10A0); (0x2D27, 0x2D27, 1, 0x10C7);
   (0x2D2D, 0x2D2D, 1, 0x10CD); (0xA641, 0xA66D, 2, 0xA640); (0xA681, 0xA69B, 2, 0xA680);
   (0xA723, 0xA72F, 2, 0xA722); (0xA733, 0xA76F, 2, 0xA732); (0xA77A, 0xA77C, 2, 0xA779);
   (0xA77F, 0xA787, 2, 0xA77E); (0xA78C, 0xA78C, 1, 0xA78B); (0xA791, 0xA793, 2, 0xA790);
   (0xA794, 0xA794, 1, 0xA7C4); (0xA797, 0xA7A9, 2, 0xA796); (0xA7B5, 0xA7C3, 2, 0xA7B4);
   (0xA7C8, 0xA7CA, 2, 0xA7C7); (0xA7D1, 0xA7D1, 1, 0xA7D0); (0xA7D7, 0xA7D9, 2, 0xA7D6);
   (0xA7F6, 0xA7F6, 1, 0xA7F5); (0xAB53, 0xAB53, 1, 0xA7B3); (0xAB70, 0xABBF, 1, 0x13A0);
   (0xFF41, 0xFF5A, 1, 0xFF21); (0x10428, 0x1044F, 1, 0x10400);
   (0x104D8, 0x104FB, 1, 0x104B0); (0x10597, 0x105BB, 2, 0x10570);
   (0x10598, 0x105A0, 2, 0x10571); (0x105A4, 0x105B0, 2, 0x1057D);
   (0x105B4, 0x105B8, 2, 0x1058D); (0x105BC, 0x105BC, 1, 0x10595);
   (0x10CC0, 0x10CF2, 1, 0x10C80); (0x118C0, 0x118DF, 1, 0x118A0);
   (0x16E60, 0x16E7F, 1, 0x16E40); (0x1E922, 0x1E943, 1, 0x1E900)].

Definition upper_special : list (Z * list Z) :=
  [(0x00DF, [0x0053; 0x0053]); (0x0149, [0x02BC; 0x004E]); (0x01F0, [0x004A; 0x030C]);
   (0x0390, [0x0399; 0x0308; 0x0301]); (0x03B0, [0x03A5; 0x0308; 0x0301]);
   (0x0587, [0x0535; 0x0552]); (0x1E96, [0x0048; 0x0331]); (0x1E97, [0x0054; 0x0308]);
   (0x1E98, [0x0057; 0x030A]); (0x1E99, [0x0059; 0x030A]); (0x1E9A, [0x0041; 0x02BE]);
   (0x1F50, [0x03A5; 0x0313]); (0x1F52, [0x03A5; 0x0313; 0x0300]);
   (0x1F54, [0x03A5; 0x0313; 0x0301]); (0x1F56, [0x03A5; 0x0313; 0x0342]);
   (0x1F80, [0x1F08; 0x0399]); (0x1F81, [0x1F09; 0x0399]); (0x1F82, [0x1F0A; 0x0399]);
   (0x1F83, [0x1F0B; 0x0399]); (0x1F84, [0x1F0C; 0x0399]); (0x1F85, [0x1F0D; 0x0399]);
   (0x1F86, [0x1F0E; 0x0399]); (0x1F87, [0x1F0F; 0x0399]); (0x1F88, [0x1F08; 0x0399]);
   (0x1F89, [0x1F09; 0x0399]); (0x1F8A, [0x1F0A; 0x0399]); (0x1F8B, [0x1F0B; 0x0399]);
   (0x1F8C, [0x1F0C; 0x0399]); (0x1F8D, [0x1F0D; 0x0399]); (0x1F8E, [0x1F0E; 0x0399]);
   (0x1F8F, [0x1F0F; 0x0399]); (0x1F90, [0x1F28; 0x0399]); (0x1F91, [0x1F29; 0x0399]);
   (0x1F92, [0x1F2A; 0x0399]); (0x1F93, [0x1F2B; 0x0399]); (0x1F94, [0x1F2C; 0x0399]);
   (0x1F95, [0x1F2D; 0x0399]); (0x1F96, [0x1F2E; 0x0399]); (0x1F97, [0x1F2F; 0x0399]);
   (0x1F98, [0x1F28; 0x0399]); (0x1F99, [0x1F29; 0x0399]); (0x1F9A, [0x1F2A; 0x0399]);
   (0x1F9B, [0x1F2B; 0x0399]); (0x1F9C, [0x1F2C; 0x0399]); (0x1F9D, [0x1F2D; 0x0399]);
   (0x1F9E, [0x1F2E; 0x0399]); (0x1F9F, [0x1F2F; 0x0399]); (0x1FA0, [0x1F68; 0x0399]);
   (0x1FA1, [0x1F69; 0x0399]); (0x1FA2, [0x1F6A; 0x0399]); (0x1FA3, [0x1F6B; 0x0399]);
   (0x1FA4, [0x1F6C; 0x0399]); (0x1FA5, [0x1F6D; 0x0399]); (0x1FA6, [0x1F6E; 0x0399]);
   (0x1FA7, [0x1F6F; 0x0399]); (0x1FA8, [0x1F68; 0x0399]); (0x1FA9, [0x1F69; 0x0399]);
   (0x1FAA, [0x1F6A; 0x0399]); (0x1FAB, [0x1F6B; 0x0399]); (0x1FAC, [0x1F6C; 0x0399]);
   (0x1FAD, [0x1F6D; 0x0399]); (0x1FAE, [0x1F6E; 0x0399]); (0x1FAF, [0x1F6F; 0x0399]);
   (0x1FB2, [0x1FBA; 0x0399]); (0x1FB3, [0x0391; 0x0399]); (0x1FB4, [0x0386; 0x0399]);
   (0x1FB6, [0x0391; 0x0342]); (0x1FB7, [0x0391; 0x0342; 0x0399]); (0x1FBC, [0x0391; 0x0399]);
   (0x1FC2, [0x1FCA; 0x0399]); (0x1FC3, [0x0397; 0x0399]); (0x1FC4, [0x0389; 0x0399]);
   (0x1FC6, [0x0397; 0x0342]); (0x1FC7, [0x0397; 0x0342; 0x0399]); (0x1FCC, [0x0397; 0x0399]);
   (0x1FD2, [0x0399; 0x0308; 0x0300]); (0x1FD3, [0x0399; 0x0308; 0x0301]);
   (0x1FD6, [0x0399; 0x0342]); (0x1FD7, [0x0399; 0x0308; 0x0342]);
   (0x1FE2, [0x03A5; 0x0308; 0x0300]); (0x1FE3, [0x03A5; 0x0308; 0x0301]);
   (0x1FE4, [0x03A1; 0x0313]); (0x1FE6, [0x03A5; 0x0342]); (0x1FE7, [0x03A5; 0x0308; 0x0342]);
   (0x1FF2, [0x1FFA; 0x0399]); (0x1FF3, [0x03A9; 0x0399]); (0x1FF4, [0x038F; 0x0399]);
   (0x1FF6, [0x03A9; 0x0342]); (0x1FF7, [0x03A9; 0x0342; 0x0399]); (0x1FFC, [0x03A9; 0x0399]);
   (0xFB00, [0x0046; 0x0046]); (0xFB01, [0x0046; 0x0049]); (0xFB02, [0x0046; 0x004C]);
   (0xFB03, [0x0046; 0x0046; 0x0049]); (0xFB04, [0x0046; 0x0046; 0x004C]);
   (0xFB05, [0x0053; 0x0054]); (0xFB06, [0x0053; 0x0054]); (0xFB13, [0x0544; 0x0546]);
   (0xFB14, [0x0544; 0x0535]); (0xFB15, [0x0544; 0x053B]); (0xFB16, [0x054E; 0x0546]);
   (0xFB17, [0x0544; 0x053D])].

Definition in_range (c : Z) (r : Z * Z * Z * Z) : bool :=
  let '(first, last, step, _) := r in
  (first <=? c) && (c <=? last) && ((c - first) mod step =? 0).

Definition upper_char (c : Z) : list Z :=
  match find (fun e => fst e =? c) upper_special with
  | Some e => snd e
  | None =>
      match find (in_range c) upper_ranges with
      | Some (first, _, _, upper_first) => [c - first + upper_first]
      | None => [c]
      end
  end.

Definition upper (s : str) : str := flat_map upper_char s.

(** A value held by a table cell: text, a missing value (pandas' NaN) or an
    integer. *)
Inductive cell : Type :=
| CStr (s : str)
| CNaN
| CInt (z : Z).

Arguments CStr s%_string.

Definition py_str (c : cell) : str :=
  match c with
  | CStr s => s
  | CNaN => str_of "nan"
  | CInt z => str_of (NilZero.string_of_int (Z.to_int z))
  end.

Definition cell_eqb (a b : cell) : bool :=
  match a, b with
  | CStr s, CStr t => str_eqb s t
  | CNaN, CNaN => true
  | CInt x, CInt y => x =? y
  | _, _ => false
  end.

(** A row of a table ([pandas.Series]): column label to value. *)
Definition Series : Type := list (string * cell).

Fixpoint getitem (row : Series) (col : string) : outcome cell :=
  match row with
  | [] => Raised KeyError
  | (k, v) :: row' => if String.eqb k col then Returned v else getitem row' col
  end.

Record DataFrame : Type := mkDataFrame {
  columns : list string;
  iterrows : list Series
}.

(** ** Shift DNA (roster_engine.py, [load_and_analyze_data]) *)

Inductive DNA : Type := Fixed_Day | Fixed_Night | Rotating.

Definition DNA_eqb (a b : DNA) : bool :=
  match a, b with
  | Fixed_Day, Fixed_Day | Fixed_Night, Fixed_Night | Rotating, Rotating => true
  | _, _ => false
  end.

Record profile : Type := mkprofile {
  Name : cell;
  DNA_of : DNA;
  Day_Count : Z;
  Night_Count : Z;
  Status : cell;
  Department : cell
}.

(** The dict [employee_dna]: keys in insertion order, each key once.  Keys
    are compared with [cell_eqb]; a missing identifier is one key. *)
Definition dict : Type := list (cell * profile).

Fixpoint dict_get (d : dict) (k : cell) : option profile :=
  match d with
  | [] => None
  | (k', v) :: d' => if cell_eqb k' k then Some v else dict_get d' k
  end.

(** [d[k] = v]: an existing key keeps its place and takes the new value. *)
Fixpoint dict_set (d : dict) (k : cell) (v : profile) : dict :=
  match d with
  | [] => [(k, v)]
  | (k', v') :: d' =>
      if cell_eqb k' k then (k', v) :: d' else (k', v') :: dict_set d' k v
  end.

Definition keys (d : dict) : list cell := map fst d.

Definition metadata_cols : list string :=
  ["Employee ID"; "User ID"; "NAME"; "Status"; "Department"]%string.

Definition is_date_col (col : string) : bool :=
  negb (existsb (String.eqb col) metadata_cols)
  && negb (String.prefix "Unnamed" col)
  && negb (String.eqb col "Remarks").

Definition date_cols_of (df : DataFrame) : list string :=
  filter is_date_col (columns df).

(** Lines 45-53: the counting loop over the date columns of one row. *)
Fixpoint count_shifts (row : Series) (date_cols : list string)
         (day_count night_count : Z) : outcome (Z * Z) :=
  match date_cols with
  | [] => Returned (day_count, night_count)
  | col :: rest =>
      c <- getitem row col ;;
      let val := upper (strip (py_str c)) in
      if str_eqb val "DAY" then count_shifts row rest (day_count + 1) night_count
      else if str_eqb val "NIGHT" then count_shifts row rest day_count (night_count + 1)
      else count_shifts row rest day_count night_count
  end.

(** Lines 55-63: "Determine DNA". *)
Definition determine_dna (day_count night_count : Z) : DNA :=
  if (0 <? day_count) && (night_count =? 0) then Fixed_Day
  else if (0 <? night_count) && (day_count =? 0) then Fixed_Night
  else Rotating.

Definition analyze_row (date_cols : list string) (row : Series)
  : outcome (cell * profile) :=
  emp_id <- getitem row "Employee ID" ;;
  name <- getitem row "NAME" ;;
  counts <- count_shifts row date_cols 0 0 ;;
  let '(day_count, night_count) := counts in
  let dna := determine_dna day_count night_count in
  status <- getitem row "Status" ;;
  department <- getitem row "Department" ;;
  Returned (emp_id, mkprofile name dna day_count night_count status department).

Fixpoint analyze_rows (date_cols : list string) (rows : list Series)
         (employee_dna : dict) : outcome dict :=
  match rows with
  | [] => Returned employee_dna
  | row :: rows' =>
      kv <- analyze_row date_cols row ;;
      analyze_rows date_cols rows' (dict_set employee_dna (fst kv) (snd kv))
  end.

(** [load_and_analyze_data], from the loaded table on. *)
Definition load_and_analyze_data (df : DataFrame) : outcome (DataFrame * dict) :=
  employee_dna <- analyze_rows (date_cols_of df) (iterrows df) [] ;;
  Returned (df, employee_dna).

(** ** The CP-SAT model (ortools.sat.python.cp_model)

    Every variable of [generate_roster] is created once, with a name that
    is built from the indices it belongs to; the constructor of a variable
    is that name ([variables_created_once] below). *)

Inductive IntVar : Type :=
| shift_e_d (e d : nat)
| is_wo_e_d (e d : nat)
| has_day_e_w (e w : nat)
| has_night_e_w (e w : nat)
| is_day_e_d (e d : nat)
| is_night_e_d (e d : nat)
| total_days_e (e : nat)
| total_nights_e (e : nat)
| obj_is_d_e_d (e d : nat)
| obj_is_n_e_d (e d : nat)
| total_work_e (e : nat)
| min_work
| max_work.

Inductive Literal : Type :=
| Lit (b : IntVar)
| Not (b : IntVar).

Inductive LinearExpr : Type :=
| Var (x : IntVar)
| Const (c : Z)
| Plus (a b : LinearExpr)
| Minus (a b : LinearExpr).

Inductive BoundedLinearExpression : Type :=
| Eq (a b : LinearExpr)
| Ne (a b : LinearExpr)
| Le (a b : LinearExpr).

(** The calls made on [model], in the order they are made.
    [Add ct lits] is [model.Add(ct)] followed by [OnlyEnforceIf] for every
    literal of [lits]. *)
Inductive ModelCall : Type :=
| NewIntVar (lb ub : Z) (name : IntVar)
| NewBoolVar (name : IntVar)
| Add (ct : BoundedLinearExpression) (OnlyEnforceIf : list Literal)
| AddMaxEquality (target : LinearExpr) (exprs : list LinearExpr)
| AddMinEquality (target : LinearExpr) (exprs : list LinearExpr)
| Minimize (obj : LinearExpr).

Definition CpModel : Type := list ModelCall.

(** Python's [sum]: the items added left to right onto 0. *)
Definition py_sum (items : list LinearExpr) : LinearExpr :=
  fold_left Plus items (Const 0).

(** *** What a solution is *)

Definition Solution : Type := IntVar -> Z.

Fixpoint Value (s : Solution) (x : LinearExpr) : Z :=
  match x with
  | Var v => s v
  | Const c => c
  | Plus a b => Value s a + Value s b
  | Minus a b => Value s a - Value s b
  end.

Definition BooleanValue (s : Solution) (l : Literal) : bool :=
  match l with
  | Lit b => s b =? 1
  | Not b => s b =? 0
  end.

Definition ct_holds (s : Solution) (ct : BoundedLinearExpression) : bool :=
  match ct with
  | Eq a b => Value s a =? Value s b
  | Ne a b => negb (Value s a =? Value s b)
  | Le a b => Value s a <=? Value s b
  end.

Fixpoint list_max (l : list Z) : option Z :=
  match l with
  | [] => None
  | x :: l' => match list_max l' with None => Some x | Some m => Some (Z.max x m) end
  end.

Fixpoint list_min (l : list Z) : option Z :=
  match l with
  | [] => None
  | x :: l' => match list_min l' with None => Some x | Some m => Some (Z.min x m) end
  end.

(** A call is respected by a solution: a variable lies in its domain, a
    constraint holds when all its enforcement literals are true, a max (min)
    equality holds when the target is the max (min) of a non-empty list.
    [Minimize] constrains nothing. *)
Definition call_holds (s : Solution) (c : ModelCall) : bool :=
  match c with
  | NewIntVar lb ub x => (lb <=? s x) && (s x <=? ub)
  | NewBoolVar x => (0 <=? s x) && (s x <=? 1)
  | Add ct lits => if forallb (BooleanValue s) lits then ct_holds s ct else true
  | AddMaxEquality t exprs =>
      match list_max (map (Value s) exprs) with
      | Some m => Value s t =? m
      | None => false
      end
  | AddMinEquality t exprs =>
      match list_min (map (Value s) exprs) with
      | Some m => Value s t =? m
      | None => false
      end
  | Minimize _ => true
  end.

Definition model_holds (model : CpModel) (s : Solution) : bool :=
  forallb (call_holds s) model.

Definition objectives (model : CpModel) : list LinearExpr :=
  flat_map (fun c => match c with Minimize obj => [obj] | _ => [] end) model.

Inductive CpSolverStatus : Type :=
| UNKNOWN | MODEL_INVALID | FEASIBLE | INFEASIBLE | OPTIMAL.

Record CpSolverResponse : Type := mkResponse {
  status : CpSolverStatus;
  solution : Solution
}.

Definition has_solution (st : CpSolverStatus) : bool :=
  match st with
  | OPTIMAL | FEASIBLE => true
  | _ => false
  end.

(** What CP-SAT promises of a response: with status OPTIMAL or FEASIBLE the
    values respect the model. *)
Definition response_sound (model : CpModel) (r : CpSolverResponse) : Prop :=
  has_solution (status r) = true -> model_holds model (solution r) = true.

(** ** [generate_roster]: the model *)

Section Model.

Variable employee_dna : dict.
Variable num_days : nat.
Variable weeks : list (list nat).

Definition employees : list cell := keys employee_dna.
Definition emp_indices : list nat := seq 0 (length employees).
Definition days_indices : list nat := seq 0 num_days.

Definition roster (e d : nat) : LinearExpr := Var (shift_e_d e d).

(** Lines 94-97. *)
Definition roster_variables : CpModel :=
  flat_map (fun e => map (fun d => NewIntVar 0 2 (shift_e_d e d)) days_indices)
           emp_indices.

(** [employee_dna[emp_id]['DNA']]; [emp_id] is a key of the dict. *)
Definition dna_lookup (emp_id : cell) : option DNA :=
  option_map DNA_of (dict_get employee_dna emp_id).

(** Lines 103-112: the DNA constraints of employee [e]. *)
Definition dna_constraints_of (p : nat * cell) : CpModel :=
  let '(e, emp_id) := p in
  let dna := dna_lookup emp_id in
  flat_map (fun d =>
    match dna with
    | Some Fixed_Day => [Add (Ne (roster e d) (Const 2)) []]
    | Some Fixed_Night => [Add (Ne (roster e d) (Const 1)) []]
    | _ => []
    end) days_indices.

(** Lines 101-112: DNA constraints. *)
Definition dna_constraints : CpModel :=
  flat_map dna_constraints_of (enumerate employees).

(** Lines 153-166: the weekly offs of employee [e] in one week. *)
Definition weekly_off_of (e : nat) (week_days : list nat) : CpModel :=
  let is_wo := map (fun d => is_wo_e_d e d) week_days in
  map NewBoolVar is_wo
  ++ flat_map (fun d =>
       [Add (Eq (roster e d) (Const 0)) [Lit (is_wo_e_d e d)];
        Add (Ne (roster e d) (Const 0)) [Not (is_wo_e_d e d)]]) week_days
  ++ [if (length week_days =? 7)%nat
      then Add (Eq (py_sum (map Var is_wo)) (Const 2)) []
      else Add (Le (py_sum (map Var is_wo)) (Const 2)) []].

(** Lines 151-166: weekly offs. *)
Definition weekly_off_constraints : CpModel :=
  flat_map (fun week_days =>
    flat_map (fun e => weekly_off_of e week_days) emp_indices)
    weeks.

(** Lines 172-197: the shift lock of employee [e] in one week. *)
Definition shift_lock_of (e : nat) (week_days : list nat) : CpModel :=
  let has_day := has_day_e_w e (hd 0%nat week_days) in
  let has_night := has_night_e_w e (hd 0%nat week_days) in
  [NewBoolVar has_day; NewBoolVar has_night]
  ++ flat_map (fun d =>
       [NewBoolVar (is_day_e_d e d);
        NewBoolVar (is_night_e_d e d);
        Add (Eq (roster e d) (Const 1)) [Lit (is_day_e_d e d)];
        Add (Ne (roster e d) (Const 1)) [Not (is_day_e_d e d)];
        Add (Eq (roster e d) (Const 2)) [Lit (is_night_e_d e d)];
        Add (Ne (roster e d) (Const 2)) [Not (is_night_e_d e d)]]) week_days
  ++ [AddMaxEquality (Var has_day)
        (map (fun d => Var (is_day_e_d e d)) week_days);
      AddMaxEquality (Var has_night)
        (map (fun d => Var (is_night_e_d e d)) week_days);
      Add (Le (Plus (Var has_day) (Var has_night)) (Const 1)) []].

(** Lines 168-197: shift lock. *)
Definition shift_lock_constraints : CpModel :=
  flat_map (fun week_days =>
    flat_map (fun e => shift_lock_of e week_days) emp_indices)
    weeks.

Definition total_days (e : nat) : LinearExpr := Var (total_days_e e).
Definition total_nights (e : nat) : LinearExpr := Var (total_nights_e e).
Definition total_work (e : nat) : LinearExpr := Var (total_work_e e).

(** Lines 207-221: the day and night totals of employee [e]. *)
Definition totals_of (e : nat) : CpModel :=
  flat_map (fun d =>
    [NewBoolVar (obj_is_d_e_d e d);
     NewBoolVar (obj_is_n_e_d e d);
     Add (Eq (roster e d) (Const 1)) [Lit (obj_is_d_e_d e d)];
     Add (Ne (roster e d) (Const 1)) [Not (obj_is_d_e_d e d)];
     Add (Eq (roster e d) (Const 2)) [Lit (obj_is_n_e_d e d)];
     Add (Ne (roster e d) (Const 2)) [Not (obj_is_n_e_d e d)]]) days_indices
  ++ [Add (Eq (total_days e)
             (py_sum (map (fun d => Var (obj_is_d_e_d e d)) days_indices))) [];
      Add (Eq (total_nights e)
             (py_sum (map (fun d => Var (obj_is_n_e_d e d)) days_indices))) []].

(** Lines 204-221: the day and night totals of every employee. *)
Definition totals_constraints : CpModel :=
  map (fun e => NewIntVar 0 (Z.of_nat num_days) (total_days_e e)) emp_indices
  ++ map (fun e => NewIntVar 0 (Z.of_nat num_days) (total_nights_e e)) emp_indices
  ++ flat_map totals_of emp_indices.

(** Lines 223-235: the spread of total work, and the objective. *)
Definition spread_objective : CpModel :=
  map (fun e => NewIntVar 0 (Z.of_nat num_days) (total_work_e e)) emp_indices
  ++ map (fun e => Add (Eq (total_work e) (Plus (total_days e) (total_nights e))) [])
       emp_indices
  ++ [NewIntVar 0 (Z.of_nat num_days) min_work;
      NewIntVar 0 (Z.of_nat num_days) max_work;
      AddMinEquality (Var min_work) (map total_work emp_indices);
      AddMaxEquality (Var max_work) (map total_work emp_indices);
      Minimize (Minus (Var max_work) (Var min_work))].

Definition build_model : CpModel :=
  roster_variables
  ++ dna_constraints
  ++ weekly_off_constraints
  ++ shift_lock_constraints
  ++ totals_constraints
  ++ spread_objective.

End Model.

(** ** [generate_roster]: solving and the result table *)

Inductive shift_label : Type := WO | Day | Night.

Definition shift_label_eqb (a b : shift_label) : bool :=
  match a, b with
  | WO, WO | Day, Day | Night, Night => true
  | _, _ => false
  end.

(** [shift_map = {0: 'WO', 1: 'Day', 2: 'Night'}]. *)
Definition shift_map (s_val : Z) : outcome shift_label :=
  if s_val =? 0 then Returned WO
  else if s_val =? 1 then Returned Day
  else if s_val =? 2 then Returned Night
  else Raised KeyError.

(** One row of the result: the five descriptive columns, one cell per date
    column (in the order of [dates]), and the two totals. *)
Record roster_row : Type := mkrow {
  Employee_ID : cell;
  row_Name : cell;
  Dept : cell;
  row_Status : cell;
  Shift_DNA : DNA;
  date_cells : list shift_label;
  Total_Work_Hours : Z;
  Total_Shifts : Z
}.

(** The result table.  Its date columns are the keys of the row dicts, so
    a table without rows has none. *)
Record RosterFrame : Type := mkRosterFrame {
  date_columns : list datetime.date;
  rows : list roster_row
}.

Definition no_roster_message : string :=
  "No feasible roster found. Constraints might be too strict.".

(** The weeks of a run and the model that [generate_roster] hands to the
    solver. *)
Definition roster_weeks (year month : Z) : outcome (list (list nat)) :=
  cal <- month_calendar year month ;;
  Returned (group_weeks (snd cal)).

Definition roster_model (employee_dna : dict) (year month : Z) : outcome CpModel :=
  cal <- month_calendar year month ;;
  Returned (build_model employee_dna (fst cal) (group_weeks (snd cal))).

Section Solve.

(** [solver.Solve(model)]: the solver is a collaborator. *)
Variable Solve : CpModel -> CpSolverResponse.

Definition result_row (employee_dna : dict) (num_days : nat)
           (r : CpSolverResponse) (p : nat * cell) : outcome roster_row :=
  let '(e, emp_id) := p in
  info <- match dict_get employee_dna emp_id with
          | Some info => Returned info
          | None => Raised KeyError
          end ;;
  cells <- mapM (fun d => shift_map (solution r (shift_e_d e d)))
                (days_indices num_days) ;;
  let t_d := solution r (total_days_e e) in
  let t_n := solution r (total_nights_e e) in
  Returned (mkrow emp_id (Name info) (Department info) (Status info)
                  (DNA_of info) cells ((t_d + t_n) * 9) (t_d + t_n)).

Definition generate_roster (employee_dna : dict) (year month : Z)
  : outcome (option RosterFrame * option string) :=
  cal <- month_calendar year month ;;
  let '(num_days, dates) := cal in
  let weeks := group_weeks dates in
  let model := build_model employee_dna num_days weeks in
  let r := Solve model in
  if has_solution (status r) then
    data <- mapM (result_row employee_dna num_days r)
                 (enumerate (employees employee_dna)) ;;
    let result_df :=
      mkRosterFrame (match data with [] => [] | _ :: _ => dates end) data in
    Returned (Some result_df, None)
  else
    Returned (None, Some no_roster_message).

(** The solver keeps its promise on the model of this run. *)
Definition solver_sound (employee_dna : dict) (year month : Z) : Prop :=
  match roster_model employee_dna year month with
  | Returned model => response_sound model (Solve model)
  | Raised _ => True
  end.

End Solve.

(** ** The replacement handler (app.py, lines 127-173)

    A date column is named by its position among the date columns. *)

Definition cell_on (row : roster_row) (selected_date : nat) : option shift_label :=
  nth_error (date_cells row) selected_date.

(** [==] on the values of a column: a missing value equals nothing. *)
Definition series_eq (a b : cell) : bool :=
  match a, b with
  | CNaN, _ | _, CNaN => false
  | _, _ => cell_eqb a b
  end.

(** [Series.unique()]: first occurrences, in order. *)
Fixpoint unique_from (seen : list cell) (l : list cell) : list cell :=
  match l with
  | [] => []
  | x :: l' =>
      if existsb (cell_eqb x) seen then unique_from seen l'
      else x :: unique_from (x :: seen) l'
  end.

Definition unique (l : list cell) : list cell := unique_from [] l.

Definition is_working (row : roster_row) (selected_date : nat) : bool :=
  match cell_on row selected_date with
  | Some Day | Some Night => true
  | _ => false
  end.

Definition is_resting (row : roster_row) (selected_date : nat) : bool :=
  match cell_on row selected_date with
  | Some WO => true
  | _ => false
  end.

Definition working_on_date (roster_df : RosterFrame) (selected_date : nat)
  : list roster_row :=
  filter (fun r => is_working r selected_date) (rows roster_df).

(** The names offered by the "Absent Employee" select box. *)
Definition absent_employee_options (roster_df : RosterFrame) (selected_date : nat)
  : list cell :=
  unique (map row_Name (working_on_date roster_df selected_date)).

(** [numpy.argsort] of a key column: the positions of the keys, in an order
    along which the keys ascend.  [sort_values] is called without a sort
    kind, so numpy's default quicksort is used; it is not stable, and which
    of several equal keys comes first depends on the length of the column
    and on the build of numpy.  The handler is therefore given its argsort,
    and [argsort_sound] is all that is known of it. *)
Definition argsort_sound (argsort : list Z -> list nat) : Prop :=
  forall keys,
    Permutation (argsort keys) (seq 0 (length keys))
    /\ StronglySorted (fun i j => nth i keys 0 <= nth j keys 0) (argsort keys).

(** One argsort that keeps the promise: insertion of the positions, which
    leaves equal keys in the order of the rows.  It runs the handler on the
    sample tables below. *)
Fixpoint insert_index (key : nat -> Z) (i : nat) (l : list nat) : list nat :=
  match l with
  | [] => [i]
  | j :: l' => if key i <=? key j then i :: l else j :: insert_index key i l'
  end.

Definition insertion_argsort (keys : list Z) : list nat :=
  fold_right (insert_index (fun i => nth i keys 0)) [] (seq 0 (length keys)).

Definition take {A : Type} (l : list A) (indices : list nat) : list A :=
  flat_map (fun i => match nth_error l i with Some a => [a] | None => [] end)
           indices.

(** [DataFrame.sort_values(by='Total Shifts', ascending=True)]: the rows
    are taken in the order that the argsort of the key column gives. *)
Definition sort_values (argsort : list Z -> list nat) (frame : list roster_row)
  : list roster_row :=
  take frame (argsort (map Total_Shifts frame)).

(** Lines 148-158: the candidates, before ranking. *)
Definition candidates_for (roster_df : RosterFrame) (selected_date : nat)
           (absent_shift : option shift_label) : list roster_row :=
  let candidates := filter (fun r => is_resting r selected_date) (rows roster_df) in
  match absent_shift with
  | Some Night =>
      filter (fun r => negb (DNA_eqb (Shift_DNA r) Fixed_Day)) candidates
  | Some Day =>
      filter (fun r => negb (DNA_eqb (Shift_DNA r) Fixed_Night)) candidates
  | _ => candidates
  end.

(** What the side bar shows. *)
Inductive sidebar : Type :=
| success (best_fit : roster_row) (top_alternatives : list roster_row)
| error (msg : string).

Definition iloc0 {A : Type} (l : list A) : outcome A :=
  match l with
  | a :: _ => Returned a
  | [] => Raised IndexError
  end.

Definition absent_row (roster_df : RosterFrame) (selected_emp_name : cell)
  : outcome roster_row :=
  iloc0 (filter (fun r => series_eq (row_Name r) selected_emp_name) (rows roster_df)).

Definition find_replacement (argsort : list Z -> list nat) (roster_df : RosterFrame)
           (selected_date : nat) (selected_emp_name : cell) : outcome sidebar :=
  absent_emp_row <- absent_row roster_df selected_emp_name ;;
  let absent_shift := cell_on absent_emp_row selected_date in
  let candidates := candidates_for roster_df selected_date absent_shift in
  let candidates := sort_values argsort candidates in
  match candidates with
  | best_fit :: _ => Returned (success best_fit (firstn 5 candidates))
  | [] => Returned (error "No suitable replacement found!")
  end.

(** ** Reading the history: what a cell counts as *)

Definition normalized (c : cell) : str := upper (strip (py_str c)).

Definition counts_as_day (c : cell) : bool := str_eqb (normalized c) "DAY".
Definition counts_as_night (c : cell) : bool := str_eqb (normalized c) "NIGHT".

Definition count_cells (p : cell -> bool) (vals : list cell) : Z :=
  Z.of_nat (length (filter p vals)).

(** The code points other than [h] whose upper case starts with [h]. *)
Definition upper_preimages (h : Z) : list Z :=
  map fst (filter (fun e => match snd e with x :: _ => x =? h | [] => false end)
                  upper_special)
  ++ flat_map (fun r : Z * Z * Z * Z =>
                 let '(first, _, _, upper_first) := r in
                 let c := h - upper_first + first in
                 if in_range c r then [c] else []) upper_ranges.

(** A text is spelled with [letters] when it has one code point for each
    of them, taken among the alternatives of that letter. *)
Definition spelled (letters : list (list Z)) (t : str) : Prop :=
  Forall2 (fun alternatives c => In c alternatives) letters t.

(** D or d, A or a, Y or y. *)
Definition DAY_letters : list (list Z) := [[0x44; 0x64]; [0x41; 0x61]; [0x59; 0x79]].

(** N or n; I, i or the dotless i (U+0131, whose upper case is I); G or g,
    H or h, T or t. *)
Definition NIGHT_letters : list (list Z) :=
  [[0x4E; 0x6E]; [0x49; 0x69; 0x0131]; [0x47; 0x67]; [0x48; 0x68]; [0x54; 0x74]].

(** ** A sample history table *)

Module History.

Definition header : list string :=
  ["Employee ID"; "User ID"; "NAME"; "Status"; "Department";
   "2026-02-01"; "2026-02-02"; "2026-02-03"; "Unnamed: 8"; "Remarks"]%string.

Definition line (id : Z) (name a b c : cell) : Series :=
  combine header
    [CInt id; CNaN; name; CStr "Active"; CStr "Inbound"; a; b; c; CNaN; CStr "day"].

Definition asha : Series := line 101 (CStr "Asha") (CStr " day ") (CStr "Day") (CStr "WO").
Definition bala : Series := line 102 (CStr "Bala") (CStr "NIGHT") (CStr "night") (CNaN).
Definition chitra : Series := line 103 (CStr "Chitra") (CStr "Day") (CStr "Night") (CStr "WO").
Definition dev : Series := line 104 (CStr "Dev") (CStr "WO") (CStr "") (CNaN).

Definition df : DataFrame := mkDataFrame header [asha; bala; chitra; dev].

(** A row outside the table: "Day" between a no-break space and an em
    space, "night" written with a dotless i, and a word that is no shift. *)
Definition esra : Series :=
  line 105 (CStr "Esra") (CStr ([0xA0] ++ str_of "Day" ++ [0x2003])%list)
       (CStr [0x6E; 0x0131; 0x67; 0x68; 0x74]) (CStr "Daily").

End History.

(** ** A roster completed into a solution

    Given the shift of every employee on every day, the values of all the
    other variables of the model follow; [complete] computes them.  It is
    used to exhibit rosters that the model accepts. *)

Section Complete.

Variable num_emps num_days : nat.
Variable weeks : list (list nat).
Variable x : nat -> nat -> Z.

Definition count_shift (e : nat) (v : Z) (days : list nat) : Z :=
  Z.of_nat (length (filter (fun d => x e d =? v) days)).

Definition week_of (w : nat) : list nat :=
  match find (fun week_days => (hd 0%nat week_days =? w)%nat) weeks with
  | Some week_days => week_days
  | None => []
  end.

Definition work_of (e : nat) : Z :=
  count_shift e 1 (seq 0 num_days) + count_shift e 2 (seq 0 num_days).

Definition complete : Solution := fun v =>
  match v with
  | shift_e_d e d => x e d
  | is_wo_e_d e d => if x e d =? 0 then 1 else 0
  | has_day_e_w e w => if existsb (fun d => x e d =? 1) (week_of w) then 1 else 0
  | has_night_e_w e w => if existsb (fun d => x e d =? 2) (week_of w) then 1 else 0
  | is_day_e_d e d | obj_is_d_e_d e d => if x e d =? 1 then 1 else 0
  | is_night_e_d e d | obj_is_n_e_d e d => if x e d =? 2 then 1 else 0
  | total_days_e e => count_shift e 1 (seq 0 num_days)
  | total_nights_e e => count_shift e 2 (seq 0 num_days)
  | total_work_e e => work_of e
  | min_work =>
      match list_min (map work_of (seq 0 num_emps)) with Some m => m | None => 0 end
  | max_work =>
      match list_max (map work_of (seq 0 num_emps)) with Some m => m | None => 0 end
  end.

End Complete.

(** ** A sample run: three employees, March 2026 *)

Module Sample.

Definition prof (name : string) (dna : DNA) (d n : Z) : profile :=
  mkprofile (CStr name) dna d n (CStr "Active") (CStr "Inbound").

Definition employee_dna : dict :=
  [(CInt 101, prof "Asha" Fixed_Day 20 0);
   (CInt 102, prof "Bala" Fixed_Night 0 20);
   (CInt 103, prof "Chitra" Rotating 10 10)].

(** Sunday and Monday off; Asha on days, Bala on nights, Chitra on days
    in the first, third and fifth week and on nights in the others. *)
Definition x (e d : nat) : Z :=
  if (d mod 7 <? 2)%nat then 0
  else match e with
       | O => 1
       | S O => 2
       | _ => if Nat.even (d / 7) then 1 else 2
       end.

Definition march_weeks : list (list nat) :=
  match roster_weeks 2026 3 with
  | Returned weeks => weeks
  | Raised _ => []
  end.

Definition Solve (model : CpModel) : CpSolverResponse :=
  mkResponse FEASIBLE (complete 3 31 march_weeks x).

(** A solver that finds nothing. *)
Definition Solve_unknown (model : CpModel) : CpSolverResponse :=
  mkResponse UNKNOWN (fun _ => 0).

Definition roster_df : RosterFrame :=
  match generate_roster Solve employee_dna 2026 3 with
  | Returned (Some df, _) => df
  | _ => mkRosterFrame [] []
  end.

End Sample.

(** ** Counting in a solution and in a result row *)

(** The number of days of [days] on which employee [e] has shift [v]. *)
Definition days_with (s : Solution) (e : nat) (v : Z) (days : list nat) : nat :=
  length (filter (fun d => s (shift_e_d e d) =? v) days).

Definition cell_is (l : shift_label) (row : roster_row) (d : nat) : bool :=
  match cell_on row d with
  | Some l' => shift_label_eqb l' l
  | None => false
  end.

(** The number of days of [days] on which the row shows [l]. *)
Definition cells_with (l : shift_label) (row : roster_row) (days : list nat) : nat :=
  length (filter (cell_is l row) days).

(** [totalWork(e)]: the number of days of the month on which employee [e]
    does not rest. *)
Definition total_work_of (s : Solution) (num_days : nat) (e : nat) : Z :=
  Z.of_nat (length (filter (fun d => negb (s (shift_e_d e d) =? 0))
                           (days_indices num_days))).

(** The spread of a list of totals: its maximum minus its minimum. *)
Definition spread_of (totals : list Z) : option Z :=
  match list_max totals, list_min totals with
  | Some hi, Some lo => Some (hi - lo)
  | _, _ => None
  end.

Definition label_value (l : shift_label) : Z :=
  match l with WO => 0 | Day => 1 | Night => 2 end.

(** What [result_row] puts in the row of employee [e]. *)
Definition row_of (employee_dna : dict) (num_days : nat) (s : Solution)
           (e : nat) (row : roster_row) : Prop :=
  exists emp_id info,
    nth_error (employees employee_dna) e = Some emp_id
    /\ dict_get employee_dna emp_id = Some info
    /\ Employee_ID row = emp_id
    /\ row_Name row = Name info
    /\ Shift_DNA row = DNA_of info
    /\ length (date_cells row) = num_days
    /\ (forall d, In d (days_indices num_days) ->
          exists l, cell_on row d = Some l /\ s (shift_e_d e d) = label_value l)
    /\ Total_Shifts row = s (total_days_e e) + s (total_nights_e e)
    /\ Total_Work_Hours row = Total_Shifts row * 9.

(** The working states that a row uses on the days of [days]. *)
Definition working_states (row : roster_row) (days : list nat) : list shift_label :=
  (if existsb (cell_is Day row) days then [Day] else [])
  ++ (if existsb (cell_is Night row) days then [Night] else []).

(** The number of cells of a row that are not a rest. *)
Definition worked_cells (row : roster_row) : nat :=
  length (filter (fun l => negb (shift_label_eqb l WO)) (date_cells row)).

Definition is_Minimize (c : ModelCall) : bool :=
  match c with
  | Minimize _ => true
  | _ => false
  end.

(** ** Ranking by identifier, as a property *)

(** The order of employee identifiers: numbers by value, texts by lexical
    order. *)
Definition emp_id_leb (a b : cell) : bool :=
  match a, b with
  | CInt x, CInt y => x <=? y
  | CStr s, CStr t => str_leb s t
  | _, _ => false
  end.

(** Rows with equal [Total_Shifts] come in the order of their identifiers. *)
Definition ties_by_identifier (ranking : list roster_row) : Prop :=
  forall i j a b,
    (i < j)%nat ->
    nth_error ranking i = Some a -> nth_error ranking j = Some b ->
    Total_Shifts a = Total_Shifts b ->
    emp_id_leb (Employee_ID a) (Employee_ID b) = true.

(** ** Two more runs for March 2026 *)

(** Sunday and Monday off for all but the last employee, who has Monday and
    Tuesday off; days for everyone. *)
Definition staggered_x (last : nat) (e d : nat) : Z :=
  if (e =? last)%nat
  then if ((1 <=? d mod 7) && (d mod 7 <=? 2))%nat then 0 else 1
  else if (d mod 7 <? 2)%nat then 0 else 1.

(** Identifiers that do not follow the order of the rows. *)
Module Ties.

Definition employee_dna : dict :=
  [(CInt 205, Sample.prof "Sam" Rotating 10 10);
   (CInt 104, Sample.prof "Ravi" Rotating 10 10);
   (CInt 300, Sample.prof "Zed" Fixed_Day 20 0)].

Definition Solve (model : CpModel) : CpSolverResponse :=
  mkResponse FEASIBLE (complete 3 31 Sample.march_weeks (staggered_x 2)).

Definition roster_df : RosterFrame :=
  match generate_roster Solve employee_dna 2026 3 with
  | Returned (Some df, _) => df
  | _ => mkRosterFrame [] []
  end.

End Ties.

(** The run [Ties] with its first two employees in the other order. *)
Module Mirror.

Definition employee_dna : dict :=
  [(CInt 104, Sample.prof "Ravi" Rotating 10 10);
   (CInt 205, Sample.prof "Sam" Rotating 10 10);
   (CInt 300, Sample.prof "Zed" Fixed_Day 20 0)].

Definition roster_df : RosterFrame :=
  match generate_roster Ties.Solve employee_dna 2026 3 with
  | Returned (Some df, _) => df
  | _ => mkRosterFrame [] []
  end.

End Mirror.

(** Two employees with one name. *)
Module Twins.

Definition employee_dna : dict :=
  [(CInt 1, Sample.prof "Sam" Rotating 10 10);
   (CInt 2, Sample.prof "Sam" Rotating 10 10)].

Definition Solve (model : CpModel) : CpSolverResponse :=
  mkResponse FEASIBLE (complete 2 31 Sample.march_weeks (staggered_x 1)).

Definition roster_df : RosterFrame :=
  match generate_roster Solve employee_dna 2026 3 with
  | Returned (Some df, _) => df
  | _ => mkRosterFrame [] []
  end.

End Twins.

(** The scenario of the design document: A (Fixed_Day) works the day shift;
    B (Fixed_Night, 10 shifts) and C (Rotating, 6 shifts) rest. *)
Module Scenario.

Definition row (id : Z) (name : string) (dna : DNA) (today : shift_label)
           (total : Z) : roster_row :=
  mkrow (CInt id) (CStr name) (CStr "Inbound") (CStr "Active") dna [today]
        (total * 9) total.

Definition A : roster_row := row 1 "A" Fixed_Day Day 12.
Definition B : roster_row := row 2 "B" Fixed_Night WO 10.
Definition C : roster_row := row 3 "C" Rotating WO 6.

Definition roster_df : RosterFrame :=
  mkRosterFrame [datetime.mkdate 2026 3 2] [A; B; C].

(** The same day without C: the only resting employee is Fixed_Night. *)
Definition without_C : RosterFrame :=
  mkRosterFrame [datetime.mkdate 2026 3 2] [A; B].

End Scenario.

(** A day on which many employees rest.  A works the day shift and is the
    absent one; B is Fixed_Night; J works the night shift. *)
Module Crowd.

Definition A : roster_row := Scenario.row 1 "A" Fixed_Day Day 12.
Definition B : roster_row := Scenario.row 2 "B" Fixed_Night WO 10.
Definition C : roster_row := Scenario.row 3 "C" Rotating WO 6.
Definition D : roster_row := Scenario.row 4 "D" Fixed_Day WO 8.
Definition E : roster_row := Scenario.row 5 "E" Rotating WO 6.
Definition F : roster_row := Scenario.row 6 "F" Rotating WO 9.
Definition G : roster_row := Scenario.row 7 "G" Fixed_Day WO 7.
Definition H : roster_row := Scenario.row 8 "H" Rotating WO 11.
Definition I : roster_row := Scenario.row 9 "I" Rotating WO 8.
Definition J : roster_row := Scenario.row 10 "J" Rotating Night 5.

Definition roster_df : RosterFrame :=
  mkRosterFrame [datetime.mkdate 2026 3 2] [A; B; H; D; C; J; F; E; I; G].

End Crowd.

(** The place of a date in its Sunday-to-Saturday week: Sunday 0, ...,
    Saturday 6. *)
Definition day_of_week (d : datetime.date) : Z := (datetime.weekday d + 1) mod 7.

(** Each date of the list is the day after the one before it. *)
Fixpoint consecutive_days (l : list (nat * datetime.date)) : Prop :=
  match l with
  | p :: (q :: _) as l' =>
      datetime.toordinal (snd q) = datetime.toordinal (snd p) + 1
      /\ consecutive_days l'
  | _ => True
  end.


(** The variables that the calls of a model create, in order. *)
Definition created_by (c : ModelCall) : list IntVar :=
  match c with
  | NewIntVar _ _ x | NewBoolVar x => [x]
  | _ => []
  end.

Definition created (model : CpModel) : list IntVar := flat_map created_by model.


(** ** The cached pipeline (app.py, lines 79-86)

    [generate_roster(dna)] is called with its default month, March 2026. *)
Definition cached_generate_roster (Solve : CpModel -> CpSolverResponse)
           (file_source : DataFrame) : outcome (option RosterFrame * option string) :=
  loaded <- load_and_analyze_data file_source ;;
  let '(df, dna) := loaded in
  generate_roster Solve dna 2026 3.

(** A text made of whitespace only. *)
Definition all_space (s : str) : bool := forallb isspace s.


(** Asha's row again, with other cells under "User ID", "Unnamed: 8" and
    "Remarks". *)
Definition asha_with_remarks : Series :=
  combine History.header
    [CInt 101; CStr "u-7"; CStr "Asha"; CStr "Active"; CStr "Inbound";
     CStr " day "; CStr "Day"; CStr "WO"; CStr "Night"; CStr "NIGHT"].

(** The identifiers of the rows of a table, as far as they can be read. *)
Definition employee_ids (rows : list Series) : outcome (list cell) :=
  mapM (fun row => getitem row "Employee ID") rows.

(** A table whose first and third rows carry the same identifier. *)
Definition df_with_repeated_id : DataFrame :=
  mkDataFrame History.header
    [History.asha; History.bala; History.line 101 (CStr "Asha") (CStr "Night") CNaN CNaN].


(** A week of fewer (or more) than seven days. *)
Definition is_partial (week_days : list nat) : bool :=
  negb (length week_days =? 7)%nat.


(** ** The sample history, through the pipeline *)

Module Pipeline.

Definition dna : dict :=
  match load_and_analyze_data History.df with
  | Returned (_, dna) => dna
  | Raised _ => []
  end.

(** Sunday and Monday off; Bala on nights, the others on days. *)
Definition x (e d : nat) : Z :=
  if (d mod 7 <? 2)%nat then 0 else if (e =? 1)%nat then 2 else 1.

Definition Solve (model : CpModel) : CpSolverResponse :=
  mkResponse FEASIBLE (complete 4 31 Sample.march_weeks x).

Definition table : RosterFrame :=
  match cached_generate_roster Solve History.df with
  | Returned (Some df, _) => df
  | _ => mkRosterFrame [] []
  end.

End Pipeline.


(** ** A plain roster, and what the model asks of a roster *)

(** The conditions on the shifts alone that the model encodes: every shift
    is 0, 1 or 2; the DNA is kept; every week of seven days has two rests
    and any other week at most two; no week mixes days and nights. *)
Definition acceptable (employee_dna : dict) (num_days : nat)
           (weeks : list (list nat)) (x : nat -> nat -> Z) : Prop :=
  (forall e d, 0 <= x e d <= 2)
  /\ (forall e emp_id d,
        nth_error (employees employee_dna) e = Some emp_id ->
        (dna_lookup employee_dna emp_id = Some Fixed_Day -> x e d <> 2)
        /\ (dna_lookup employee_dna emp_id = Some Fixed_Night -> x e d <> 1))
  /\ (forall e week_days,
        In week_days weeks ->
        let rests := length (filter (fun d => x e d =? 0) week_days) in
        (length week_days = 7%nat -> rests = 2%nat)
        /\ (length week_days <> 7%nat -> (rests <= 2)%nat))
  /\ (forall e week_days d1 d2,
        In week_days weeks -> In d1 week_days -> In d2 week_days ->
        ~ (x e d1 = 1 /\ x e d2 = 2)).

(** Is [d] one of the first two days of its week? *)
Definition first_two (weeks : list (list nat)) (d : nat) : bool :=
  existsb (fun week_days => existsb (Nat.eqb d) (firstn 2 week_days)) weeks.

(** The shift an employee works when not resting: nights for Fixed_Night,
    days for everyone else. *)
Definition work_shift (employee_dna : dict) (e : nat) : Z :=
  match nth_error (employees employee_dna) e with
  | Some emp_id =>
      match dna_lookup employee_dna emp_id with
      | Some Fixed_Night => 2
      | _ => 1
      end
  | None => 1
  end.

(** The first two days of every week off, the other days worked. *)
Definition plain_roster (employee_dna : dict) (weeks : list (list nat))
           (e d : nat) : Z :=
  if first_two weeks d then 0 else work_shift employee_dna e.

(** A solver that answers with the plain roster of the month. *)
Definition plain_Solve (employee_dna : dict) (year month : Z)
           (model : CpModel) : CpSolverResponse :=
  match month_calendar year month with
  | Returned (num_days, dates) =>
      mkResponse FEASIBLE
        (complete (length (employees employee_dna)) num_days (group_weeks dates)
                  (plain_roster employee_dna (group_weeks dates)))
  | Raised _ => mkResponse UNKNOWN (fun _ => 0)
  end.


(** The solution that completes the shifts [x] of the whole staff. *)
Definition completed (employee_dna : dict) (num_days : nat)
           (weeks : list (list nat)) (x : nat -> nat -> Z) : Solution :=
  complete (length (employees employee_dna)) num_days weeks x.


(** The weekday of the date in column [d] (Monday 0, ..., Sunday 6). *)
Definition weekday_of (dates : list datetime.date) (d : nat) : option Z :=
  option_map datetime.weekday (nth_error dates d).

Definition ends_on_saturday (dates : list datetime.date) (w : list nat) : Prop :=
  weekday_of dates (last w 0%nat) = Some 5.

Definition starts_on_sunday (dates : list datetime.date) (w : list nat) : Prop :=
  weekday_of dates (hd 0%nat w) = Some 6.


(** * Properties *)

Example march_2026_starts_on_sunday :
  datetime.weekday (datetime.mkdate 2026 3 1) = 6.
Proof. reflexivity. Qed.

Example march_2026_weeks :
  map (@length nat) Sample.march_weeks = [7; 7; 7; 7; 3]%nat.
Proof. vm_compute. reflexivity. Qed.

Example sample_solver_sound : solver_sound Sample.Solve Sample.employee_dna 2026 3.
Proof. unfold solver_sound. vm_compute. reflexivity. Qed.

Example sample_rows : length (rows Sample.roster_df) = 3%nat.
Proof. vm_compute. reflexivity. Qed.

(** ** The error monad *)

Lemma bind_Returned_inv {A B : Type} (m : outcome A) (k : A -> outcome B) (b : B) :
  bind m k = Returned b -> exists a, m = Returned a /\ k a = Returned b.
Proof.
  destruct m as [a | e]; simpl; intros H.
  - exists a. split; [reflexivity | exact H].
  - discriminate H.
Qed.

Lemma mapM_Forall2 {A B : Type} (f : A -> outcome B) (l : list A) :
  forall bs, mapM f l = Returned bs -> Forall2 (fun a b => f a = Returned b) l bs.
Proof.
  induction l as [| a l IH]; simpl; intros bs H.
  - injection H as <-. constructor.
  - apply bind_Returned_inv in H. destruct H as (b & Hb & H).
    apply bind_Returned_inv in H. destruct H as (bs' & Hbs & H).
    injection H as <-. constructor; auto.
Qed.

Lemma Forall2_mapM {A B : Type} (f : A -> outcome B) (l : list A) (bs : list B) :
  Forall2 (fun a b => f a = Returned b) l bs -> mapM f l = Returned bs.
Proof.
  induction 1 as [| a b l bs Hab _ IH]; simpl.
  - reflexivity.
  - rewrite Hab. simpl. rewrite IH. reflexivity.
Qed.

Lemma Forall2_nth_error_l {A B : Type} (R : A -> B -> Prop) (l : list A) (bs : list B) :
  Forall2 R l bs ->
  forall i a, nth_error l i = Some a -> exists b, nth_error bs i = Some b /\ R a b.
Proof.
  induction 1 as [| a0 b0 l bs Hab _ IH]; intros i a Hi.
  - destruct i; discriminate Hi.
  - destruct i as [| i]; simpl in *.
    + injection Hi as <-. exists b0. auto.
    + apply IH. exact Hi.
Qed.

Lemma Forall2_In_r {A B : Type} (R : A -> B -> Prop) (l : list A) (bs : list B) :
  Forall2 R l bs ->
  forall b, In b bs ->
  exists i a, nth_error l i = Some a /\ nth_error bs i = Some b /\ R a b.
Proof.
  induction 1 as [| a0 b0 l bs Hab _ IH]; intros b Hb.
  - destruct Hb.
  - destruct Hb as [<- | Hb].
    + exists 0%nat, a0. auto.
    + destruct (IH b Hb) as (i & a & H1 & H2 & H3).
      exists (S i), a. auto.
Qed.

(** ** The DNA classifier *)

Lemma str_eqb_eq (s t : str) : str_eqb s t = true <-> s = t.
Proof.
  revert t. induction s as [| a s IH]; intros [| b t]; simpl; split; intros H;
    try reflexivity; try discriminate H.
  - apply andb_true_iff in H. destruct H as [Hab Hst].
    apply Z.eqb_eq in Hab. apply IH in Hst. congruence.
  - injection H as -> ->. rewrite Z.eqb_refl. apply IH. reflexivity.
Qed.

Lemma str_eqb_refl (s : str) : str_eqb s s = true.
Proof. apply str_eqb_eq. reflexivity. Qed.

Lemma str_eqb_sym (s t : str) : str_eqb s t = str_eqb t s.
Proof.
  destruct (str_eqb s t) eqn:E.
  - apply str_eqb_eq in E. subst t. symmetry. apply str_eqb_refl.
  - destruct (str_eqb t s) eqn:E'; [| reflexivity].
    apply str_eqb_eq in E'. subst t. rewrite str_eqb_refl in E. discriminate E.
Qed.

(** *** Upper case and whitespace *)

Lemma isspace_In (c : Z) : isspace c = true <-> In c whitespace.
Proof.
  unfold isspace. rewrite existsb_exists. split.
  - intros (w & Hw & Heq). apply Z.eqb_eq in Heq. subst w. exact Hw.
  - intros H. exists c. split; [exact H | apply Z.eqb_refl].
Qed.

(** A whitespace code point is its own upper case. *)
Lemma upper_char_space (c : Z) : isspace c = true -> upper_char c = [c].
Proof.
  intros H. apply isspace_In in H. unfold whitespace in H. simpl in H.
  repeat (destruct H as [<- | H]; [vm_compute; reflexivity |]). destruct H.
Qed.

Lemma upper_special_clear :
  forallb (fun e : Z * list Z =>
             match snd e with
             | [] => false
             | _ :: _ => forallb (fun x => negb (isspace x)) (snd e)
             end) upper_special = true.
Proof. vm_compute. reflexivity. Qed.

Lemma upper_ranges_clear :
  forallb (fun r : Z * Z * Z * Z =>
             let '(first, last, _, upper_first) := r in
             forallb (fun w => (w <? upper_first) || (upper_first + (last - first) <? w))
                     whitespace) upper_ranges = true.
Proof. vm_compute. reflexivity. Qed.

(** The upper case of any other code point is not empty and holds no
    whitespace. *)
Lemma upper_char_not_space (c : Z) :
  isspace c = false ->
  upper_char c <> [] /\ Forall (fun x => isspace x = false) (upper_char c).
Proof.
  intros Hc. unfold upper_char.
  destruct (find (fun e => fst e =? c) upper_special) as [e |] eqn:Especial.
  - apply find_some in Especial. destruct Especial as [Hin _].
    pose proof upper_special_clear as Hclear. rewrite forallb_forall in Hclear.
    specialize (Hclear e Hin). destruct (snd e) as [| x l]; [discriminate Hclear |].
    split; [discriminate |]. apply Forall_forall. intros y Hy.
    rewrite forallb_forall in Hclear. apply negb_true_iff. apply Hclear. exact Hy.
  - destruct (find (in_range c) upper_ranges) as [[[[first last] step] upper_first] |]
      eqn:Erange.
    + apply find_some in Erange. destruct Erange as [Hin Hrange].
      split; [discriminate |]. constructor; [| constructor].
      destruct (isspace (c - first + upper_first)) eqn:Hsp; [| reflexivity].
      exfalso. apply isspace_In in Hsp.
      pose proof upper_ranges_clear as Hclear. rewrite forallb_forall in Hclear.
      specialize (Hclear _ Hin). cbv beta iota zeta in Hclear.
      rewrite forallb_forall in Hclear.
      specialize (Hclear _ Hsp).
      unfold in_range in Hrange.
      apply andb_true_iff in Hrange. destruct Hrange as [Hrange _].
      apply andb_true_iff in Hrange. destruct Hrange as [Hlo Hhi].
      apply Z.leb_le in Hlo. apply Z.leb_le in Hhi.
      apply orb_true_iff in Hclear. destruct Hclear as [H | H]; apply Z.ltb_lt in H; lia.
    + split; [discriminate |]. constructor; [exact Hc | constructor].
Qed.

Lemma upper_char_not_nil (c : Z) : upper_char c <> [].
Proof.
  destruct (isspace c) eqn:Hc.
  - rewrite (upper_char_space c Hc). discriminate.
  - apply (upper_char_not_space c Hc).
Qed.

Lemma upper_cons (c : Z) (s : str) : upper (c :: s) = upper_char c ++ upper s.
Proof. reflexivity. Qed.

Lemma upper_not_nil (c : Z) (s : str) : upper (c :: s) <> [].
Proof.
  rewrite upper_cons. pose proof (upper_char_not_nil c) as H.
  destruct (upper_char c); [contradiction | discriminate].
Qed.

Lemma lstrip_clear_app (u t : str) :
  u <> [] -> Forall (fun x => isspace x = false) u -> lstrip (u ++ t) = u ++ t.
Proof.
  intros Hne Hu. destruct u as [| a u]; [contradiction |].
  inversion Hu as [| x l Ha _]; subst. simpl. rewrite Ha. reflexivity.
Qed.

Lemma rstrip_clear_app (u t : str) :
  Forall (fun x => isspace x = false) u -> rstrip (u ++ t) = u ++ rstrip t.
Proof.
  induction 1 as [| a u Ha _ IH]; [reflexivity |].
  simpl. rewrite IH.
  destruct u as [| b u]; simpl; [| reflexivity].
  destruct (rstrip t); [rewrite Ha |]; reflexivity.
Qed.

Lemma upper_lstrip (s : str) : upper (lstrip s) = lstrip (upper s).
Proof.
  induction s as [| c s IH]; [reflexivity |].
  rewrite upper_cons. simpl lstrip. destruct (isspace c) eqn:Hc.
  - rewrite (upper_char_space c Hc). simpl. rewrite Hc. exact IH.
  - destruct (upper_char_not_space c Hc) as [Hne Hclear].
    rewrite (lstrip_clear_app _ _ Hne Hclear). apply upper_cons.
Qed.

Lemma upper_rstrip (s : str) : upper (rstrip s) = rstrip (upper s).
Proof.
  induction s as [| c s IH]; [reflexivity |].
  rewrite upper_cons. destruct (isspace c) eqn:Hc.
  - rewrite (upper_char_space c Hc). simpl. rewrite Hc, <- IH.
    destruct (rstrip s) as [| d r] eqn:Er; [reflexivity |].
    pose proof (upper_not_nil d r) as Hne.
    destruct (upper (d :: r)) eqn:Eu; [contradiction |].
    rewrite upper_cons, (upper_char_space c Hc), Eu. reflexivity.
  - destruct (upper_char_not_space c Hc) as [_ Hclear].
    rewrite (rstrip_clear_app _ _ Hclear), <- IH.
    simpl rstrip. rewrite Hc.
    destruct (rstrip s); reflexivity.
Qed.

Lemma upper_strip (s : str) : upper (strip s) = strip (upper s).
Proof. unfold strip. rewrite upper_rstrip, upper_lstrip. reflexivity. Qed.

Lemma rstrip_all_space (s : str) : all_space s = true -> rstrip s = [].
Proof.
  induction s as [| c s IH]; simpl; [reflexivity |].
  intros H. apply andb_true_iff in H. destruct H as [Hc Hs].
  rewrite (IH Hs), Hc. reflexivity.
Qed.

Lemma rstrip_app (s post : str) :
  all_space post = true -> rstrip (s ++ post) = rstrip s.
Proof.
  intros Hpost. induction s as [| c s IH]; simpl.
  - apply rstrip_all_space. exact Hpost.
  - rewrite IH. reflexivity.
Qed.

Lemma lstrip_all_space (s : str) : all_space s = true -> lstrip s = [].
Proof.
  induction s as [| c s IH]; simpl; [reflexivity |].
  intros H. apply andb_true_iff in H. destruct H as [Hc Hs].
  rewrite Hc. apply IH. exact Hs.
Qed.

Lemma strip_padding (pre post s : str) :
  all_space pre = true -> all_space post = true ->
  strip (pre ++ s ++ post) = strip s.
Proof.
  unfold strip. intros Hpre Hpost.
  assert (lstrip (pre ++ s ++ post) = lstrip (s ++ post)) as ->.
  { induction pre as [| c pre IH]; simpl; [reflexivity |].
    simpl in Hpre. apply andb_true_iff in Hpre. destruct Hpre as [Hc Hpre].
    rewrite Hc. apply IH. exact Hpre. }
  induction s as [| c s IH]; simpl.
  - rewrite (lstrip_all_space post Hpost). reflexivity.
  - destruct (isspace c); [exact IH |].
    change (c :: s ++ post) with ((c :: s) ++ post).
    apply rstrip_app. exact Hpost.
Qed.

(** *** The texts that read DAY and NIGHT *)

Lemma upper_char_head (c h : Z) (rest : list Z) :
  upper_char c = h :: rest -> c = h \/ In c (upper_preimages h).
Proof.
  unfold upper_char, upper_preimages. intros H.
  destruct (find (fun e => fst e =? c) upper_special) as [e |] eqn:Especial.
  - apply find_some in Especial. destruct Especial as [Hin Hc].
    apply Z.eqb_eq in Hc. right. apply in_or_app. left.
    rewrite <- Hc. apply in_map. apply filter_In. split; [exact Hin |].
    rewrite H. apply Z.eqb_refl.
  - destruct (find (in_range c) upper_ranges) as [[[[first last] step] upper_first] |]
      eqn:Erange.
    + apply find_some in Erange. destruct Erange as [Hin Hrange].
      injection H as Hh _. right. apply in_or_app. right.
      apply in_flat_map. exists (first, last, step, upper_first).
      split; [exact Hin |]. cbv beta iota zeta.
      replace (h - upper_first + first) with c by lia.
      rewrite Hrange. left. reflexivity.
    + injection H as Hh _. left. exact Hh.
Qed.

Lemma upper_head (c : Z) (t : str) (h : Z) (rest : list Z) :
  upper (c :: t) = h :: rest -> c = h \/ In c (upper_preimages h).
Proof.
  rewrite upper_cons. intros H.
  destruct (upper_char c) as [| x u] eqn:E; [destruct (upper_char_not_nil c E) |].
  injection H as -> _. apply (upper_char_head c h u E).
Qed.

Ltac upper_letter H :=
  let Hc := fresh "Hc" in
  pose proof (upper_head _ _ _ _ H) as Hc;
  vm_compute in Hc;
  repeat (destruct Hc as [Hc | Hc]); try contradiction; subst;
  rewrite upper_cons in H;
  match type of H with
  | upper_char ?c ++ _ = _ =>
      let u := eval vm_compute in (upper_char c) in
      change (upper_char c) with u in H
  end;
  simpl app in H; injection H as H; try discriminate H.

Lemma upper_is_DAY (t : str) : upper t = str_of "DAY" <-> spelled DAY_letters t.
Proof.
  split.
  - intros H. change (str_of "DAY") with [0x44; 0x41; 0x59] in H.
    destruct t as [| c1 t]; [discriminate H |]. upper_letter H.
    all: destruct t as [| c2 t]; [discriminate H |]; upper_letter H.
    all: destruct t as [| c3 t]; [discriminate H |]; upper_letter H.
    all: destruct t as [| c4 t]; [| destruct (upper_not_nil c4 t H)].
    all: unfold spelled; repeat (apply Forall2_cons || apply Forall2_nil); simpl; tauto.
  - intros H. unfold spelled, DAY_letters in H.
    repeat match goal with
           | H : Forall2 _ _ _ |- _ => inversion H; subst; clear H
           end.
    repeat match goal with
           | H : In _ _ |- _ => simpl in H; decompose [or] H; clear H
           end; subst; try contradiction; reflexivity.
Qed.

Lemma upper_is_NIGHT (t : str) : upper t = str_of "NIGHT" <-> spelled NIGHT_letters t.
Proof.
  split.
  - intros H. change (str_of "NIGHT") with [0x4E; 0x49; 0x47; 0x48; 0x54] in H.
    destruct t as [| c1 t]; [discriminate H |]. upper_letter H.
    all: destruct t as [| c2 t]; [discriminate H |]; upper_letter H.
    all: destruct t as [| c3 t]; [discriminate H |]; upper_letter H.
    all: destruct t as [| c4 t]; [discriminate H |]; upper_letter H.
    all: destruct t as [| c5 t]; [discriminate H |]; upper_letter H.
    all: destruct t as [| c6 t]; [| destruct (upper_not_nil c6 t H)].
    all: unfold spelled; repeat (apply Forall2_cons || apply Forall2_nil); simpl; tauto.
  - intros H. unfold spelled, NIGHT_letters in H.
    repeat match goal with
           | H : Forall2 _ _ _ |- _ => inversion H; subst; clear H
           end.
    repeat match goal with
           | H : In _ _ |- _ => simpl in H; decompose [or] H; clear H
           end; subst; try contradiction; reflexivity.
Qed.

Lemma count_cells_cons (p : cell -> bool) (c : cell) (vals : list cell) :
  count_cells p (c :: vals) = (if p c then 1 else 0) + count_cells p vals.
Proof.
  unfold count_cells. simpl. destruct (p c); simpl length; lia.
Qed.

Lemma day_not_night (c : cell) : counts_as_day c = true -> counts_as_night c = false.
Proof.
  unfold counts_as_day, counts_as_night. intros H.
  apply str_eqb_eq in H. rewrite H. reflexivity.
Qed.

Lemma count_shifts_acc (row : Series) (date_cols : list string) :
  forall vals day_count night_count,
    mapM (getitem row) date_cols = Returned vals ->
    count_shifts row date_cols day_count night_count
    = Returned (day_count + count_cells counts_as_day vals,
                night_count + count_cells counts_as_night vals).
Proof.
  induction date_cols as [| col rest IH]; simpl; intros vals dc nc H.
  - injection H as <-. unfold count_cells. simpl. f_equal. f_equal; lia.
  - apply bind_Returned_inv in H. destruct H as (c & Hc & H).
    apply bind_Returned_inv in H. destruct H as (vals' & Hvals & H).
    injection H as <-. rewrite Hc. simpl.
    rewrite !count_cells_cons.
    fold (normalized c). fold (counts_as_day c). fold (counts_as_night c).
    destruct (counts_as_day c) eqn:Hd.
    + rewrite (day_not_night c Hd). rewrite (IH vals' _ _ Hvals).
      f_equal. f_equal; lia.
    + destruct (counts_as_night c) eqn:Hn; rewrite (IH vals' _ _ Hvals);
        f_equal; f_equal; lia.
Qed.

Lemma count_shifts_reads (row : Series) (date_cols : list string) :
  forall day_count night_count r,
    count_shifts row date_cols day_count night_count = Returned r ->
    exists vals, mapM (getitem row) date_cols = Returned vals.
Proof.
  induction date_cols as [| col rest IH]; simpl; intros dc nc r H.
  - eexists. reflexivity.
  - apply bind_Returned_inv in H. destruct H as (c & Hc & H).
    rewrite Hc. simpl.
    assert (exists vals, mapM (getitem row) rest = Returned vals) as (vals & Hv).
    { destruct (str_eqb _ "DAY"); [eapply IH; eassumption |].
      destruct (str_eqb _ "NIGHT"); eapply IH; eassumption. }
    rewrite Hv. simpl. eexists. reflexivity.
Qed.

(** C3.  The classifier is a function of the two counts alone, defined on
    every pair: on non-negative counts it answers [Fixed_Day] exactly when
    there are days and no nights, [Fixed_Night] exactly when there are
    nights and no days, and [Rotating] exactly when both counts are zero or
    both are positive. *)
Theorem determine_dna_spec (day_count night_count : Z) :
  0 <= day_count -> 0 <= night_count ->
  (determine_dna day_count night_count = Fixed_Day
   <-> 0 < day_count /\ night_count = 0)
  /\ (determine_dna day_count night_count = Fixed_Night
      <-> 0 < night_count /\ day_count = 0)
  /\ (determine_dna day_count night_count = Rotating
      <-> (day_count = 0 /\ night_count = 0) \/ (0 < day_count /\ 0 < night_count)).
Proof.
  intros Hd Hn. unfold determine_dna.
  destruct (Z.ltb_spec 0 day_count); destruct (Z.eqb_spec night_count 0);
    destruct (Z.ltb_spec 0 night_count); destruct (Z.eqb_spec day_count 0); simpl;
    (repeat split); intros; try discriminate; try lia.
  all: exfalso; lia.
Qed.

Lemma determine_dna_spec_witness :
  determine_dna 12 0 = Fixed_Day /\ determine_dna 0 7 = Fixed_Night
  /\ determine_dna 0 0 = Rotating /\ determine_dna 3 4 = Rotating.
Proof.
  destruct (determine_dna_spec 12 0 ltac:(lia) ltac:(lia)) as (Hday & _ & _).
  destruct (determine_dna_spec 0 7 ltac:(lia) ltac:(lia)) as (_ & Hnight & _).
  destruct (determine_dna_spec 0 0 ltac:(lia) ltac:(lia)) as (_ & _ & Hnone).
  destruct (determine_dna_spec 3 4 ltac:(lia) ltac:(lia)) as (_ & _ & Hboth).
  split; [apply Hday; lia |].
  split; [apply Hnight; lia |].
  split; [apply Hnone; lia | apply Hboth; lia].
Defined.

(** C10.  For one history row, [Day_Count] is the number of date cells
    whose text, stripped and uppercased, is "DAY", [Night_Count] the number
    of those whose text is then "NIGHT"; any other cell adds to neither, and
    a row with such cells only has both counts 0 and is [Rotating].  The
    cells that count are those whose stripped text is spelled d-a-y, or
    n-i-g-h-t, in letters of either case. *)
Theorem analyze_row_counts (date_cols : list string) (row : Series)
        (emp_id : cell) (p : profile) :
  analyze_row date_cols row = Returned (emp_id, p) ->
  exists vals,
    mapM (getitem row) date_cols = Returned vals
    /\ Day_Count p = count_cells counts_as_day vals
    /\ Night_Count p = count_cells counts_as_night vals
    /\ DNA_of p = determine_dna (Day_Count p) (Night_Count p)
    /\ (Forall (fun c => counts_as_day c = false /\ counts_as_night c = false) vals ->
        Day_Count p = 0 /\ Night_Count p = 0 /\ DNA_of p = Rotating)
    /\ (forall c, counts_as_day c = true <-> spelled DAY_letters (strip (py_str c)))
    /\ (forall c, counts_as_night c = true <-> spelled NIGHT_letters (strip (py_str c))).
Proof.
  unfold analyze_row. intros H.
  apply bind_Returned_inv in H. destruct H as (id & _ & H).
  apply bind_Returned_inv in H. destruct H as (name & _ & H).
  apply bind_Returned_inv in H. destruct H as ([dc nc] & Hcount & H).
  apply bind_Returned_inv in H. destruct H as (st & _ & H).
  apply bind_Returned_inv in H. destruct H as (dep & _ & H).
  injection H as _ <-. simpl.
  destruct (count_shifts_reads _ _ _ _ _ Hcount) as (vals & Hvals).
  rewrite (count_shifts_acc _ _ _ 0 0 Hvals) in Hcount.
  injection Hcount as <- <-.
  exists vals.
  split; [exact Hvals |]. split; [reflexivity |]. split; [reflexivity |].
  split; [reflexivity |]. split.
  - intros Hother.
    assert (count_cells counts_as_day vals = 0) as Hd0.
    { clear Hvals. induction Hother as [| c vals [Hd _] _ IH];
        [reflexivity | rewrite count_cells_cons, Hd; exact IH]. }
    assert (count_cells counts_as_night vals = 0) as Hn0.
    { clear Hvals Hd0. induction Hother as [| c vals [_ Hn] _ IH];
        [reflexivity | rewrite count_cells_cons, Hn; exact IH]. }
    rewrite Hd0, Hn0. repeat split.
  - split; intros c; unfold counts_as_day, counts_as_night, normalized;
      rewrite str_eqb_eq; [apply upper_is_DAY | apply upper_is_NIGHT].
Qed.

(** Esra's row has one cell of each kind, behind a no-break space and a
    dotless i; Dev's row has none and is Rotating. *)
Lemma analyze_row_counts_witness :
  (exists vals,
     mapM (getitem History.esra) (date_cols_of History.df) = Returned vals
     /\ 1 = count_cells counts_as_day vals
     /\ 1 = count_cells counts_as_night vals
     /\ map counts_as_day vals = [true; false; false]
     /\ map counts_as_night vals = [false; true; false])
  /\ (exists vals,
        mapM (getitem History.dev) (date_cols_of History.df) = Returned vals
        /\ Forall (fun c => counts_as_day c = false /\ counts_as_night c = false) vals
        /\ determine_dna 0 0 = Rotating).
Proof.
  split.
  - destruct (analyze_row_counts (date_cols_of History.df) History.esra (CInt 105)
                (mkprofile (CStr "Esra") Rotating 1 1 (CStr "Active") (CStr "Inbound"))
                ltac:(vm_compute; reflexivity))
      as (vals & Hvals & Hday & Hnight & _).
    exists vals. split; [exact Hvals |]. split; [exact Hday |]. split; [exact Hnight |].
    vm_compute in Hvals. injection Hvals as <-. vm_compute. split; reflexivity.
  - destruct (analyze_row_counts (date_cols_of History.df) History.dev (CInt 104)
                (mkprofile (CStr "Dev") Rotating 0 0 (CStr "Active") (CStr "Inbound"))
                ltac:(vm_compute; reflexivity))
      as (vals & Hvals & _ & _ & _ & Hrest & _).
    exists vals. split; [exact Hvals |].
    assert (Forall (fun c => counts_as_day c = false /\ counts_as_night c = false) vals)
      as Hother.
    { vm_compute in Hvals. injection Hvals as <-.
      repeat constructor. }
    split; [exact Hother |].
    destruct (Hrest Hother) as (_ & _ & Hdna). exact Hdna.
Defined.

Example sample_history_dna :
  option_map (fun r => map (fun kv => (fst kv, DNA_of (snd kv), Day_Count (snd kv),
                                       Night_Count (snd kv))) (snd r))
    (match load_and_analyze_data History.df with
     | Returned r => Some r
     | Raised _ => None
     end)
  = Some [(CInt 101, Fixed_Day, 2, 0); (CInt 102, Fixed_Night, 0, 2);
          (CInt 103, Rotating, 1, 1); (CInt 104, Rotating, 0, 0)].
Proof. vm_compute. reflexivity. Qed.

Example stripped_and_uppercased :
  normalized (CStr "  Night ") = "NIGHT"%string
  /\ normalized (CStr "day") = "DAY"%string
  /\ normalized CNaN = "NAN"%string
  /\ normalized (CInt 12) = "12"%string
  /\ normalized (CStr "D AY") = "D AY"%string.
Proof. vm_compute. repeat split. Qed.

(** Beyond ASCII: a no-break space is stripped, a dotless i becomes I, a
    sharp s becomes SS, and the long s becomes S. *)
Example stripped_and_uppercased_unicode :
  normalized (CStr ([0xA0] ++ str_of "Day" ++ [0x3000])%list) = "DAY"%string
  /\ normalized (CStr [0x6E; 0x0131; 0x67; 0x68; 0x74]) = "NIGHT"%string
  /\ normalized (CStr [0x73; 0x74; 0x72; 0x61; 0xDF; 0x65]) = "STRASSE"%string
  /\ normalized (CStr [0x017F]) = "S"%string
  /\ normalized (CStr [0xE9]) = [0xC9].
Proof. vm_compute. repeat split. Qed.

(** ** Reading a model that holds *)

Lemma model_holds_In (model : CpModel) (s : Solution) (c : ModelCall) :
  model_holds model s = true -> In c model -> call_holds s c = true.
Proof.
  unfold model_holds. intros H Hin.
  rewrite forallb_forall in H. apply H. exact Hin.
Qed.

Lemma Value_fold_left_Plus (s : Solution) (items : list LinearExpr) :
  forall acc,
    Value s (fold_left Plus items acc)
    = Value s acc + fold_right Z.add 0 (map (Value s) items).
Proof.
  induction items as [| x items IH]; simpl; intros acc.
  - lia.
  - rewrite IH. simpl. lia.
Qed.

Lemma Value_py_sum (s : Solution) (items : list LinearExpr) :
  Value s (py_sum items) = fold_right Z.add 0 (map (Value s) items).
Proof.
  unfold py_sum. rewrite Value_fold_left_Plus. simpl. reflexivity.
Qed.

(** A Boolean variable tied to [x == c] by the two half-reified
    constraints takes the truth value of [x == c]. *)
Lemma reified_value (s : Solution) (b : IntVar) (x : LinearExpr) (c : Z) :
  call_holds s (NewBoolVar b) = true ->
  call_holds s (Add (Eq x (Const c)) [Lit b]) = true ->
  call_holds s (Add (Ne x (Const c)) [Not b]) = true ->
  s b = if Value s x =? c then 1 else 0.
Proof.
  simpl. intros Hdom Hpos Hneg.
  apply andb_true_iff in Hdom. destruct Hdom as [H0 H1].
  apply Z.leb_le in H0. apply Z.leb_le in H1.
  destruct (Z.eqb_spec (s b) 1) as [E1 | E1]; simpl in Hpos.
  - rewrite Hpos. exact E1.
  - assert (s b = 0) as E0 by lia.
    rewrite E0 in Hneg. simpl in Hneg.
    apply negb_true_iff in Hneg. rewrite Hneg. exact E0.
Qed.

(** The sum of such Booleans over a list of days counts the days on which
    the equality holds. *)
Lemma sum_reified (s : Solution) (b x : nat -> IntVar) (c : Z) (days : list nat) :
  (forall d, In d days -> s (b d) = if s (x d) =? c then 1 else 0) ->
  fold_right Z.add 0 (map (Value s) (map (fun d => Var (b d)) days))
  = Z.of_nat (length (filter (fun d => s (x d) =? c) days)).
Proof.
  induction days as [| d days IH]; simpl; intros H.
  - reflexivity.
  - rewrite IH by (intros d' Hd'; apply H; right; exact Hd').
    rewrite (H d) by (left; reflexivity).
    destruct (s (x d) =? c); simpl length; lia.
Qed.

Lemma list_max_ge (l : list Z) (m : Z) :
  list_max l = Some m -> forall v, In v l -> v <= m.
Proof.
  revert m. induction l as [| a l IH]; simpl; intros m H v Hv.
  - destruct Hv.
  - destruct (list_max l) as [m' |] eqn:E.
    + injection H as <-. destruct Hv as [<- | Hv]; [lia |].
      specialize (IH m' eq_refl v Hv). lia.
    + injection H as <-. destruct l; [| simpl in E; destruct (list_max l); discriminate].
      destruct Hv as [<- | []]. lia.
Qed.

Lemma list_min_le (l : list Z) (m : Z) :
  list_min l = Some m -> forall v, In v l -> m <= v.
Proof.
  revert m. induction l as [| a l IH]; simpl; intros m H v Hv.
  - destruct Hv.
  - destruct (list_min l) as [m' |] eqn:E.
    + injection H as <-. destruct Hv as [<- | Hv]; [lia |].
      specialize (IH m' eq_refl v Hv). lia.
    + injection H as <-. destruct l; [| simpl in E; destruct (list_min l); discriminate].
      destruct Hv as [<- | []]. lia.
Qed.

Lemma list_max_In (l : list Z) (m : Z) : list_max l = Some m -> In m l.
Proof.
  revert m. induction l as [| a l IH]; simpl; intros m H.
  - discriminate.
  - destruct (list_max l) as [m' |].
    + injection H as <-. destruct (Z.max_spec a m') as [[_ ->] | [_ ->]]; auto.
    + injection H as <-. auto.
Qed.

Lemma list_min_In (l : list Z) (m : Z) : list_min l = Some m -> In m l.
Proof.
  revert m. induction l as [| a l IH]; simpl; intros m H.
  - discriminate.
  - destruct (list_min l) as [m' |].
    + injection H as <-. destruct (Z.min_spec a m') as [[_ ->] | [_ ->]]; auto.
    + injection H as <-. auto.
Qed.

Lemma In_combine_seq {A : Type} (l : list A) (i : nat) (a : A) :
  forall k, In (i, a) (combine (seq k (length l)) l)
            <-> (k <= i)%nat /\ nth_error l (i - k) = Some a.
Proof.
  induction l as [| x l IH]; simpl; intros k.
  - split; [intros [] | intros [_ H]; destruct (i - k)%nat; discriminate].
  - rewrite IH. split.
    + intros [Heq | [Hle Hn]].
      * injection Heq as <- <-. split; [lia |]. rewrite Nat.sub_diag. reflexivity.
      * split; [lia |]. replace (i - k)%nat with (S (i - S k)) by lia. exact Hn.
    + intros [Hle Hn]. destruct (Nat.eq_dec k i) as [<- | Hne].
      * rewrite Nat.sub_diag in Hn. simpl in Hn. injection Hn as <-. left. reflexivity.
      * right. split; [lia |].
        replace (i - k)%nat with (S (i - S k)) in Hn by lia. exact Hn.
Qed.

Lemma In_enumerate {A : Type} (l : list A) (i : nat) (a : A) :
  In (i, a) (enumerate l) <-> nth_error l i = Some a.
Proof.
  unfold enumerate. rewrite In_combine_seq, Nat.sub_0_r.
  split; [intros [_ Hn]; exact Hn | intros Hn; split; [lia | exact Hn]].
Qed.

Section Holds.

Variable employee_dna : dict.
Variable num_days : nat.
Variable weeks : list (list nat).
Variable s : Solution.

Hypothesis Hs : model_holds (build_model employee_dna num_days weeks) s = true.

Lemma weekly_off_call (week_days : list nat) (e : nat) (c : ModelCall) :
  In week_days weeks -> In e (emp_indices employee_dna) ->
  In c (weekly_off_of e week_days) -> call_holds s c = true.
Proof.
  intros Hw He Hc. apply (model_holds_In _ _ _ Hs).
  unfold build_model. rewrite !in_app_iff. right. right. left.
  unfold weekly_off_constraints.
  apply in_flat_map. exists week_days. split; [exact Hw |].
  apply in_flat_map. exists e. split; [exact He | exact Hc].
Qed.

Lemma shift_lock_call (week_days : list nat) (e : nat) (c : ModelCall) :
  In week_days weeks -> In e (emp_indices employee_dna) ->
  In c (shift_lock_of e week_days) -> call_holds s c = true.
Proof.
  intros Hw He Hc. apply (model_holds_In _ _ _ Hs).
  unfold build_model. rewrite !in_app_iff. right. right. right. left.
  unfold shift_lock_constraints.
  apply in_flat_map. exists week_days. split; [exact Hw |].
  apply in_flat_map. exists e. split; [exact He | exact Hc].
Qed.

Lemma totals_call (e : nat) (c : ModelCall) :
  In e (emp_indices employee_dna) ->
  In c (totals_of num_days e) -> call_holds s c = true.
Proof.
  intros He Hc. apply (model_holds_In _ _ _ Hs).
  unfold build_model. rewrite !in_app_iff. do 4 right. left.
  unfold totals_constraints. rewrite !in_app_iff. right. right.
  apply in_flat_map. exists e. split; [exact He | exact Hc].
Qed.

Lemma rest_indicator (week_days : list nat) (e d : nat) :
  In week_days weeks -> In e (emp_indices employee_dna) -> In d week_days ->
  s (is_wo_e_d e d) = if s (shift_e_d e d) =? 0 then 1 else 0.
Proof.
  intros Hw He Hd.
  apply (reified_value s (is_wo_e_d e d) (roster e d) 0);
    apply (weekly_off_call week_days e _ Hw He); unfold weekly_off_of;
    rewrite !in_app_iff.
  - left. apply in_map. apply in_map_iff. exists d. auto.
  - right. left. apply in_flat_map. exists d. simpl. auto.
  - right. left. apply in_flat_map. exists d. simpl. auto.
Qed.

Lemma weekly_rest_count (week_days : list nat) (e : nat) :
  In week_days weeks -> In e (emp_indices employee_dna) ->
  (length week_days = 7%nat -> days_with s e 0 week_days = 2%nat)
  /\ (length week_days <> 7%nat -> (days_with s e 0 week_days <= 2)%nat).
Proof.
  intros Hw He.
  assert (Value s (py_sum (map Var (map (fun d => is_wo_e_d e d) week_days)))
          = Z.of_nat (days_with s e 0 week_days)) as Hsum.
  { rewrite Value_py_sum. rewrite (map_map (fun d => is_wo_e_d e d) Var).
    apply (sum_reified s (fun d => is_wo_e_d e d) (fun d => shift_e_d e d) 0).
    intros d Hd. apply (rest_indicator week_days); assumption. }
  assert (call_holds s
            (if (length week_days =? 7)%nat
             then Add (Eq (py_sum (map Var (map (fun d => is_wo_e_d e d) week_days)))
                          (Const 2)) []
             else Add (Le (py_sum (map Var (map (fun d => is_wo_e_d e d) week_days)))
                          (Const 2)) []) = true) as Hc.
  { apply (weekly_off_call week_days e _ Hw He). unfold weekly_off_of.
    rewrite !in_app_iff. right. right. left. reflexivity. }
  split; intros Hlen.
  - apply Nat.eqb_eq in Hlen. rewrite Hlen in Hc. simpl in Hc.
    rewrite Hsum in Hc. apply Z.eqb_eq in Hc. lia.
  - apply Nat.eqb_neq in Hlen. rewrite Hlen in Hc. simpl in Hc.
    rewrite Hsum in Hc. apply Z.leb_le in Hc. lia.
Qed.

Lemma day_indicator (week_days : list nat) (e d : nat) :
  In week_days weeks -> In e (emp_indices employee_dna) -> In d week_days ->
  s (is_day_e_d e d) = if s (shift_e_d e d) =? 1 then 1 else 0.
Proof.
  intros Hw He Hd.
  apply (reified_value s (is_day_e_d e d) (roster e d) 1);
    apply (shift_lock_call week_days e _ Hw He); unfold shift_lock_of;
    rewrite !in_app_iff; right; left; apply in_flat_map; exists d; simpl; auto 10.
Qed.

Lemma night_indicator (week_days : list nat) (e d : nat) :
  In week_days weeks -> In e (emp_indices employee_dna) -> In d week_days ->
  s (is_night_e_d e d) = if s (shift_e_d e d) =? 2 then 1 else 0.
Proof.
  intros Hw He Hd.
  apply (reified_value s (is_night_e_d e d) (roster e d) 2);
    apply (shift_lock_call week_days e _ Hw He); unfold shift_lock_of;
    rewrite !in_app_iff; right; left; apply in_flat_map; exists d; simpl; auto 10.
Qed.

(** No week of an employee holds both a day shift and a night shift. *)
Lemma no_day_and_night (week_days : list nat) (e d1 d2 : nat) :
  In week_days weeks -> In e (emp_indices employee_dna) ->
  In d1 week_days -> In d2 week_days ->
  s (shift_e_d e d1) = 1 -> s (shift_e_d e d2) = 2 -> False.
Proof.
  intros Hw He Hd1 Hd2 H1 H2.
  pose proof (day_indicator week_days e d1 Hw He Hd1) as Hday.
  pose proof (night_indicator week_days e d2 Hw He Hd2) as Hnight.
  rewrite H1 in Hday. rewrite H2 in Hnight. simpl in Hday, Hnight.
  set (w := hd 0%nat week_days).
  assert (call_holds s (AddMaxEquality (Var (has_day_e_w e w))
            (map (fun d => Var (is_day_e_d e d)) week_days)) = true) as Hmd.
  { apply (shift_lock_call week_days e _ Hw He). unfold shift_lock_of.
    rewrite !in_app_iff. right. right. simpl. auto. }
  assert (call_holds s (AddMaxEquality (Var (has_night_e_w e w))
            (map (fun d => Var (is_night_e_d e d)) week_days)) = true) as Hmn.
  { apply (shift_lock_call week_days e _ Hw He). unfold shift_lock_of.
    rewrite !in_app_iff. right. right. simpl. auto. }
  assert (call_holds s (Add (Le (Plus (Var (has_day_e_w e w)) (Var (has_night_e_w e w)))
                                (Const 1)) []) = true) as Hle.
  { apply (shift_lock_call week_days e _ Hw He). unfold shift_lock_of.
    rewrite !in_app_iff. right. right. simpl. auto. }
  simpl in Hmd, Hmn, Hle.
  destruct (list_max (map (Value s) (map (fun d => Var (is_day_e_d e d)) week_days)))
    as [md |] eqn:Emd; [| discriminate].
  destruct (list_max (map (Value s) (map (fun d => Var (is_night_e_d e d)) week_days)))
    as [mn |] eqn:Emn; [| discriminate].
  apply Z.eqb_eq in Hmd. apply Z.eqb_eq in Hmn. apply Z.leb_le in Hle.
  assert (1 <= md) as Hd.
  { apply (list_max_ge _ _ Emd). rewrite map_map. simpl.
    apply in_map_iff. exists d1. auto. }
  assert (1 <= mn) as Hn.
  { apply (list_max_ge _ _ Emn). rewrite map_map. simpl.
    apply in_map_iff. exists d2. auto. }
  lia.
Qed.

(** Every shift variable lies in 0..2. *)
Lemma shift_domain (e d : nat) :
  In e (emp_indices employee_dna) -> In d (days_indices num_days) ->
  0 <= s (shift_e_d e d) <= 2.
Proof.
  intros He Hd.
  assert (call_holds s (NewIntVar 0 2 (shift_e_d e d)) = true) as H.
  { apply (model_holds_In _ _ _ Hs). unfold build_model.
    rewrite !in_app_iff. left. unfold roster_variables.
    apply in_flat_map. exists e. split; [exact He |].
    apply in_map_iff. exists d. auto. }
  simpl in H. apply andb_true_iff in H. destruct H as [H0 H2].
  apply Z.leb_le in H0. apply Z.leb_le in H2. lia.
Qed.

(** The DNA constraints: a Fixed_Day employee has no night, a Fixed_Night
    employee no day. *)
Lemma dna_respected (e d : nat) (emp_id : cell) (info : profile) :
  nth_error (employees employee_dna) e = Some emp_id ->
  dict_get employee_dna emp_id = Some info ->
  In d (days_indices num_days) ->
  (DNA_of info = Fixed_Day -> s (shift_e_d e d) <> 2)
  /\ (DNA_of info = Fixed_Night -> s (shift_e_d e d) <> 1).
Proof.
  intros He Hinfo Hd.
  assert (forall c,
            In c (match dna_lookup employee_dna emp_id with
                  | Some Fixed_Day => [Add (Ne (roster e d) (Const 2)) []]
                  | Some Fixed_Night => [Add (Ne (roster e d) (Const 1)) []]
                  | _ => []
                  end) -> call_holds s c = true) as H.
  { intros c Hc. apply (model_holds_In _ _ _ Hs). unfold build_model.
    rewrite !in_app_iff. right. left. unfold dna_constraints.
    apply in_flat_map. exists (e, emp_id). split.
    - apply In_enumerate. exact He.
    - unfold dna_constraints_of.
      apply in_flat_map. exists d. split; [exact Hd | exact Hc]. }
  unfold dna_lookup in H. rewrite Hinfo in H. simpl in H.
  split; intros Hdna; rewrite Hdna in H;
    specialize (H _ (or_introl eq_refl)); simpl in H;
    apply negb_true_iff in H; apply Z.eqb_neq in H; exact H.
Qed.

Lemma obj_day_indicator (e d : nat) :
  In e (emp_indices employee_dna) -> In d (days_indices num_days) ->
  s (obj_is_d_e_d e d) = if s (shift_e_d e d) =? 1 then 1 else 0.
Proof.
  intros He Hd.
  apply (reified_value s (obj_is_d_e_d e d) (roster e d) 1);
    apply (totals_call e _ He); unfold totals_of;
    rewrite !in_app_iff; left; apply in_flat_map; exists d; simpl; auto 10.
Qed.

Lemma obj_night_indicator (e d : nat) :
  In e (emp_indices employee_dna) -> In d (days_indices num_days) ->
  s (obj_is_n_e_d e d) = if s (shift_e_d e d) =? 2 then 1 else 0.
Proof.
  intros He Hd.
  apply (reified_value s (obj_is_n_e_d e d) (roster e d) 2);
    apply (totals_call e _ He); unfold totals_of;
    rewrite !in_app_iff; left; apply in_flat_map; exists d; simpl; auto 10.
Qed.

Lemma total_days_value (e : nat) :
  In e (emp_indices employee_dna) ->
  s (total_days_e e) = Z.of_nat (days_with s e 1 (days_indices num_days)).
Proof.
  intros He.
  assert (call_holds s
            (Add (Eq (total_days e)
                     (py_sum (map (fun d => Var (obj_is_d_e_d e d))
                                  (days_indices num_days)))) []) = true) as H.
  { apply (totals_call e _ He). unfold totals_of.
    rewrite !in_app_iff. right. simpl. auto. }
  simpl in H. apply Z.eqb_eq in H. rewrite H, Value_py_sum.
  apply (sum_reified s (fun d => obj_is_d_e_d e d) (fun d => shift_e_d e d) 1).
  intros d Hd. apply obj_day_indicator; assumption.
Qed.

Lemma total_nights_value (e : nat) :
  In e (emp_indices employee_dna) ->
  s (total_nights_e e) = Z.of_nat (days_with s e 2 (days_indices num_days)).
Proof.
  intros He.
  assert (call_holds s
            (Add (Eq (total_nights e)
                     (py_sum (map (fun d => Var (obj_is_n_e_d e d))
                                  (days_indices num_days)))) []) = true) as H.
  { apply (totals_call e _ He). unfold totals_of.
    rewrite !in_app_iff. right. simpl. auto. }
  simpl in H. apply Z.eqb_eq in H. rewrite H, Value_py_sum.
  apply (sum_reified s (fun d => obj_is_n_e_d e d) (fun d => shift_e_d e d) 2).
  intros d Hd. apply obj_night_indicator; assumption.
Qed.

Lemma days_and_nights_are_work (e : nat) (days : list nat) :
  (forall d, In d days -> 0 <= s (shift_e_d e d) <= 2) ->
  Z.of_nat (days_with s e 1 days) + Z.of_nat (days_with s e 2 days)
  = Z.of_nat (length (filter (fun d => negb (s (shift_e_d e d) =? 0)) days)).
Proof.
  unfold days_with. induction days as [| d days IH]; intros Hdom.
  - reflexivity.
  - specialize (IH (fun d' H => Hdom d' (or_intror H))).
    specialize (Hdom d (or_introl eq_refl)). simpl.
    destruct (Z.eqb_spec (s (shift_e_d e d)) 1);
      destruct (Z.eqb_spec (s (shift_e_d e d)) 2);
      destruct (Z.eqb_spec (s (shift_e_d e d)) 0); simpl length; lia.
Qed.

Lemma sum_of_totals (e : nat) :
  In e (emp_indices employee_dna) ->
  s (total_days_e e) + s (total_nights_e e) = total_work_of s num_days e.
Proof.
  intros He. rewrite total_days_value, total_nights_value by exact He.
  apply days_and_nights_are_work. intros d Hd. apply shift_domain; assumption.
Qed.

Lemma total_work_value (e : nat) :
  In e (emp_indices employee_dna) ->
  s (total_work_e e) = total_work_of s num_days e.
Proof.
  intros He.
  assert (call_holds s (Add (Eq (total_work e) (Plus (total_days e) (total_nights e))) [])
          = true) as H.
  { apply (model_holds_In _ _ _ Hs). unfold build_model.
    rewrite !in_app_iff. do 5 right. unfold spread_objective.
    rewrite !in_app_iff. right. left. apply in_map_iff. exists e. auto. }
  simpl in H. apply Z.eqb_eq in H. rewrite H. apply sum_of_totals. exact He.
Qed.

(** The value of the objective is the spread of the total work. *)
Lemma objective_is_spread :
  spread_of (map (total_work_of s num_days) (emp_indices employee_dna))
  = Some (Value s (Minus (Var max_work) (Var min_work))).
Proof.
  assert (map (Value s) (map total_work (emp_indices employee_dna))
          = map (total_work_of s num_days) (emp_indices employee_dna)) as Hmap.
  { rewrite map_map. apply map_ext_in. intros e He. simpl.
    apply total_work_value. exact He. }
  assert (call_holds s (AddMinEquality (Var min_work)
                          (map total_work (emp_indices employee_dna))) = true) as Hmin.
  { apply (model_holds_In _ _ _ Hs). unfold build_model.
    rewrite !in_app_iff. do 5 right. unfold spread_objective.
    rewrite !in_app_iff. right. right. simpl. auto. }
  assert (call_holds s (AddMaxEquality (Var max_work)
                          (map total_work (emp_indices employee_dna))) = true) as Hmax.
  { apply (model_holds_In _ _ _ Hs). unfold build_model.
    rewrite !in_app_iff. do 5 right. unfold spread_objective.
    rewrite !in_app_iff. right. right. simpl. auto. }
  simpl in Hmin, Hmax. rewrite Hmap in Hmin, Hmax. unfold spread_of.
  destruct (list_max _) as [hi |]; [| discriminate].
  destruct (list_min _) as [lo |]; [| discriminate].
  apply Z.eqb_eq in Hmin. apply Z.eqb_eq in Hmax. simpl. congruence.
Qed.

End Holds.

(** ** The weeks of a month *)

Lemma week_step_fold (l : list (nat * datetime.date)) :
  forall weeks current_week weeks' current_week',
    fold_left week_step l (weeks, current_week) = (weeks', current_week') ->
    concat weeks' ++ current_week' = concat weeks ++ current_week ++ map fst l
    /\ (Forall (fun w => w <> []) weeks -> Forall (fun w => w <> []) weeks').
Proof.
  induction l as [| p l IH]; simpl; intros ws cur ws' cur' H.
  - injection H as <- <-. rewrite app_nil_r. auto.
  - destruct (datetime.weekday (snd p) =? 5).
    + apply IH in H. destruct H as [Hc Hne]. split.
      * rewrite Hc, concat_app. simpl. rewrite !app_nil_r, <- !app_assoc. reflexivity.
      * intros Hws. apply Hne. apply Forall_app. split; [exact Hws |].
        constructor; [| constructor]. destruct cur; discriminate.
    + apply IH in H. destruct H as [Hc Hne]. split.
      * rewrite Hc, <- !app_assoc. reflexivity.
      * exact Hne.
Qed.

Lemma map_fst_enumerate {A : Type} (l : list A) :
  map fst (enumerate l) = seq 0 (length l).
Proof.
  unfold enumerate. generalize 0%nat.
  induction l as [| a l IH]; simpl; intros k; [reflexivity |].
  rewrite IH. reflexivity.
Qed.

(** The weeks are consecutive, non-empty runs that cover the days of the
    month, each day once. *)
Lemma group_weeks_partition (dates : list datetime.date) :
  concat (group_weeks dates) = seq 0 (length dates)
  /\ Forall (fun w => w <> []) (group_weeks dates).
Proof.
  unfold group_weeks.
  destruct (fold_left week_step (enumerate dates) ([], [])) as [ws cur] eqn:E.
  apply week_step_fold in E. destruct E as [Hc Hne].
  simpl in Hc. rewrite map_fst_enumerate in Hc.
  specialize (Hne (Forall_nil _)).
  destruct cur as [| d cur].
  - rewrite app_nil_r in Hc. auto.
  - split.
    + rewrite concat_app. simpl. rewrite app_nil_r. exact Hc.
    + apply Forall_app. split; [exact Hne |]. constructor; [discriminate | constructor].
Qed.

Lemma group_weeks_days (dates : list datetime.date) (week_days : list nat) (d : nat) :
  In week_days (group_weeks dates) -> In d week_days ->
  In d (days_indices (length dates)).
Proof.
  intros Hw Hd. unfold days_indices.
  rewrite <- (proj1 (group_weeks_partition dates)).
  apply in_concat. exists week_days. auto.
Qed.

Lemma mapM_length {A B : Type} (f : A -> outcome B) (l : list A) (bs : list B) :
  mapM f l = Returned bs -> length bs = length l.
Proof.
  intros H. apply mapM_Forall2 in H.
  induction H; simpl; congruence.
Qed.

Lemma month_calendar_length (year month : Z) (num_days : nat)
      (dates : list datetime.date) :
  month_calendar year month = Returned (num_days, dates) ->
  length dates = num_days.
Proof.
  unfold month_calendar. intros H.
  apply bind_Returned_inv in H. destruct H as (mr & _ & H).
  apply bind_Returned_inv in H. destruct H as (ds & Hds & H).
  injection H as <- <-. apply mapM_length in Hds.
  rewrite Hds. apply length_seq.
Qed.

(** ** A successful run *)

Lemma shift_map_inv (v : Z) (l : shift_label) :
  shift_map v = Returned l ->
  (l = WO /\ v = 0) \/ (l = Day /\ v = 1) \/ (l = Night /\ v = 2).
Proof.
  unfold shift_map.
  destruct (Z.eqb_spec v 0); [intros H; injection H as <-; auto |].
  destruct (Z.eqb_spec v 1); [intros H; injection H as <-; auto |].
  destruct (Z.eqb_spec v 2); [intros H; injection H as <-; auto |].
  discriminate.
Qed.

Lemma cells_of_solution (s : Solution) (e n : nat) (cells : list shift_label) :
  mapM (fun d => shift_map (s (shift_e_d e d))) (days_indices n) = Returned cells ->
  length cells = n
  /\ forall d, In d (days_indices n) ->
       exists l, nth_error cells d = Some l /\ s (shift_e_d e d) = label_value l.
Proof.
  intros H. split.
  - apply mapM_length in H. rewrite H. apply length_seq.
  - intros d Hd. apply mapM_Forall2 in H.
    unfold days_indices in *. apply in_seq in Hd.
    destruct (Forall2_nth_error_l _ _ _ H d d) as (l & Hl & Hmap).
    { rewrite nth_error_seq. destruct (Nat.ltb_spec d n); [reflexivity | lia]. }
    exists l. split; [exact Hl |].
    destruct (shift_map_inv _ _ Hmap) as [[-> ->] | [[-> ->] | [-> ->]]]; reflexivity.
Qed.

Lemma result_row_inv (employee_dna : dict) (num_days : nat) (r : CpSolverResponse)
      (e : nat) (emp_id : cell) (row : roster_row) :
  nth_error (employees employee_dna) e = Some emp_id ->
  result_row employee_dna num_days r (e, emp_id) = Returned row ->
  row_of employee_dna num_days (solution r) e row.
Proof.
  unfold result_row. intros He H.
  apply bind_Returned_inv in H. destruct H as (info & Hinfo & H).
  apply bind_Returned_inv in H. destruct H as (cells & Hcells & H).
  injection H as <-.
  destruct (dict_get employee_dna emp_id) as [info' |] eqn:Eget; [| discriminate].
  injection Hinfo as ->.
  destruct (cells_of_solution _ _ _ _ Hcells) as [Hlen Hcell].
  exists emp_id, info. unfold cell_on. simpl. repeat split; auto.
Qed.

(** A run that returns a table went through a calendar, a response with a
    solution, and one row per employee. *)
Lemma generate_roster_success (Solve : CpModel -> CpSolverResponse)
      (employee_dna : dict) (year month : Z) (df : RosterFrame) (msg : option string) :
  generate_roster Solve employee_dna year month = Returned (Some df, msg) ->
  exists dates,
    month_calendar year month = Returned (length dates, dates)
    /\ let r := Solve (build_model employee_dna (length dates) (group_weeks dates)) in
       has_solution (status r) = true
       /\ msg = None
       /\ mapM (result_row employee_dna (length dates) r)
               (enumerate (employees employee_dna)) = Returned (rows df)
       /\ date_columns df = match rows df with [] => [] | _ :: _ => dates end.
Proof.
  unfold generate_roster. intros H.
  apply bind_Returned_inv in H. destruct H as ([num_days dates] & Hcal & H).
  pose proof (month_calendar_length _ _ _ _ Hcal) as Hlen. subst num_days.
  exists dates. split; [exact Hcal |]. simpl.
  destruct (has_solution _) eqn:Est; [| discriminate].
  apply bind_Returned_inv in H. destruct H as (data & Hdata & H).
  injection H as <- <-. simpl. auto.
Qed.

Lemma solver_sound_holds (Solve : CpModel -> CpSolverResponse)
      (employee_dna : dict) (year month : Z) (dates : list datetime.date) :
  solver_sound Solve employee_dna year month ->
  month_calendar year month = Returned (length dates, dates) ->
  let model := build_model employee_dna (length dates) (group_weeks dates) in
  has_solution (status (Solve model)) = true ->
  model_holds model (solution (Solve model)) = true.
Proof.
  unfold solver_sound, roster_model. intros Hsound Hcal. rewrite Hcal in Hsound.
  simpl in *. exact Hsound.
Qed.

Lemma rows_of_run (employee_dna : dict) (num_days : nat) (r : CpSolverResponse)
      (data : list roster_row) :
  mapM (result_row employee_dna num_days r) (enumerate (employees employee_dna))
  = Returned data ->
  (forall row, In row data ->
     exists e, nth_error data e = Some row
               /\ In e (emp_indices employee_dna)
               /\ row_of employee_dna num_days (solution r) e row)
  /\ length data = length (employees employee_dna).
Proof.
  intros H. split.
  - intros row Hrow. apply mapM_Forall2 in H.
    destruct (Forall2_In_r _ _ _ H row Hrow) as (i & [e emp_id] & Hi & Hrowi & Hres).
    assert (In (e, emp_id) (enumerate (employees employee_dna))) as Hin
        by (eapply nth_error_In; exact Hi).
    assert (i = e) as ->.
    { unfold enumerate in Hi.
      pose proof (f_equal (option_map fst) Hi) as Hf. rewrite <- nth_error_map in Hf.
      change (combine _ _) with (enumerate (employees employee_dna)) in Hf.
      rewrite map_fst_enumerate, nth_error_seq in Hf.
      destruct (i <? _)%nat; simpl in Hf; congruence. }
    apply In_enumerate in Hin.
    exists e. split; [exact Hrowi |]. split.
    + unfold emp_indices. apply in_seq. split; [lia |]. simpl.
      apply nth_error_Some. congruence.
    + apply (result_row_inv _ _ _ _ emp_id); assumption.
  - apply mapM_length in H. rewrite H. unfold enumerate.
    rewrite length_combine, length_seq. lia.
Qed.

Lemma cell_is_value (employee_dna : dict) (num_days : nat) (s : Solution)
      (e : nat) (row : roster_row) (l : shift_label) (d : nat) :
  row_of employee_dna num_days s e row ->
  In d (days_indices num_days) ->
  cell_is l row d = (s (shift_e_d e d) =? label_value l).
Proof.
  intros (emp_id & info & _ & _ & _ & _ & _ & _ & Hcell & _) Hd.
  destruct (Hcell d Hd) as (l' & Hl' & Hv).
  unfold cell_is. rewrite Hl', Hv. destruct l', l; reflexivity.
Qed.

Lemma cells_with_days_with (employee_dna : dict) (num_days : nat) (s : Solution)
      (e : nat) (row : roster_row) (l : shift_label) (days : list nat) :
  row_of employee_dna num_days s e row ->
  (forall d, In d days -> In d (days_indices num_days)) ->
  cells_with l row days = days_with s e (label_value l) days.
Proof.
  intros Hrow Hdays. unfold cells_with, days_with. f_equal.
  apply filter_ext_in. intros d Hd.
  apply (cell_is_value employee_dna num_days); auto.
Qed.

(** The facts that every claim about a returned table starts from. *)
Lemma run_facts (Solve : CpModel -> CpSolverResponse) (employee_dna : dict)
      (year month : Z) (df : RosterFrame) :
  generate_roster Solve employee_dna year month = Returned (Some df, None) ->
  solver_sound Solve employee_dna year month ->
  exists dates s,
    month_calendar year month = Returned (length dates, dates)
    /\ roster_weeks year month = Returned (group_weeks dates)
    /\ model_holds (build_model employee_dna (length dates) (group_weeks dates)) s = true
    /\ length (rows df) = length (employees employee_dna)
    /\ forall row, In row (rows df) ->
         exists e, nth_error (rows df) e = Some row
                   /\ In e (emp_indices employee_dna)
                   /\ row_of employee_dna (length dates) s e row.
Proof.
  intros Hgen Hsound.
  destruct (generate_roster_success _ _ _ _ _ _ Hgen)
    as (dates & Hcal & Hst & _ & Hrows & _).
  exists dates.
  exists (solution (Solve (build_model employee_dna (length dates) (group_weeks dates)))).
  split; [exact Hcal |]. split.
  { unfold roster_weeks. rewrite Hcal. reflexivity. }
  split.
  { apply (solver_sound_holds Solve employee_dna year month dates Hsound Hcal Hst). }
  destruct (rows_of_run _ _ _ _ Hrows) as [Hall Hlen]. auto.
Qed.

(** C1.  In a table returned by a run, every employee has exactly two WO
    cells in every week of seven days, and at most two in every week of
    fewer days (the partial weeks at the ends of the month). *)
Theorem weekly_rest_quota (Solve : CpModel -> CpSolverResponse)
        (employee_dna : dict) (year month : Z) (df : RosterFrame) :
  generate_roster Solve employee_dna year month = Returned (Some df, None) ->
  solver_sound Solve employee_dna year month ->
  exists weeks,
    roster_weeks year month = Returned weeks
    /\ forall row week_days,
         In row (rows df) -> In week_days weeks ->
         (length week_days = 7%nat -> cells_with WO row week_days = 2%nat)
         /\ ((length week_days < 7)%nat -> (cells_with WO row week_days <= 2)%nat).
Proof.
  intros Hgen Hsound.
  destruct (run_facts _ _ _ _ _ Hgen Hsound) as (dates & s & _ & Hweeks & Hs & _ & Hrows).
  exists (group_weeks dates). split; [exact Hweeks |].
  intros row week_days Hrow Hw.
  destruct (Hrows row Hrow) as (e & _ & He & Hrowof).
  rewrite (cells_with_days_with employee_dna (length dates) s e row WO week_days Hrowof)
    by (intros d Hd; apply (group_weeks_days dates week_days); assumption).
  simpl label_value.
  destruct (weekly_rest_count _ _ _ _ Hs week_days e Hw He) as [Hfull Hpart].
  split; [exact Hfull | intros Hlt; apply Hpart; lia].
Qed.

Lemma weekly_rest_quota_witness :
  exists weeks,
    roster_weeks 2026 3 = Returned weeks
    /\ forall row week_days,
         In row (rows Sample.roster_df) -> In week_days weeks ->
         (length week_days = 7%nat -> cells_with WO row week_days = 2%nat)
         /\ ((length week_days < 7)%nat -> (cells_with WO row week_days <= 2)%nat).
Proof.
  apply (weekly_rest_quota Sample.Solve Sample.employee_dna 2026 3 Sample.roster_df).
  - vm_compute. reflexivity.
  - unfold solver_sound. vm_compute. reflexivity.
Defined.

(** C2.  In a table returned by a run, no employee has a Day cell and a
    Night cell in the same week, full or partial: the working states used in
    a week are at most one. *)
Theorem shift_lock_per_week (Solve : CpModel -> CpSolverResponse)
        (employee_dna : dict) (year month : Z) (df : RosterFrame) :
  generate_roster Solve employee_dna year month = Returned (Some df, None) ->
  solver_sound Solve employee_dna year month ->
  exists weeks,
    roster_weeks year month = Returned weeks
    /\ forall row week_days,
         In row (rows df) -> In week_days weeks ->
         (forall d1 d2, In d1 week_days -> In d2 week_days ->
                        ~ (cell_on row d1 = Some Day /\ cell_on row d2 = Some Night))
         /\ (length (working_states row week_days) <= 1)%nat.
Proof.
  intros Hgen Hsound.
  destruct (run_facts _ _ _ _ _ Hgen Hsound) as (dates & s & _ & Hweeks & Hs & _ & Hrows).
  exists (group_weeks dates). split; [exact Hweeks |].
  intros row week_days Hrow Hw.
  destruct (Hrows row Hrow) as (e & _ & He & Hrowof).
  assert (forall d1 d2, In d1 week_days -> In d2 week_days ->
            cell_is Day row d1 = true -> cell_is Night row d2 = true -> False) as Hlock.
  { intros d1 d2 Hd1 Hd2 H1 H2.
    rewrite (cell_is_value employee_dna (length dates) s e) in H1, H2;
      try assumption; try (apply (group_weeks_days dates week_days); assumption).
    apply Z.eqb_eq in H1. apply Z.eqb_eq in H2.
    apply (no_day_and_night _ _ _ _ Hs week_days e d1 d2); assumption. }
  split.
  - intros d1 d2 Hd1 Hd2 [H1 H2].
    apply (Hlock d1 d2 Hd1 Hd2); unfold cell_is; [rewrite H1 | rewrite H2]; reflexivity.
  - unfold working_states.
    destruct (existsb (cell_is Day row) week_days) eqn:Ed;
      destruct (existsb (cell_is Night row) week_days) eqn:En; simpl; try lia.
    apply existsb_exists in Ed. destruct Ed as (d1 & Hd1 & H1).
    apply existsb_exists in En. destruct En as (d2 & Hd2 & H2).
    exfalso. apply (Hlock d1 d2); assumption.
Qed.

Lemma shift_lock_per_week_witness :
  exists weeks,
    roster_weeks 2026 3 = Returned weeks
    /\ forall row week_days,
         In row (rows Sample.roster_df) -> In week_days weeks ->
         (forall d1 d2, In d1 week_days -> In d2 week_days ->
                        ~ (cell_on row d1 = Some Day /\ cell_on row d2 = Some Night))
         /\ (length (working_states row week_days) <= 1)%nat.
Proof.
  apply (shift_lock_per_week Sample.Solve Sample.employee_dna 2026 3 Sample.roster_df).
  - vm_compute. reflexivity.
  - unfold solver_sound. vm_compute. reflexivity.
Defined.

(** C4.  In a table returned by a run, a Fixed_Day row has no Night cell
    and a Fixed_Night row has no Day cell, on any day; for a Rotating
    employee the DNA rule adds no constraint to the model. *)
Theorem dna_constraint_respected (Solve : CpModel -> CpSolverResponse)
        (employee_dna : dict) (year month : Z) (df : RosterFrame) :
  generate_roster Solve employee_dna year month = Returned (Some df, None) ->
  solver_sound Solve employee_dna year month ->
  (forall row, In row (rows df) ->
     (Shift_DNA row = Fixed_Day -> forall d, cell_on row d <> Some Night)
     /\ (Shift_DNA row = Fixed_Night -> forall d, cell_on row d <> Some Day))
  /\ (forall num_days e emp_id,
        dna_lookup employee_dna emp_id = Some Rotating ->
        dna_constraints_of employee_dna num_days (e, emp_id) = []).
Proof.
  intros Hgen Hsound. split.
  - destruct (run_facts _ _ _ _ _ Hgen Hsound) as (dates & s & _ & _ & Hs & _ & Hrows).
    intros row Hrow.
    destruct (Hrows row Hrow) as (e & _ & He & Hrowof).
    destruct Hrowof as (emp_id & info & Hid & Hinfo & _ & _ & Hdna & Hlen & Hcell & _).
    assert (forall d l, cell_on row d = Some l ->
              In d (days_indices (length dates)) /\ s (shift_e_d e d) = label_value l)
      as Hval.
    { intros d l Hl.
      assert (In d (days_indices (length dates))) as Hd.
      { unfold days_indices. apply in_seq. split; [lia |]. simpl.
        rewrite <- Hlen. apply nth_error_Some. unfold cell_on in Hl. congruence. }
      split; [exact Hd |].
      destruct (Hcell d Hd) as (l' & Hl' & Hv). congruence. }
    rewrite Hdna.
    split; intros Hfixed d Hl; destruct (Hval d _ Hl) as [Hd Hv];
      destruct (dna_respected _ _ _ _ Hs e d emp_id info Hid Hinfo Hd) as [Hday Hnight].
    + apply (Hday Hfixed). exact Hv.
    + apply (Hnight Hfixed). exact Hv.
  - intros num_days e emp_id Hrot. unfold dna_constraints_of. rewrite Hrot.
    induction (days_indices num_days); simpl; auto.
Qed.

Lemma dna_constraint_respected_witness :
  (forall row, In row (rows Sample.roster_df) ->
     (Shift_DNA row = Fixed_Day -> forall d, cell_on row d <> Some Night)
     /\ (Shift_DNA row = Fixed_Night -> forall d, cell_on row d <> Some Day))
  /\ (forall num_days e emp_id,
        dna_lookup Sample.employee_dna emp_id = Some Rotating ->
        dna_constraints_of Sample.employee_dna num_days (e, emp_id) = []).
Proof.
  apply (dna_constraint_respected Sample.Solve Sample.employee_dna 2026 3
           Sample.roster_df).
  - vm_compute. reflexivity.
  - unfold solver_sound. vm_compute. reflexivity.
Defined.

(** A Rotating employee may work days in one week and nights in another:
    the sample table, which the model accepts, has such a row. *)
Example rotating_row_mixes_shifts :
  exists row,
    nth_error (rows Sample.roster_df) 2 = Some row
    /\ Shift_DNA row = Rotating
    /\ cell_on row 2 = Some Day /\ cell_on row 9 = Some Night.
Proof. eexists. vm_compute. repeat split. Qed.

(** ** The objective *)

Lemma objectives_app (a b : CpModel) : objectives (a ++ b) = objectives a ++ objectives b.
Proof. unfold objectives. apply flat_map_app. Qed.

Lemma objectives_none (model : CpModel) :
  (forall c, In c model -> is_Minimize c = false) -> objectives model = [].
Proof.
  induction model as [| c model IH]; intros H; [reflexivity |].
  unfold objectives in *. simpl.
  rewrite IH by (intros c' Hc'; apply H; right; exact Hc').
  specialize (H c (or_introl eq_refl)). destruct c; try reflexivity. discriminate.
Qed.

Ltac no_minimize :=
  repeat match goal with
         | H : In _ (flat_map _ _) |- _ =>
             apply in_flat_map in H; destruct H as (? & _ & H)
         | H : In _ (map _ _) |- _ =>
             apply in_map_iff in H; destruct H as (? & <- & _)
         | H : In _ (_ ++ _) |- _ => apply in_app_iff in H; destruct H as [H | H]
         | H : In _ (_ :: _) |- _ => destruct H as [<- | H]
         | H : In _ [] |- _ => destruct H
         | H : In _ (if ?b then _ else _) |- _ => destruct b
         | H : In _ (match ?x with _ => _ end) |- _ => destruct x
         | |- is_Minimize (if ?b then _ else _) = _ => destruct b
         | _ => reflexivity
         end.

Lemma objectives_build_model (employee_dna : dict) (num_days : nat)
      (weeks : list (list nat)) :
  objectives (build_model employee_dna num_days weeks)
  = [Minus (Var max_work) (Var min_work)].
Proof.
  unfold build_model. rewrite !objectives_app.
  rewrite (objectives_none (roster_variables _ _)).
  2:{ intros c H. unfold roster_variables in H. no_minimize. }
  rewrite (objectives_none (dna_constraints _ _)).
  2:{ intros c H. unfold dna_constraints in H.
      apply in_flat_map in H. destruct H as ([e emp_id] & _ & H).
      unfold dna_constraints_of in H. no_minimize. }
  rewrite (objectives_none (weekly_off_constraints _ _)).
  2:{ intros c H. unfold weekly_off_constraints, weekly_off_of in H. no_minimize. }
  rewrite (objectives_none (shift_lock_constraints _ _)).
  2:{ intros c H. unfold shift_lock_constraints, shift_lock_of in H. no_minimize. }
  rewrite (objectives_none (totals_constraints _ _)).
  2:{ intros c H. unfold totals_constraints, totals_of in H. no_minimize. }
  unfold spread_objective. rewrite !objectives_app.
  rewrite (objectives_none (map _ _)).
  2:{ intros c H. no_minimize. }
  rewrite (objectives_none (map _ _)).
  2:{ intros c H. no_minimize. }
  reflexivity.
Qed.

(** C5.  The model has one objective, [max_work - min_work]; in every
    solution of the model its value is the largest minus the smallest
    [totalWork(e)] over the employees, where [totalWork(e)] counts the days
    on which [e] does not rest.  Nothing else is minimized. *)
Theorem objective_is_work_spread (employee_dna : dict) (num_days : nat)
        (weeks : list (list nat)) (s : Solution) :
  model_holds (build_model employee_dna num_days weeks) s = true ->
  objectives (build_model employee_dna num_days weeks)
  = [Minus (Var max_work) (Var min_work)]
  /\ spread_of (map (total_work_of s num_days) (emp_indices employee_dna))
     = Some (Value s (Minus (Var max_work) (Var min_work))).
Proof.
  intros Hs. split.
  - apply objectives_build_model.
  - apply (objective_is_spread employee_dna num_days weeks s Hs).
Qed.

Lemma objective_is_work_spread_witness :
  objectives (build_model Sample.employee_dna 31 Sample.march_weeks)
  = [Minus (Var max_work) (Var min_work)]
  /\ spread_of (map (total_work_of (complete 3 31 Sample.march_weeks Sample.x) 31)
                    (emp_indices Sample.employee_dna))
     = Some (Value (complete 3 31 Sample.march_weeks Sample.x)
                   (Minus (Var max_work) (Var min_work))).
Proof.
  apply (objective_is_work_spread Sample.employee_dna 31 Sample.march_weeks
           (complete 3 31 Sample.march_weeks Sample.x)).
  vm_compute. reflexivity.
Defined.

(** ** The run returns *)

Lemma mapM_total {A B : Type} (f : A -> outcome B) (l : list A) :
  (forall a, In a l -> exists b, f a = Returned b) ->
  exists bs, mapM f l = Returned bs.
Proof.
  induction l as [| a l IH]; simpl; intros H.
  - eexists. reflexivity.
  - destruct (H a (or_introl eq_refl)) as (b & Hb).
    destruct (IH (fun a' Ha' => H a' (or_intror Ha'))) as (bs & Hbs).
    rewrite Hb, Hbs. simpl. eexists. reflexivity.
Qed.

Lemma days_in_month_agree (year month : Z) :
  1 <= month <= 12 ->
  nth (Z.to_nat month) calendar.mdays 0
  + (if (month =? 2) && calendar.isleap year then 1 else 0)
  = datetime._days_in_month year month.
Proof.
  intros Hm. unfold datetime._days_in_month.
  change (datetime._is_leap year) with (calendar.isleap year).
  assert (month = 1 \/ month = 2 \/ month = 3 \/ month = 4 \/ month = 5 \/ month = 6
          \/ month = 7 \/ month = 8 \/ month = 9 \/ month = 10 \/ month = 11
          \/ month = 12) as Hcases by lia.
  repeat (destruct Hcases as [-> | Hcases]); try subst month;
    simpl; try reflexivity; destruct (calendar.isleap year); reflexivity.
Qed.

Lemma month_calendar_returns (year month : Z) :
  1 <= year <= 9999 -> 1 <= month <= 12 ->
  exists dates,
    month_calendar year month = Returned (length dates, dates)
    /\ Z.of_nat (length dates) = datetime._days_in_month year month.
Proof.
  intros Hy Hm. unfold month_calendar, calendar.monthrange.
  assert ((1 <=? month) && (month <=? 12) = true) as Hmb.
  { apply andb_true_iff. split; apply Z.leb_le; lia. }
  rewrite Hmb. cbn [negb bind snd]. rewrite (days_in_month_agree year month Hm).
  set (n := Z.to_nat (datetime._days_in_month year month)).
  assert (0 <= datetime._days_in_month year month) as Hpos.
  { rewrite <- (days_in_month_agree year month Hm).
    assert (month = 1 \/ month = 2 \/ month = 3 \/ month = 4 \/ month = 5 \/ month = 6
            \/ month = 7 \/ month = 8 \/ month = 9 \/ month = 10 \/ month = 11
            \/ month = 12) as Hcases by lia.
    repeat (destruct Hcases as [-> | Hcases]); try subst month;
      simpl; try lia; destruct (calendar.isleap year); lia. }
  destruct (mapM_total (fun day => datetime.new year month (Z.of_nat day)) (seq 1 n))
    as (dates & Hdates).
  { intros day Hday. apply in_seq in Hday. unfold datetime.new.
    assert (datetime._days_in_month year month <= 31) as Hle31.
    { unfold datetime._days_in_month.
      destruct ((month =? 2) && datetime._is_leap year); [lia |].
      assert (month = 1 \/ month = 2 \/ month = 3 \/ month = 4 \/ month = 5
              \/ month = 6 \/ month = 7 \/ month = 8 \/ month = 9 \/ month = 10
              \/ month = 11 \/ month = 12) as Hcases by lia.
      repeat (destruct Hcases as [-> | Hcases]); try subst month; simpl; lia. }
    assert (datetime.fits_int year && datetime.fits_int month
            && datetime.fits_int (Z.of_nat day) = true) as ->.
    { unfold datetime.fits_int, datetime.INT_MIN, datetime.INT_MAX.
      repeat (apply andb_true_iff; split); apply Z.leb_le; lia. }
    cbn [negb].
    assert ((datetime.MINYEAR <=? year) && (year <=? datetime.MAXYEAR) = true) as ->.
    { unfold datetime.MINYEAR, datetime.MAXYEAR.
      apply andb_true_iff. split; apply Z.leb_le; lia. }
    rewrite Hmb.
    assert ((1 <=? Z.of_nat day)
            && (Z.of_nat day <=? datetime._days_in_month year month) = true) as ->.
    { apply andb_true_iff. split; apply Z.leb_le; lia. }
    simpl. eexists. reflexivity. }
  exists dates. rewrite Hdates. simpl.
  pose proof (mapM_length _ _ _ Hdates) as Hlen. rewrite length_seq in Hlen.
  rewrite Hlen. split; [reflexivity |]. unfold n. lia.
Qed.

Lemma cell_eqb_refl (c : cell) : cell_eqb c c = true.
Proof.
  destruct c; simpl; [apply str_eqb_refl | reflexivity | apply Z.eqb_refl].
Qed.

Lemma dict_get_key (d : dict) (k : cell) :
  In k (keys d) -> exists v, dict_get d k = Some v.
Proof.
  induction d as [| [k' v'] d IH]; simpl; intros H; [destruct H |].
  destruct (cell_eqb k' k) eqn:E; [eexists; reflexivity |].
  destruct H as [-> | H]; [rewrite cell_eqb_refl in E; discriminate | auto].
Qed.

Lemma shift_map_returns (v : Z) : 0 <= v <= 2 -> exists l, shift_map v = Returned l.
Proof.
  intros H. unfold shift_map.
  destruct (Z.eqb_spec v 0); [eexists; reflexivity |].
  destruct (Z.eqb_spec v 1); [eexists; reflexivity |].
  destruct (Z.eqb_spec v 2); [eexists; reflexivity | lia].
Qed.

Lemma result_rows_return (employee_dna : dict) (num_days : nat)
      (weeks : list (list nat)) (r : CpSolverResponse) :
  model_holds (build_model employee_dna num_days weeks) (solution r) = true ->
  exists data,
    mapM (result_row employee_dna num_days r) (enumerate (employees employee_dna))
    = Returned data.
Proof.
  intros Hs. apply mapM_total. intros [e emp_id] Hin.
  apply In_enumerate in Hin. unfold result_row.
  destruct (dict_get_key employee_dna emp_id) as (info & Hinfo).
  { eapply nth_error_In. exact Hin. }
  rewrite Hinfo. simpl bind.
  destruct (mapM_total (fun d => shift_map (solution r (shift_e_d e d)))
                       (days_indices num_days)) as (cells & Hcells).
  { intros d Hd. apply shift_map_returns.
    apply (shift_domain employee_dna num_days weeks (solution r) Hs); [| exact Hd].
    unfold emp_indices. apply in_seq. split; [lia |]. simpl.
    apply nth_error_Some. congruence. }
  rewrite Hcells. simpl. eexists. reflexivity.
Qed.

Lemma map_snd_enumerate {A : Type} (l : list A) : map snd (enumerate l) = l.
Proof.
  unfold enumerate. generalize 0%nat.
  induction l as [| a l IH]; simpl; intros k; [reflexivity |].
  rewrite IH. reflexivity.
Qed.

Lemma filter_count_by_index {A : Type} (p : A -> bool) (q : nat -> bool) (l : list A) :
  forall k,
    (forall i a, nth_error l i = Some a -> q (k + i)%nat = p a) ->
    length (filter p l) = length (filter q (seq k (length l))).
Proof.
  induction l as [| a l IH]; simpl; intros k H; [reflexivity |].
  pose proof (H 0%nat a eq_refl) as H0. rewrite Nat.add_0_r in H0. rewrite H0.
  assert (length (filter p l) = length (filter q (seq (S k) (length l)))) as IH'.
  { apply IH. intros i b Hb. rewrite <- (H (S i) b Hb). f_equal. lia. }
  destruct (p a); simpl; rewrite IH'; reflexivity.
Qed.

Lemma row_total_shifts (employee_dna : dict) (num_days : nat)
      (weeks : list (list nat)) (s : Solution) (e : nat) (row : roster_row) :
  model_holds (build_model employee_dna num_days weeks) s = true ->
  In e (emp_indices employee_dna) ->
  row_of employee_dna num_days s e row ->
  Total_Shifts row = Z.of_nat (worked_cells row)
  /\ Total_Shifts row = total_work_of s num_days e.
Proof.
  intros Hs He (emp_id & info & _ & _ & _ & _ & _ & Hlen & Hcell & Htot & _).
  rewrite Htot, (sum_of_totals employee_dna num_days weeks s Hs e He).
  split; [| reflexivity].
  unfold total_work_of, worked_cells, days_indices. f_equal. rewrite <- Hlen.
  symmetry. apply filter_count_by_index. intros i l Hl. simpl.
  destruct (Hcell i) as (l' & Hl' & Hv).
  { unfold days_indices. apply in_seq. split; [lia |]. simpl.
    rewrite <- Hlen. apply nth_error_Some. congruence. }
  unfold cell_on in Hl'. rewrite Hl in Hl'. injection Hl' as <-.
  rewrite Hv. destruct l; reflexivity.
Qed.

Lemma rows_employee_ids (employee_dna : dict) (num_days : nat) (r : CpSolverResponse)
      (data : list roster_row) :
  mapM (result_row employee_dna num_days r) (enumerate (employees employee_dna))
  = Returned data ->
  map Employee_ID data = employees employee_dna.
Proof.
  intros H. apply mapM_Forall2 in H.
  transitivity (map snd (enumerate (employees employee_dna)));
    [| apply map_snd_enumerate].
  induction H as [| [e emp_id] row ps data Hrow _ IH]; simpl; [reflexivity |].
  rewrite IH. f_equal. unfold result_row in Hrow.
  apply bind_Returned_inv in Hrow. destruct Hrow as (info & _ & Hrow).
  apply bind_Returned_inv in Hrow. destruct Hrow as (cells & _ & Hrow).
  injection Hrow as <-. reflexivity.
Qed.

(** C8 (as amended).  For a target month of the calendar, the run builds
    the calendar and asks the solver once.  When the solver reports a
    solution ([OPTIMAL] or [FEASIBLE]) the run returns a table and no
    message: one row per employee of [employee_dna], in order; in the row of
    employee [e] one cell per day of the month, each the state the solver
    gave to [e] on that day, and the totals of the row.  When the solver
    reports anything else the run returns no table and the diagnostic
    message.  Nothing of a table comes with the diagnostic. *)
Theorem solve_returns_roster_or_diagnostic (Solve : CpModel -> CpSolverResponse)
        (employee_dna : dict) (year month : Z) :
  1 <= year <= 9999 -> 1 <= month <= 12 ->
  solver_sound Solve employee_dna year month ->
  exists dates,
    month_calendar year month = Returned (length dates, dates)
    /\ Z.of_nat (length dates) = datetime._days_in_month year month
    /\ let r := Solve (build_model employee_dna (length dates) (group_weeks dates)) in
       if has_solution (status r)
       then exists df,
              generate_roster Solve employee_dna year month = Returned (Some df, None)
              /\ map Employee_ID (rows df) = employees employee_dna
              /\ (rows df <> [] -> date_columns df = dates)
              /\ forall row, In row (rows df) ->
                   length (date_cells row) = length dates
                   /\ Total_Shifts row = Z.of_nat (worked_cells row)
                   /\ Total_Work_Hours row = Total_Shifts row * 9
                   /\ exists e, nth_error (rows df) e = Some row
                                /\ row_of employee_dna (length dates) (solution r) e row
       else generate_roster Solve employee_dna year month
            = Returned (None, Some no_roster_message).
Proof.
  intros Hy Hm Hsound.
  destruct (month_calendar_returns year month Hy Hm) as (dates & Hcal & Hdays).
  exists dates. split; [exact Hcal |]. split; [exact Hdays |].
  pose proof (solver_sound_holds Solve employee_dna year month dates Hsound Hcal) as Hholds.
  simpl in Hholds. cbv zeta.
  unfold generate_roster. rewrite Hcal. cbn [bind].
  set (r := Solve (build_model employee_dna (length dates) (group_weeks dates))) in *.
  destruct (has_solution (status r)) eqn:Est; [| reflexivity].
  specialize (Hholds eq_refl).
  destruct (result_rows_return employee_dna (length dates) (group_weeks dates) r Hholds)
    as (data & Hdata).
  rewrite Hdata. cbn [bind].
  eexists. split; [reflexivity |]. cbn [rows date_columns].
  split; [apply (rows_employee_ids _ _ _ _ Hdata) |].
  split; [destruct data; [intros Hne; contradiction | reflexivity] |].
  intros row Hrow.
  destruct (rows_of_run _ _ _ _ Hdata) as [Hall _].
  destruct (Hall row Hrow) as (e & Hnth & He & Hrowof).
  destruct (row_total_shifts _ _ _ _ e row Hholds He Hrowof) as [Hworked _].
  pose proof Hrowof as (emp_id & info & _ & _ & _ & _ & _ & Hlen & _ & _ & Hhours).
  split; [exact Hlen |]. split; [exact Hworked |]. split; [exact Hhours |].
  exists e. split; [exact Hnth | exact Hrowof].
Qed.

Lemma solve_returns_roster_or_diagnostic_witness :
  (exists df,
     generate_roster Sample.Solve Sample.employee_dna 2026 3 = Returned (Some df, None)
     /\ map Employee_ID (rows df) = employees Sample.employee_dna
     /\ length (date_columns df) = 31%nat
     /\ forall row, In row (rows df) ->
          length (date_cells row) = 31%nat
          /\ Total_Shifts row = Z.of_nat (worked_cells row)
          /\ Total_Work_Hours row = Total_Shifts row * 9)
  /\ generate_roster Sample.Solve_unknown Sample.employee_dna 2026 3
     = Returned (None, Some no_roster_message).
Proof.
  split.
  - destruct (solve_returns_roster_or_diagnostic Sample.Solve Sample.employee_dna 2026 3
                ltac:(lia) ltac:(lia) ltac:(unfold solver_sound; vm_compute; reflexivity))
      as (dates & Hcal & Hdays & Hrun).
    change (datetime._days_in_month 2026 3) with 31 in Hdays.
    assert (length dates = 31%nat) as Hlen by lia.
    cbv zeta in Hrun.
    destruct Hrun as (df & Hgen & Hids & Hcols & Hrows).
    exists df. split; [exact Hgen |]. split; [exact Hids |]. split.
    + rewrite Hcols; [exact Hlen |].
      intros Hnil. rewrite Hnil in Hids. discriminate Hids.
    + intros row Hrow. destruct (Hrows row Hrow) as (Hcells & Htotal & Hhours & _).
      rewrite Hcells. auto.
  - destruct (solve_returns_roster_or_diagnostic Sample.Solve_unknown
                Sample.employee_dna 2026 3
                ltac:(lia) ltac:(lia) ltac:(unfold solver_sound; vm_compute; discriminate))
      as (dates & Hcal & Hdays & Hrun).
    exact Hrun.
Defined.

(** C8 as stated fails when the target month is no month of the calendar:
    the run raises before any solve, and returns neither of the two
    results. *)
Lemma no_result_for_month_13 :
  generate_roster Sample.Solve Sample.employee_dna 2026 13 = Raised IllegalMonthError
  /\ ~ (exists result,
          generate_roster Sample.Solve Sample.employee_dna 2026 13 = Returned result).
Proof.
  split; [reflexivity |]. intros (result & H). discriminate H.
Qed.

Example unsolved_run_returns_no_table :
  generate_roster Sample.Solve_unknown Sample.employee_dna 2026 3
  = Returned (None, Some no_roster_message).
Proof. vm_compute. reflexivity. Qed.

Example sample_run_totals :
  map (fun row => (Employee_ID row, Total_Shifts row, Total_Work_Hours row))
      (rows Sample.roster_df)
  = [(CInt 101, 21, 189); (CInt 102, 21, 189); (CInt 103, 21, 189)].
Proof. vm_compute. reflexivity. Qed.

(** ** The replacement handler *)

Example ties_run_sound : solver_sound Ties.Solve Ties.employee_dna 2026 3.
Proof. unfold solver_sound. vm_compute. reflexivity. Qed.

Example twins_run_sound : solver_sound Twins.Solve Twins.employee_dna 2026 3.
Proof. unfold solver_sound. vm_compute. reflexivity. Qed.

Example ties_run_rows :
  map (fun r => (Employee_ID r, cell_on r 0, Total_Shifts r)) (rows Ties.roster_df)
  = [(CInt 205, Some WO, 21); (CInt 104, Some WO, 21); (CInt 300, Some Day, 21)].
Proof. vm_compute. reflexivity. Qed.

Example twins_run_rows :
  map (fun r => (Employee_ID r, row_Name r, cell_on r 0)) (rows Twins.roster_df)
  = [(CInt 1, CStr "Sam", Some WO); (CInt 2, CStr "Sam", Some Day)].
Proof. vm_compute. reflexivity. Qed.

Example scenario_selects_C :
  find_replacement insertion_argsort Scenario.roster_df 0 (CStr "A")
  = Returned (success Scenario.C [Scenario.C]).
Proof. vm_compute. reflexivity. Qed.

Example scenario_without_C_finds_nobody :
  find_replacement insertion_argsort Scenario.without_C 0 (CStr "A")
  = Returned (error "No suitable replacement found!").
Proof. vm_compute. reflexivity. Qed.

(** What the handler shows: the head of the ranking and its first five
    rows, or the message when no candidate is left. *)
Lemma find_replacement_shows (argsort : list Z -> list nat) (roster_df : RosterFrame)
      (selected_date : nat) (selected_emp_name : cell) (absent_emp_row : roster_row) :
  absent_row roster_df selected_emp_name = Returned absent_emp_row ->
  find_replacement argsort roster_df selected_date selected_emp_name
  = Returned
      (match sort_values argsort (candidates_for roster_df selected_date
                            (cell_on absent_emp_row selected_date)) with
       | best_fit :: rest => success best_fit (firstn 5 (best_fit :: rest))
       | [] => error "No suitable replacement found!"
       end).
Proof.
  intros H. unfold find_replacement. rewrite H. cbn [bind].
  destruct (sort_values _ _); reflexivity.
Qed.

Lemma DNA_eqb_eq (a b : DNA) : DNA_eqb a b = true <-> a = b.
Proof. destruct a, b; simpl; split; intros H; try reflexivity; discriminate. Qed.

Lemma is_resting_iff (row : roster_row) (d : nat) :
  is_resting row d = true <-> cell_on row d = Some WO.
Proof.
  unfold is_resting. destruct (cell_on row d) as [[| |] |]; split; intros H;
    try reflexivity; discriminate.
Qed.

(** C7.  For an absent Day shift the candidates are exactly the rows that
    show WO on the date and are not Fixed_Night; for an absent Night shift,
    exactly the rows that show WO and are not Fixed_Day; a Rotating row that
    shows WO is a candidate for either. *)
Theorem candidates_are_compatible_resting (roster_df : RosterFrame)
        (selected_date : nat) (row : roster_row) :
  (In row (candidates_for roster_df selected_date (Some Day))
   <-> In row (rows roster_df)
       /\ cell_on row selected_date = Some WO
       /\ Shift_DNA row <> Fixed_Night)
  /\ (In row (candidates_for roster_df selected_date (Some Night))
      <-> In row (rows roster_df)
          /\ cell_on row selected_date = Some WO
          /\ Shift_DNA row <> Fixed_Day)
  /\ (In row (rows roster_df) ->
      cell_on row selected_date = Some WO ->
      Shift_DNA row = Rotating ->
      In row (candidates_for roster_df selected_date (Some Day))
      /\ In row (candidates_for roster_df selected_date (Some Night))).
Proof.
  assert (forall dna,
            In row (filter (fun r => negb (DNA_eqb (Shift_DNA r) dna))
                      (filter (fun r => is_resting r selected_date) (rows roster_df)))
            <-> In row (rows roster_df)
                /\ cell_on row selected_date = Some WO
                /\ Shift_DNA row <> dna) as Hfilter.
  { intros dna. rewrite !filter_In, is_resting_iff, negb_true_iff.
    split.
    - intros [[Hin Hwo] Hdna]. repeat split; auto.
      intros Heq. apply DNA_eqb_eq in Heq. congruence.
    - intros (Hin & Hwo & Hdna). repeat split; auto.
      destruct (DNA_eqb (Shift_DNA row) dna) eqn:E; [| reflexivity].
      apply DNA_eqb_eq in E. contradiction. }
  unfold candidates_for. split; [apply Hfilter |]. split; [apply Hfilter |].
  intros Hin Hwo Hrot. split; apply Hfilter; repeat split; auto; congruence.
Qed.

Lemma candidates_are_compatible_resting_witness :
  In Scenario.C (candidates_for Scenario.roster_df 0 (Some Day))
  /\ In Scenario.C (candidates_for Scenario.roster_df 0 (Some Night)).
Proof.
  apply (candidates_are_compatible_resting Scenario.roster_df 0 Scenario.C).
  - simpl. auto.
  - reflexivity.
  - reflexivity.
Defined.

(** The ranking keeps the candidates: the handler offers exactly the
    candidates of [candidates_for], reordered. *)
Lemma insert_index_perm (key : nat -> Z) (i : nat) (l : list nat) :
  Permutation (insert_index key i l) (i :: l).
Proof.
  induction l as [| j l IH]; simpl; [apply Permutation_refl |].
  destruct (key i <=? key j); [apply Permutation_refl |].
  eapply Permutation_trans; [apply perm_skip; exact IH | apply perm_swap].
Qed.

Lemma insertion_argsort_perm (keys : list Z) :
  Permutation (insertion_argsort keys) (seq 0 (length keys)).
Proof.
  unfold insertion_argsort. induction (seq 0 (length keys)) as [| i l IH]; simpl.
  - apply Permutation_refl.
  - eapply Permutation_trans; [apply insert_index_perm | apply perm_skip; exact IH].
Qed.

Lemma take_seq {A : Type} (l : list A) :
  forall pre, take (pre ++ l) (seq (length pre) (length l)) = l.
Proof.
  unfold take. induction l as [| a l IH]; simpl; intros pre; [reflexivity |].
  rewrite nth_error_app2, Nat.sub_diag by lia. simpl. f_equal.
  specialize (IH (pre ++ [a])). rewrite <- app_assoc, length_app in IH.
  simpl in IH. rewrite Nat.add_1_r in IH. exact IH.
Qed.

Lemma take_perm {A : Type} (l : list A) (indices : list nat) :
  Permutation indices (seq 0 (length l)) -> Permutation (take l indices) l.
Proof.
  intros H. rewrite <- (take_seq l []) at 2. simpl.
  unfold take. apply Permutation_flat_map. exact H.
Qed.

Lemma sort_values_perm (argsort : list Z -> list nat) (frame : list roster_row) :
  argsort_sound argsort -> Permutation (sort_values argsort frame) frame.
Proof.
  intros Hsound. unfold sort_values. apply take_perm.
  rewrite <- (length_map Total_Shifts frame). apply Hsound.
Qed.

Lemma insert_index_sorted (key : nat -> Z) (i : nat) (l : list nat) :
  StronglySorted (fun a b => key a <= key b) l ->
  StronglySorted (fun a b => key a <= key b) (insert_index key i l).
Proof.
  induction 1 as [| j l Hsorted IH Hall]; simpl.
  - constructor; constructor.
  - destruct (Z.leb_spec (key i) (key j)) as [Hle | Hgt].
    + constructor.
      * constructor; assumption.
      * constructor; [exact Hle |].
        eapply Forall_impl; [| exact Hall]. simpl. intros k Hk. lia.
    + constructor; [exact IH |].
      apply (Permutation_Forall (Permutation_sym (insert_index_perm key i l))).
      constructor; [lia | exact Hall].
Qed.

Lemma insertion_argsort_sorted (keys : list Z) :
  StronglySorted (fun a b => nth a keys 0 <= nth b keys 0) (insertion_argsort keys).
Proof.
  unfold insertion_argsort. induction (seq 0 (length keys)) as [| i l IH]; simpl.
  - constructor.
  - apply insert_index_sorted. exact IH.
Qed.

Lemma In_take {A : Type} (l : list A) (indices : list nat) (a : A) :
  In a (take l indices) <-> exists i, In i indices /\ nth_error l i = Some a.
Proof.
  unfold take. rewrite in_flat_map. split.
  - intros (i & Hi & Ha). exists i. split; [exact Hi |].
    destruct (nth_error l i) as [b |]; [| destruct Ha].
    destruct Ha as [<- | []]. reflexivity.
  - intros (i & Hi & Ha). exists i. split; [exact Hi |]. rewrite Ha. left. reflexivity.
Qed.

Lemma take_sorted {A : Type} (f : A -> Z) (l : list A) (indices : list nat) :
  StronglySorted (fun i j => nth i (map f l) 0 <= nth j (map f l) 0) indices ->
  StronglySorted (fun a b => f a <= f b) (take l indices).
Proof.
  assert (forall i a, nth_error l i = Some a -> nth i (map f l) 0 = f a) as Hkey.
  { intros i a Ha. apply nth_error_nth. rewrite nth_error_map, Ha. reflexivity. }
  induction 1 as [| i indices Hsorted IH Hall].
  - constructor.
  - change (take l (i :: indices))
      with ((match nth_error l i with Some a => [a] | None => [] end)
            ++ take l indices).
    destruct (nth_error l i) as [a |] eqn:Ea; simpl; [| exact IH].
    constructor; [exact IH |].
    apply Forall_forall. intros b Hb. apply In_take in Hb.
    destruct Hb as (j & Hj & Hb).
    rewrite Forall_forall in Hall. specialize (Hall j Hj).
    rewrite (Hkey i a Ea), (Hkey j b Hb) in Hall. exact Hall.
Qed.

(** The insertion of positions is an argsort as numpy promises one. *)
Lemma insertion_argsort_sound : argsort_sound insertion_argsort.
Proof.
  intros keys. split; [apply insertion_argsort_perm | apply insertion_argsort_sorted].
Qed.

Lemma sort_values_sorted (argsort : list Z -> list nat) (frame : list roster_row) :
  argsort_sound argsort ->
  StronglySorted (fun a b => Total_Shifts a <= Total_Shifts b)
                 (sort_values argsort frame).
Proof.
  intros Hsound. unfold sort_values. apply take_sorted. apply Hsound.
Qed.

Lemma insert_index_filter (key : nat -> Z) (k : Z) (i : nat) (l : list nat) :
  filter (fun j => key j =? k) (insert_index key i l)
  = filter (fun j => key j =? k) (i :: l).
Proof.
  induction l as [| j l IH]; [reflexivity |].
  simpl insert_index. destruct (Z.leb_spec (key i) (key j)) as [Hle | Hgt];
    [reflexivity |].
  simpl in *. rewrite IH.
  destruct (Z.eqb_spec (key i) k) as [Hi | Hi];
    destruct (Z.eqb_spec (key j) k) as [Hj | Hj]; try reflexivity. lia.
Qed.

Lemma insertion_argsort_filter (keys : list Z) (k : Z) :
  filter (fun j => nth j keys 0 =? k) (insertion_argsort keys)
  = filter (fun j => nth j keys 0 =? k) (seq 0 (length keys)).
Proof.
  unfold insertion_argsort. induction (seq 0 (length keys)) as [| i l IH]; [reflexivity |].
  simpl fold_right. rewrite insert_index_filter. simpl. rewrite IH. reflexivity.
Qed.

Lemma take_cons {A : Type} (l : list A) (i : nat) (indices : list nat) :
  take l (i :: indices)
  = (match nth_error l i with Some a => [a] | None => [] end) ++ take l indices.
Proof. reflexivity. Qed.

Lemma take_filter {A : Type} (f : A -> Z) (k : Z) (l : list A) (indices : list nat) :
  filter (fun a => f a =? k) (take l indices)
  = take l (filter (fun i => nth i (map f l) 0 =? k) indices).
Proof.
  induction indices as [| i indices IH]; [reflexivity |].
  rewrite take_cons, filter_app, IH. cbn [filter].
  destruct (nth_error l i) as [a |] eqn:Ea.
  - assert (nth i (map f l) 0 = f a) as Hkey.
    { apply nth_error_nth. rewrite nth_error_map, Ea. reflexivity. }
    rewrite Hkey. cbn [filter].
    destruct (f a =? k); [| reflexivity].
    rewrite take_cons, Ea. reflexivity.
  - cbn [filter]. destruct (nth i (map f l) 0 =? k); [| reflexivity].
    rewrite take_cons, Ea. reflexivity.
Qed.

(** With the insertion of positions the sort is stable: rows with one
    total stay in their order.  Nothing below relies on it. *)
Lemma insertion_sort_values_stable (frame : list roster_row) (k : Z) :
  filter (fun r => Total_Shifts r =? k) (sort_values insertion_argsort frame)
  = filter (fun r => Total_Shifts r =? k) frame.
Proof.
  unfold sort_values.
  rewrite take_filter, insertion_argsort_filter, length_map, <- take_filter.
  f_equal. apply (take_seq frame []).
Qed.

(** C6 (as amended).  The candidates that remain after the compatibility
    filter are ranked by ascending [Total_Shifts], and the ranking offers
    the same candidates, whatever argsort numpy uses.  The sort looks at
    [Total_Shifts] alone: the order of candidates with equal totals does not
    follow their identifiers. *)
Theorem ranking_by_total_shifts (argsort : list Z -> list nat)
        (roster_df : RosterFrame) (selected_date : nat)
        (absent_shift : option shift_label) :
  argsort_sound argsort ->
  let candidates := candidates_for roster_df selected_date absent_shift in
  Permutation (sort_values argsort candidates) candidates
  /\ StronglySorted (fun a b => Total_Shifts a <= Total_Shifts b)
                    (sort_values argsort candidates).
Proof.
  intros Hsound candidates.
  split; [apply sort_values_perm | apply sort_values_sorted]; exact Hsound.
Qed.

Lemma ranking_by_total_shifts_witness :
  Permutation (sort_values insertion_argsort (candidates_for Crowd.roster_df 0 (Some Day)))
              (candidates_for Crowd.roster_df 0 (Some Day))
  /\ StronglySorted (fun a b => Total_Shifts a <= Total_Shifts b)
       (sort_values insertion_argsort (candidates_for Crowd.roster_df 0 (Some Day))).
Proof.
  apply (ranking_by_total_shifts insertion_argsort Crowd.roster_df 0 (Some Day)).
  apply insertion_argsort_sound.
Defined.

Example crowd_ranking :
  map (fun r => (row_Name r, Total_Shifts r))
      (sort_values insertion_argsort (candidates_for Crowd.roster_df 0 (Some Day)))
  = [(CStr "C", 6); (CStr "E", 6); (CStr "G", 7); (CStr "D", 8); (CStr "I", 8);
     (CStr "F", 9); (CStr "H", 11)].
Proof. vm_compute. reflexivity. Qed.

(** An argsort of two keys gives the two positions in one of two orders. *)
Lemma two_positions (l : list nat) :
  Permutation l [0; 1]%nat -> l = [0; 1]%nat \/ l = [1; 0]%nat.
Proof.
  intros Hperm. pose proof (Permutation_length Hperm) as Hlen.
  destruct l as [| a [| b [| c l]]]; try discriminate Hlen.
  assert (In a [0; 1]%nat) as Ha by (apply (Permutation_in _ Hperm); simpl; auto).
  assert (In b [0; 1]%nat) as Hb by (apply (Permutation_in _ Hperm); simpl; auto).
  assert (a <> b) as Hab.
  { pose proof (Permutation_NoDup (Permutation_sym Hperm)) as Hnd.
    assert (NoDup [0; 1]%nat) as H01
        by (constructor; [simpl; intros [H | []]; discriminate
                         | constructor; [intros [] | constructor]]).
    specialize (Hnd H01). inversion Hnd as [| x l Hnotin _]; subst.
    intros ->. apply Hnotin. left. reflexivity. }
  simpl in Ha, Hb.
  destruct Ha as [<- | [<- | []]]; destruct Hb as [<- | [<- | []]];
    auto; contradiction.
Qed.

Example mirror_run_sound : solver_sound Ties.Solve Mirror.employee_dna 2026 3.
Proof. unfold solver_sound. vm_compute. reflexivity. Qed.

Example mirror_run_rows :
  map (fun r => (Employee_ID r, cell_on r 0, Total_Shifts r)) (rows Mirror.roster_df)
  = [(CInt 104, Some WO, 21); (CInt 205, Some WO, 21); (CInt 300, Some Day, 21)].
Proof. vm_compute. reflexivity. Qed.

(** C6 as stated fails.  In the run [Ties] the employees 205 and 104 rest
    on the first day with 21 shifts each, in this order of rows: an argsort
    that leaves equal keys in place ranks 205 before 104.  And whatever
    argsort is used, it sees the two equal totals only, so it ranks against
    the identifiers either in [Ties] or in the same run with the two rows
    exchanged. *)
Lemma ranking_ties_by_identifier_fails :
  ~ ties_by_identifier
      (sort_values insertion_argsort (candidates_for Ties.roster_df 0 (Some Day)))
  /\ (forall argsort,
        argsort_sound argsort ->
        ~ ties_by_identifier
            (sort_values argsort (candidates_for Ties.roster_df 0 (Some Day)))
        \/ ~ ties_by_identifier
               (sort_values argsort (candidates_for Mirror.roster_df 0 (Some Day)))).
Proof.
  split.
  - intros H.
    remember (sort_values insertion_argsort (candidates_for Ties.roster_df 0 (Some Day)))
      as ranking eqn:E.
    vm_compute in E. subst ranking.
    specialize (H 0%nat 1%nat _ _ (le_n 1%nat) eq_refl eq_refl eq_refl).
    vm_compute in H. discriminate H.
  - intros argsort Hsound.
    destruct (Hsound [21; 21]) as [Hperm _]. simpl in Hperm.
    destruct (two_positions _ Hperm) as [Hid | Hswap]; [left | right]; intros H.
    + remember (candidates_for Ties.roster_df 0 (Some Day)) as candidates eqn:E.
      vm_compute in E. subst candidates.
      unfold sort_values in H. simpl map in H. rewrite Hid in H.
      specialize (H 0%nat 1%nat _ _ (le_n 1%nat) eq_refl eq_refl eq_refl).
      vm_compute in H. discriminate H.
    + remember (candidates_for Mirror.roster_df 0 (Some Day)) as candidates eqn:E.
      vm_compute in E. subst candidates.
      unfold sort_values in H. simpl map in H. rewrite Hswap in H.
      specialize (H 0%nat 1%nat _ _ (le_n 1%nat) eq_refl eq_refl eq_refl).
      vm_compute in H. discriminate H.
Qed.

Example ties_best_fit :
  match find_replacement insertion_argsort Ties.roster_df 0 (CStr "Zed") with
  | Returned (success best_fit top) =>
      (Employee_ID best_fit, map Employee_ID top, map Total_Shifts top)
      = (CInt 205, [CInt 205; CInt 104], [21; 21])
  | _ => False
  end.
Proof. vm_compute. reflexivity. Qed.

(** Whatever argsort is used, it sees the totals only: on two candidates
    with equal totals it gives one order of the positions, and one of the
    two row orders then comes out against the identifiers. *)
Lemma no_argsort_ranks_by_identifier (any_argsort : list Z -> list nat) :
  Permutation (any_argsort [21; 21]) [0; 1]%nat ->
  exists frame,
    Permutation frame [Scenario.row 104 "Ravi" Rotating WO 21;
                       Scenario.row 205 "Sam" Rotating WO 21]
    /\ ~ ties_by_identifier (sort_values any_argsort frame).
Proof.
  intros Hperm.
  destruct (two_positions _ Hperm) as [Hid | Hswap].
  - exists [Scenario.row 205 "Sam" Rotating WO 21; Scenario.row 104 "Ravi" Rotating WO 21].
    split; [apply perm_swap |].
    intros H. unfold sort_values in H. simpl map in H. rewrite Hid in H.
    specialize (H 0%nat 1%nat _ _ (le_n 1%nat) eq_refl eq_refl eq_refl).
    vm_compute in H. discriminate H.
  - exists [Scenario.row 104 "Ravi" Rotating WO 21; Scenario.row 205 "Sam" Rotating WO 21].
    split; [apply Permutation_refl |].
    intros H. unfold sort_values in H. simpl map in H. rewrite Hswap in H.
    specialize (H 0%nat 1%nat _ _ (le_n 1%nat) eq_refl eq_refl eq_refl).
    vm_compute in H. discriminate H.
Qed.

Lemma cell_eqb_eq (a b : cell) : cell_eqb a b = true <-> a = b.
Proof.
  destruct a, b; simpl; split; intros H; try discriminate; try reflexivity.
  - apply str_eqb_eq in H. congruence.
  - injection H as ->. apply str_eqb_refl.
  - apply Z.eqb_eq in H. congruence.
  - injection H as ->. apply Z.eqb_refl.
Qed.


Lemma In_unique_from (seen l : list cell) (x : cell) :
  In x (unique_from seen l) -> In x l.
Proof.
  revert seen. induction l as [| y l IH]; simpl; intros seen H; [exact H |].
  destruct (existsb (cell_eqb y) seen).
  - right. apply (IH seen). exact H.
  - destruct H as [-> | H]; [left; reflexivity | right; apply (IH _ H)].
Qed.




(** A frame of one row is ranked as it is. *)
Lemma sort_values_one (argsort : list Z -> list nat) (row : roster_row) :
  argsort_sound argsort -> sort_values argsort [row] = [row].
Proof.
  intros Hsound. pose proof (sort_values_perm argsort [row] Hsound) as Hperm.
  apply Permutation_sym, Permutation_length_1_inv in Hperm. exact Hperm.
Qed.

(** C9.  The code at the failing input.  In the run [Twins] two employees
    are named "Sam"; on the first day the first rests and the second works.
    The select box offers "Sam"; the row read for that name is the first
    Sam, whose cell is WO; the handler raises nothing and, whatever argsort
    it is given, shows a best fit: the resting Sam. *)
Theorem rest_absence_is_not_signalled :
  In (CStr "Sam") (absent_employee_options Twins.roster_df 0)
  /\ (exists absent_emp_row,
        absent_row Twins.roster_df (CStr "Sam") = Returned absent_emp_row
        /\ Employee_ID absent_emp_row = CInt 1
        /\ cell_on absent_emp_row 0 = Some WO)
  /\ (forall argsort,
        argsort_sound argsort ->
        exists best_fit top,
          find_replacement argsort Twins.roster_df 0 (CStr "Sam")
          = Returned (success best_fit top)
          /\ Employee_ID best_fit = CInt 1).
Proof.
  split; [vm_compute; auto |]. split.
  - eexists. split; [vm_compute; reflexivity |]. split; reflexivity.
  - intros argsort Hsound.
    remember (rows Twins.roster_df) as twins eqn:Erows. vm_compute in Erows.
    destruct twins as [| sam1 [| sam2 [| other twins]]]; try discriminate Erows.
    injection Erows as E1 E2.
    assert (absent_row Twins.roster_df (CStr "Sam") = Returned sam1) as Habsent
        by (rewrite E1; vm_compute; reflexivity).
    rewrite (find_replacement_shows argsort _ _ _ _ Habsent).
    assert (candidates_for Twins.roster_df 0 (cell_on sam1 0) = [sam1]) as ->
        by (rewrite E1; vm_compute; reflexivity).
    rewrite (sort_values_one argsort sam1 Hsound).
    exists sam1, [sam1]. split; [reflexivity |]. rewrite E1. reflexivity.
Qed.

(** ** No week is longer than seven days *)

Lemma day_of_week_range (d : datetime.date) : 0 <= day_of_week d <= 6.
Proof. unfold day_of_week. pose proof (Z.mod_pos_bound (datetime.weekday d + 1) 7). lia. Qed.

Lemma saturday_is_last (d : datetime.date) :
  datetime.weekday d = 5 <-> day_of_week d = 6.
Proof.
  unfold day_of_week.
  assert (0 <= datetime.weekday d < 7) as Hr
      by (unfold datetime.weekday; apply Z.mod_pos_bound; lia).
  split; intros H.
  - rewrite H. reflexivity.
  - assert (datetime.weekday d = 0 \/ datetime.weekday d = 1 \/ datetime.weekday d = 2
            \/ datetime.weekday d = 3 \/ datetime.weekday d = 4 \/ datetime.weekday d = 5
            \/ datetime.weekday d = 6) as Hc by lia.
    repeat (destruct Hc as [Hc | Hc]); rewrite Hc in H; try discriminate H; exact Hc.
Qed.

Lemma next_day_of_week (d d' : datetime.date) :
  datetime.toordinal d' = datetime.toordinal d + 1 ->
  day_of_week d <> 6 -> day_of_week d' = day_of_week d + 1.
Proof.
  unfold day_of_week, datetime.weekday. intros -> H.
  rewrite !Zplus_mod_idemp_l in *.
  replace (datetime.toordinal d + 1 + 6 + 1) with (datetime.toordinal d + 6 + 1 + 1) by lia.
  pose proof (Z.mod_pos_bound (datetime.toordinal d + 6 + 1) 7 ltac:(lia)) as Hr.
  rewrite <- (Zplus_mod_idemp_l (datetime.toordinal d + 6 + 1) 1).
  apply Z.mod_small. lia.
Qed.

Lemma after_saturday (d d' : datetime.date) :
  datetime.toordinal d' = datetime.toordinal d + 1 ->
  day_of_week d = 6 -> day_of_week d' = 0.
Proof.
  unfold day_of_week, datetime.weekday. intros -> H.
  rewrite !Zplus_mod_idemp_l in *.
  replace (datetime.toordinal d + 1 + 6 + 1) with (datetime.toordinal d + 6 + 1 + 1) by lia.
  rewrite <- (Zplus_mod_idemp_l (datetime.toordinal d + 6 + 1) 1), H. reflexivity.
Qed.

Lemma week_step_lengths (l : list (nat * datetime.date)) :
  forall weeks current_week weeks' current_week',
    consecutive_days l ->
    Forall (fun w => (length w <= 7)%nat) weeks ->
    (length current_week <= 6)%nat ->
    match l with
    | [] => True
    | p :: _ => Z.of_nat (length current_week) <= day_of_week (snd p)
    end ->
    fold_left week_step l (weeks, current_week) = (weeks', current_week') ->
    Forall (fun w => (length w <= 7)%nat) weeks' /\ (length current_week' <= 6)%nat.
Proof.
  induction l as [| p l IH]; simpl fold_left; intros ws cur ws' cur' Hcons Hws Hcur Hpos H.
  - injection H as <- <-. auto.
  - remember (week_step (ws, cur) p) as st eqn:Est. unfold week_step in Est.
    pose proof (day_of_week_range (snd p)) as Hrange.
    destruct (Z.eqb_spec (datetime.weekday (snd p)) 5) as [Hsat | Hsat]; subst st.
    + apply saturday_is_last in Hsat.
      apply (IH _ _ _ _) in H; auto.
      * destruct l as [| q l]; [exact I | apply Hcons].
      * apply Forall_app. split; [exact Hws |]. constructor; [| constructor].
        rewrite length_app. simpl. lia.
      * simpl. lia.
      * destruct l as [| q l]; [exact I |]. simpl.
        destruct Hcons as [Hnext _]. rewrite (after_saturday _ _ Hnext Hsat). lia.
    + assert (day_of_week (snd p) <> 6) as Hnot
          by (intros Heq; apply Hsat; apply saturday_is_last; exact Heq).
      apply (IH _ _ _ _) in H; auto.
      * destruct l as [| q l]; [exact I | apply Hcons].
      * rewrite length_app. simpl. lia.
      * destruct l as [| q l]; [exact I |].
        destruct Hcons as [Hnext _]. rewrite (next_day_of_week _ _ Hnext Hnot).
        rewrite length_app. simpl. lia.
Qed.

Lemma consecutive_enumerate (year month : Z) (n : nat) :
  consecutive_days
    (enumerate (map (fun day => datetime.mkdate year month (Z.of_nat day)) (seq 1 n))).
Proof.
  unfold enumerate. rewrite length_map, length_seq.
  generalize 0%nat as k. generalize 1%nat as first.
  induction n as [| n IH]; intros first k; [exact I |].
  destruct n as [| n]; [exact I |].
  specialize (IH (S first) (S k)).
  simpl in *. split; [| exact IH].
  unfold datetime.toordinal, datetime._ymd2ord. simpl. lia.
Qed.

Lemma month_calendar_dates (year month : Z) (num_days : nat)
      (dates : list datetime.date) :
  month_calendar year month = Returned (num_days, dates) ->
  dates = map (fun day => datetime.mkdate year month (Z.of_nat day)) (seq 1 num_days).
Proof.
  unfold month_calendar. intros H.
  apply bind_Returned_inv in H. destruct H as (mr & _ & H).
  apply bind_Returned_inv in H. destruct H as (ds & Hds & H).
  injection H as <- <-. apply mapM_Forall2 in Hds.
  induction Hds as [| day d l ds Hd _ IH]; simpl; [reflexivity |].
  rewrite <- IH. f_equal. unfold datetime.new in Hd.
  repeat match type of Hd with
         | (if ?b then _ else _) = _ => destruct b; [discriminate Hd |]
         end.
  injection Hd as <-. reflexivity.
Qed.

(** The weeks of a run: they cover the days of the month in order, and
    each has between one and seven days. *)
Lemma roster_weeks_shape (year month : Z) (weeks : list (list nat)) :
  roster_weeks year month = Returned weeks ->
  exists num_days dates,
    month_calendar year month = Returned (num_days, dates)
    /\ concat weeks = days_indices num_days
    /\ Forall (fun w => (1 <= length w <= 7)%nat) weeks.
Proof.
  unfold roster_weeks. intros H.
  apply bind_Returned_inv in H. destruct H as ([num_days dates] & Hcal & H).
  injection H as <-. simpl.
  exists num_days, dates. split; [exact Hcal |].
  pose proof (month_calendar_length _ _ _ _ Hcal) as Hlen.
  destruct (group_weeks_partition dates) as [Hconcat Hne].
  split; [rewrite Hconcat, Hlen; reflexivity |].
  assert (Forall (fun w => (length w <= 7)%nat) (group_weeks dates)) as Hle.
  { unfold group_weeks.
    destruct (fold_left week_step (enumerate dates) ([], [])) as [ws cur] eqn:E.
    apply week_step_lengths in E.
    - destruct E as [Hws Hcur]. destruct cur as [| d cur]; [exact Hws |].
      apply Forall_app. split; [exact Hws |]. constructor; [lia | constructor].
    - rewrite (month_calendar_dates _ _ _ _ Hcal). apply consecutive_enumerate.
    - constructor.
    - simpl. lia.
    - destruct (enumerate dates) as [| p l]; [exact I |]. simpl.
      pose proof (day_of_week_range (snd p)). lia. }
  rewrite Forall_forall in *. intros w Hw.
  specialize (Hne w Hw). specialize (Hle w Hw).
  destruct w; [contradiction | simpl in *; lia].
Qed.

(** ** Every variable is created once

    A variable is identified by its name; this is sound because no name is
    used twice, which is what this section proves. *)

Lemma created_app (a b : CpModel) : created (a ++ b) = created a ++ created b.
Proof. unfold created. apply flat_map_app. Qed.

Lemma created_flat_map {A : Type} (f : A -> CpModel) (l : list A) :
  created (flat_map f l) = flat_map (fun a => created (f a)) l.
Proof.
  induction l as [| a l IH]; simpl; [reflexivity |].
  rewrite created_app, IH. reflexivity.
Qed.

Lemma created_map {A : Type} (g : A -> ModelCall) (l : list A) :
  created (map g l) = flat_map (fun a => created_by (g a)) l.
Proof.
  induction l as [| a l IH]; simpl; [reflexivity |].
  unfold created in *. simpl. rewrite IH. reflexivity.
Qed.

Lemma flat_map_singleton {A B : Type} (v : A -> B) (l : list A) :
  flat_map (fun a => [v a]) l = map v l.
Proof. induction l as [| a l IH]; simpl; [reflexivity | rewrite IH; reflexivity]. Qed.

Lemma created_none (model : CpModel) :
  (forall c, In c model -> created_by c = []) -> created model = [].
Proof.
  induction model as [| c model IH]; intros H; [reflexivity |].
  unfold created in *. simpl.
  rewrite (H c (or_introl eq_refl)), IH by (intros c' Hc'; apply H; right; exact Hc').
  reflexivity.
Qed.

Lemma created_roster_variables (employee_dna : dict) (num_days : nat) :
  created (roster_variables employee_dna num_days)
  = flat_map (fun e => map (shift_e_d e) (days_indices num_days))
             (emp_indices employee_dna).
Proof.
  unfold roster_variables. rewrite created_flat_map.
  apply flat_map_ext. intros e. rewrite created_map. apply flat_map_singleton.
Qed.

Lemma created_dna_constraints (employee_dna : dict) (num_days : nat) :
  created (dna_constraints employee_dna num_days) = [].
Proof.
  apply created_none. intros c H. unfold dna_constraints in H.
  apply in_flat_map in H. destruct H as ([e emp_id] & _ & H).
  unfold dna_constraints_of in H.
  apply in_flat_map in H. destruct H as (d & _ & H).
  destruct (dna_lookup employee_dna emp_id) as [[| |] |]; simpl in H;
    try destruct H as [<- | []]; try destruct H; reflexivity.
Qed.

Lemma created_NewBoolVar (l : list IntVar) : created (map NewBoolVar l) = l.
Proof.
  induction l as [| x l IH]; [reflexivity |].
  unfold created in *. simpl. rewrite IH. reflexivity.
Qed.

Lemma created_weekly_off_of (e : nat) (week_days : list nat) :
  created (weekly_off_of e week_days) = map (is_wo_e_d e) week_days.
Proof.
  unfold weekly_off_of. rewrite !created_app, created_NewBoolVar.
  rewrite (created_none (flat_map _ _)).
  2:{ intros c H. apply in_flat_map in H. destruct H as (d & _ & H).
      simpl in H. destruct H as [<- | [<- | []]]; reflexivity. }
  rewrite (created_none [_]).
  2:{ intros c [<- | []]. destruct (_ =? _)%nat; reflexivity. }
  rewrite !app_nil_r. reflexivity.
Qed.

Lemma created_shift_lock_of (e : nat) (week_days : list nat) :
  created (shift_lock_of e week_days)
  = [has_day_e_w e (hd 0%nat week_days); has_night_e_w e (hd 0%nat week_days)]
    ++ flat_map (fun d => [is_day_e_d e d; is_night_e_d e d]) week_days.
Proof.
  unfold shift_lock_of. rewrite !created_app, created_flat_map.
  simpl. rewrite app_nil_r. reflexivity.
Qed.

Lemma created_totals_of (num_days e : nat) :
  created (totals_of num_days e)
  = flat_map (fun d => [obj_is_d_e_d e d; obj_is_n_e_d e d]) (days_indices num_days).
Proof.
  unfold totals_of. rewrite !created_app, created_flat_map.
  simpl. rewrite app_nil_r. reflexivity.
Qed.

Lemma created_build_model (employee_dna : dict) (num_days : nat)
      (weeks : list (list nat)) :
  created (build_model employee_dna num_days weeks)
  = flat_map (fun e => map (shift_e_d e) (days_indices num_days))
             (emp_indices employee_dna)
    ++ flat_map (fun week_days =>
         flat_map (fun e => map (is_wo_e_d e) week_days) (emp_indices employee_dna))
         weeks
    ++ flat_map (fun week_days =>
         flat_map (fun e =>
           [has_day_e_w e (hd 0%nat week_days); has_night_e_w e (hd 0%nat week_days)]
           ++ flat_map (fun d => [is_day_e_d e d; is_night_e_d e d]) week_days)
           (emp_indices employee_dna))
         weeks
    ++ (map total_days_e (emp_indices employee_dna)
        ++ map total_nights_e (emp_indices employee_dna)
        ++ flat_map (fun e =>
             flat_map (fun d => [obj_is_d_e_d e d; obj_is_n_e_d e d])
                      (days_indices num_days))
             (emp_indices employee_dna))
    ++ map total_work_e (emp_indices employee_dna)
    ++ [min_work; max_work].
Proof.
  unfold build_model. rewrite !created_app.
  rewrite created_roster_variables, created_dna_constraints. simpl app.
  f_equal. f_equal.
  { unfold weekly_off_constraints. rewrite created_flat_map.
    apply flat_map_ext. intros w. rewrite created_flat_map.
    apply flat_map_ext. intros e. apply created_weekly_off_of. }
  f_equal.
  { unfold shift_lock_constraints. rewrite created_flat_map.
    apply flat_map_ext. intros w. rewrite created_flat_map.
    apply flat_map_ext. intros e. apply created_shift_lock_of. }
  f_equal.
  { unfold totals_constraints. rewrite !created_app, !created_map.
    cbn [created_by]. rewrite !flat_map_singleton.
    f_equal. f_equal. rewrite created_flat_map.
    apply flat_map_ext. intros e. apply created_totals_of. }
  unfold spread_objective. rewrite !created_app, !created_map.
  cbn [created_by]. rewrite flat_map_singleton.
  replace (flat_map (fun _ : nat => []) (emp_indices employee_dna)) with (@nil IntVar)
    by (induction (emp_indices employee_dna); simpl; auto).
  reflexivity.
Qed.

Lemma NoDup_flat_map_sites {A B : Type} (f : A -> list B) (l : list A) :
  NoDup l ->
  (forall a, In a l -> NoDup (f a)) ->
  (forall a a' x, In a l -> In a' l -> In x (f a) -> In x (f a') -> a = a') ->
  NoDup (flat_map f l).
Proof.
  induction 1 as [| a l Hnotin Hnd IH]; simpl; intros Heach Hsite; [constructor |].
  apply NoDup_app.
  - apply Heach. left. reflexivity.
  - apply IH.
    + intros a' Ha'. apply Heach. right. exact Ha'.
    + intros a1 a2 x H1 H2. apply Hsite; right; assumption.
  - intros x Hx Hin. apply in_flat_map in Hin. destruct Hin as (a' & Ha' & Hx').
    assert (a = a') as ->
        by (apply (Hsite a a' x);
            [left; reflexivity | right; exact Ha' | exact Hx | exact Hx']).
    apply Hnotin. exact Ha'.
Qed.

Lemma NoDup_map_injective {A B : Type} (v : A -> B) (l : list A) :
  (forall a b, v a = v b -> a = b) -> NoDup l -> NoDup (map v l).
Proof.
  intros Hinj. induction 1 as [| a l Hnotin Hnd IH]; simpl; constructor; [| exact IH].
  intros Hin. apply in_map_iff in Hin. destruct Hin as (b & Hb & Hin).
  apply Hinj in Hb. subst b. contradiction.
Qed.

Lemma NoDup_app_disjoint {A : Type} (l1 l2 : list A) (x : A) :
  NoDup (l1 ++ l2) -> In x l1 -> In x l2 -> False.
Proof.
  induction l1 as [| a l1 IH]; simpl; intros Hnd H1 H2; [exact H1 |].
  inversion Hnd as [| a' l' Hnotin Hnd']; subst.
  destruct H1 as [-> | H1]; [| exact (IH Hnd' H1 H2)].
  apply Hnotin. apply in_or_app. right. exact H2.
Qed.

Section Weeks.

Variable weeks : list (list nat).
Hypothesis weeks_cover_once : NoDup (concat weeks).
Hypothesis weeks_not_empty : Forall (fun w => w <> []) weeks.

Lemma week_NoDup (w : list nat) : In w weeks -> NoDup w.
Proof.
  clear weeks_not_empty. revert weeks_cover_once.
  induction weeks as [| a ws IH]; simpl; intros Hnd Hin; [destruct Hin |].
  destruct Hin as [-> | Hin].
  - apply (NoDup_app_remove_r _ _ Hnd).
  - apply IH; [apply (NoDup_app_remove_l _ _ Hnd) | exact Hin].
Qed.

Lemma week_of_day (w w' : list nat) (d : nat) :
  In w weeks -> In w' weeks -> In d w -> In d w' -> w = w'.
Proof.
  clear weeks_not_empty. revert weeks_cover_once.
  induction weeks as [| a ws IH]; simpl; intros Hnd Hw Hw' Hd Hd'; [destruct Hw |].
  destruct Hw as [-> | Hw]; destruct Hw' as [-> | Hw'].
  - reflexivity.
  - exfalso. apply (NoDup_app_disjoint _ _ d Hnd Hd).
    apply in_concat. exists w'. auto.
  - exfalso. apply (NoDup_app_disjoint _ _ d Hnd Hd').
    apply in_concat. exists w. auto.
  - apply IH; auto. apply (NoDup_app_remove_l _ _ Hnd).
Qed.

Lemma week_of_first_day (w w' : list nat) :
  In w weeks -> In w' weeks -> hd 0%nat w = hd 0%nat w' -> w = w'.
Proof.
  intros Hw Hw' Hhd.
  pose proof weeks_not_empty as Hne. rewrite Forall_forall in Hne.
  pose proof (Hne w Hw) as Hwne. pose proof (Hne w' Hw') as Hwne'.
  destruct w as [| d w]; [contradiction |].
  destruct w' as [| d' w']; [contradiction |].
  simpl in Hhd. subst d'.
  apply (week_of_day _ _ d); simpl; auto.
Qed.

Lemma weeks_NoDup : NoDup weeks.
Proof.
  revert weeks_cover_once weeks_not_empty.
  induction weeks as [| a ws IH]; simpl; intros Hnd Hne; constructor.
  - intros Hin. inversion Hne as [| a' ws' Ha Hws]; subst.
    destruct a as [| d a]; [contradiction |].
    apply (NoDup_app_disjoint _ _ d Hnd); [left; reflexivity |].
    apply in_concat. exists (d :: a). split; [exact Hin | left; reflexivity].
  - apply IH; [apply (NoDup_app_remove_l _ _ Hnd) | inversion Hne; assumption].
Qed.

End Weeks.

Ltac break_in :=
  repeat match goal with
         | H : In _ (flat_map _ _) |- _ =>
             apply in_flat_map in H; destruct H as (? & ? & H)
         | H : In _ (map _ _) |- _ =>
             apply in_map_iff in H; destruct H as (? & ? & ?)
         | H : In _ (_ ++ _) |- _ => apply in_app_iff in H; destruct H as [H | H]
         | H : In _ (_ :: _) |- _ => destruct H as [H | H]
         | H : In _ [] |- _ => destruct H
         end.

Ltac two_names := repeat constructor; simpl; intuition discriminate.

Lemma variables_created_once (employee_dna : dict) (num_days : nat)
      (weeks : list (list nat)) :
  NoDup (concat weeks) -> Forall (fun w => w <> []) weeks ->
  NoDup (created (build_model employee_dna num_days weeks)).
Proof.
  intros Hcover Hne. rewrite created_build_model.
  pose proof (seq_NoDup (length (employees employee_dna)) 0) as Hemps.
  fold (emp_indices employee_dna) in Hemps.
  pose proof (seq_NoDup num_days 0) as Hdays. fold (days_indices num_days) in Hdays.
  pose proof (weeks_NoDup weeks Hcover Hne) as Hweeks.
  repeat apply NoDup_app.
  - (* the shifts *)
    apply NoDup_flat_map_sites; [exact Hemps | |].
    + intros e _. apply NoDup_map_injective; [congruence | exact Hdays].
    + intros e e' x _ _ H1 H2. break_in. congruence.
  - (* the weekly-off indicators *)
    apply NoDup_flat_map_sites; [exact Hweeks | |].
    + intros w Hw. apply NoDup_flat_map_sites; [exact Hemps | |].
      * intros e _. apply NoDup_map_injective; [congruence |].
        apply (week_NoDup weeks Hcover w Hw).
      * intros e e' x _ _ H1 H2. break_in. congruence.
    + intros w w' x Hw Hw' H1 H2. break_in.
      match goal with
      | Ha : is_wo_e_d _ ?d = x, Hb : is_wo_e_d _ ?d' = x |- _ =>
          assert (d = d') by congruence; subst d'
      end.
      eapply (week_of_day weeks Hcover w w'); eassumption.
  - (* the shift-lock indicators *)
    apply NoDup_flat_map_sites; [exact Hweeks | |].
    + intros w Hw. apply NoDup_flat_map_sites; [exact Hemps | |].
      * intros e _. apply NoDup_app; [two_names | |].
        -- apply NoDup_flat_map_sites; [apply (week_NoDup weeks Hcover w Hw) | |].
           ++ intros d _. two_names.
           ++ intros d d' x _ _ H1 H2. break_in; congruence.
        -- intros x H1 H2. break_in; subst; discriminate.
      * intros e e' x _ _ H1 H2. break_in; congruence.
    + intros w w' x Hw Hw' H1 H2. break_in; subst; try discriminate;
        match goal with
        | H : has_day_e_w _ _ = has_day_e_w _ _ |- _ =>
            injection H as _ Hhd; apply (week_of_first_day weeks Hcover Hne w w' Hw Hw');
            congruence
        | H : has_night_e_w _ _ = has_night_e_w _ _ |- _ =>
            injection H as _ Hhd; apply (week_of_first_day weeks Hcover Hne w w' Hw Hw');
            congruence
        | H : is_day_e_d _ _ = is_day_e_d _ _ |- _ =>
            injection H as _ Hd; subst;
            eapply (week_of_day weeks Hcover w w'); eassumption
        | H : is_night_e_d _ _ = is_night_e_d _ _ |- _ =>
            injection H as _ Hd; subst;
            eapply (week_of_day weeks Hcover w w'); eassumption
        end.
  - (* the totals *)
    apply NoDup_map_injective; [congruence | exact Hemps].
  - apply NoDup_map_injective; [congruence | exact Hemps].
  - apply NoDup_flat_map_sites; [exact Hemps | |].
    + intros e _. apply NoDup_flat_map_sites; [exact Hdays | |].
      * intros d _. two_names.
      * intros d d' x _ _ H1 H2. break_in; congruence.
    + intros e e' x _ _ H1 H2. break_in; congruence.
  - intros x H1 H2. break_in; subst; discriminate.
  - intros x H1 H2. break_in; subst; discriminate.
  - apply NoDup_map_injective; [congruence | exact Hemps].
  - two_names.
  - intros x H1 H2. break_in; subst; discriminate.
  - intros x H1 H2. break_in; subst; discriminate.
  - intros x H1 H2. break_in; subst; discriminate.
  - intros x H1 H2. break_in; subst; discriminate.
  - intros x H1 H2. break_in; subst; discriminate.
Qed.

(** In a run the weeks come from the calendar, and no name is used twice. *)
Lemma run_variables_created_once (employee_dna : dict)
      (dates : list datetime.date) :
  NoDup (created (build_model employee_dna (length dates) (group_weeks dates))).
Proof.
  destruct (group_weeks_partition dates) as [Hconcat Hne].
  apply variables_created_once; [| exact Hne].
  rewrite Hconcat. apply seq_NoDup.
Qed.

(** * Further properties of the code *)

(** ** Dates that the calendar refuses *)

Lemma month_has_days (year month : Z) :
  1 <= month <= 12 ->
  exists n,
    Z.to_nat (nth (Z.to_nat month) calendar.mdays 0
              + (if (month =? 2) && calendar.isleap year then 1 else 0)) = S n.
Proof.
  intros Hm.
  assert (month = 1 \/ month = 2 \/ month = 3 \/ month = 4 \/ month = 5 \/ month = 6
          \/ month = 7 \/ month = 8 \/ month = 9 \/ month = 10 \/ month = 11
          \/ month = 12) as Hcases by lia.
  repeat (destruct Hcases as [-> | Hcases]); try subst month;
    simpl; try (eexists; reflexivity);
    destruct (calendar.isleap year); eexists; reflexivity.
Qed.

(** X1.  [generate_roster] does not check its target month.  A month
    outside 1..12 raises [IllegalMonthError].  With a month of the calendar,
    a year outside 1..9999 raises [ValueError] when it fits a C [int] and
    [OverflowError] when it does not.  The solver's answer plays no part. *)
Theorem generate_roster_refuses_bad_date (Solve : CpModel -> CpSolverResponse)
        (employee_dna : dict) (year month : Z) :
  ~ (1 <= year <= 9999 /\ 1 <= month <= 12) ->
  generate_roster Solve employee_dna year month
  = Raised (if negb ((1 <=? month) && (month <=? 12)) then IllegalMonthError
            else if datetime.fits_int year then ValueError
            else OverflowError).
Proof.
  intros Hbad. unfold generate_roster, month_calendar, calendar.monthrange.
  destruct ((1 <=? month) && (month <=? 12)) eqn:Hm; [| reflexivity].
  apply andb_true_iff in Hm. destruct Hm as [H1 H12].
  apply Z.leb_le in H1. apply Z.leb_le in H12.
  cbn [negb bind snd].
  destruct (month_has_days year month (conj H1 H12)) as (n & ->).
  cbn [seq mapM]. unfold datetime.new at 1.
  assert (datetime.fits_int month = true) as ->.
  { unfold datetime.fits_int, datetime.INT_MIN, datetime.INT_MAX.
    apply andb_true_iff. split; apply Z.leb_le; lia. }
  change (datetime.fits_int (Z.of_nat 1)) with true.
  rewrite !andb_true_r.
  destruct (datetime.fits_int year); [| reflexivity].
  cbn [negb].
  assert ((datetime.MINYEAR <=? year) && (year <=? datetime.MAXYEAR) = false) as ->.
  { unfold datetime.MINYEAR, datetime.MAXYEAR. apply andb_false_iff.
    destruct (Z.leb_spec 1 year); [right | left; reflexivity].
    apply Z.leb_gt. lia. }
  reflexivity.
Qed.

Lemma generate_roster_refuses_bad_date_witness :
  generate_roster Sample.Solve Sample.employee_dna 2026 13 = Raised IllegalMonthError
  /\ generate_roster Sample.Solve Sample.employee_dna 0 3 = Raised ValueError
  /\ generate_roster Sample.Solve Sample.employee_dna 10000 3 = Raised ValueError
  /\ generate_roster Sample.Solve Sample.employee_dna 2147483648 3 = Raised OverflowError
  /\ generate_roster Sample.Solve Sample.employee_dna (-2147483649) 2
     = Raised OverflowError.
Proof.
  split; [| split; [| split; [| split]]].
  - apply (generate_roster_refuses_bad_date Sample.Solve Sample.employee_dna 2026 13). lia.
  - apply (generate_roster_refuses_bad_date Sample.Solve Sample.employee_dna 0 3). lia.
  - apply (generate_roster_refuses_bad_date Sample.Solve Sample.employee_dna 10000 3). lia.
  - apply (generate_roster_refuses_bad_date Sample.Solve Sample.employee_dna
             2147483648 3). lia.
  - apply (generate_roster_refuses_bad_date Sample.Solve Sample.employee_dna
             (-2147483649) 2). lia.
Defined.

(** ** Reading the history *)

Lemma filter_disjoint_length {A : Type} (p q : A -> bool) (l : list A) :
  (forall a, p a = true -> q a = false) ->
  (length (filter p l) + length (filter q l) <= length l)%nat.
Proof.
  intros Hpq. induction l as [| a l IH]; simpl; [lia |].
  destruct (p a) eqn:Ep.
  - rewrite (Hpq a Ep). simpl. lia.
  - destruct (q a); simpl; lia.
Qed.

(** X2.  The two counts of a history row are not negative, and together
    they do not exceed the number of date columns: no cell is counted
    twice. *)
Theorem history_counts_bounded (date_cols : list string) (row : Series)
        (emp_id : cell) (p : profile) :
  analyze_row date_cols row = Returned (emp_id, p) ->
  0 <= Day_Count p /\ 0 <= Night_Count p
  /\ Day_Count p + Night_Count p <= Z.of_nat (length date_cols).
Proof.
  unfold analyze_row. intros H.
  apply bind_Returned_inv in H. destruct H as (id & _ & H).
  apply bind_Returned_inv in H. destruct H as (name & _ & H).
  apply bind_Returned_inv in H. destruct H as ([dc nc] & Hcount & H).
  apply bind_Returned_inv in H. destruct H as (st & _ & H).
  apply bind_Returned_inv in H. destruct H as (dep & _ & H).
  injection H as _ <-. simpl.
  destruct (count_shifts_reads _ _ _ _ _ Hcount) as (vals & Hvals).
  rewrite (count_shifts_acc _ _ _ 0 0 Hvals) in Hcount.
  injection Hcount as <- <-.
  pose proof (mapM_length _ _ _ Hvals) as Hlen.
  pose proof (filter_disjoint_length counts_as_day counts_as_night vals day_not_night).
  unfold count_cells. lia.
Qed.

Lemma history_counts_bounded_witness :
  0 <= 2 /\ 0 <= 0 /\ 2 + 0 <= Z.of_nat (length (date_cols_of History.df)).
Proof.
  apply (history_counts_bounded (date_cols_of History.df) History.asha (CInt 101)
           (mkprofile (CStr "Asha") Fixed_Day 2 0 (CStr "Active") (CStr "Inbound"))).
  vm_compute. reflexivity.
Defined.

(** X3.  What a cell counts as does not depend on the case of its letters
    nor on whitespace around its text. *)
Theorem normalized_ignores_case_and_padding (pre post s s' : str) :
  all_space pre = true -> all_space post = true -> upper s = upper s' ->
  normalized (CStr (pre ++ s ++ post)%list) = normalized (CStr s').
Proof.
  intros Hpre Hpost Hcase. unfold normalized, py_str.
  rewrite (strip_padding pre post s Hpre Hpost), !upper_strip, Hcase. reflexivity.
Qed.

(** A tab and a no-break space before, an em space and a line feed after,
    and a dotless i in the middle. *)
Lemma normalized_ignores_case_and_padding_witness :
  normalized (CStr ([0x09; 0xA0] ++ [0x6E; 0x0131; 0x67; 0x48; 0x74] ++ [0x2003; 0x0A])%list)
  = normalized (CStr "Night").
Proof.
  apply (normalized_ignores_case_and_padding
           [0x09; 0xA0] [0x2003; 0x0A] [0x6E; 0x0131; 0x67; 0x48; 0x74] (str_of "Night"));
    vm_compute; reflexivity.
Defined.

Lemma count_shifts_reads_date_cols (row row' : Series) (date_cols : list string) :
  (forall col, In col date_cols -> getitem row col = getitem row' col) ->
  forall day_count night_count,
    count_shifts row date_cols day_count night_count
    = count_shifts row' date_cols day_count night_count.
Proof.
  induction date_cols as [| col rest IH]; simpl; intros H dc nc; [reflexivity |].
  rewrite <- (H col (or_introl eq_refl)).
  destruct (getitem row col) as [c | e]; simpl; [| reflexivity].
  assert (forall a b, count_shifts row rest a b = count_shifts row' rest a b) as IH'
      by (apply IH; intros col' Hcol'; apply H; right; exact Hcol').
  rewrite !IH'. reflexivity.
Qed.

(** X4.  The analysis of a row reads the cells under "Employee ID", "NAME",
    "Status", "Department" and under the date columns, and nothing else:
    two rows that agree there get the same result, whatever they hold
    under "User ID", "Remarks" or an "Unnamed" column. *)
Theorem analyze_row_reads_only (date_cols : list string) (row row' : Series) :
  (forall col,
     In col ("Employee ID" :: "NAME" :: "Status" :: "Department" :: date_cols)%string ->
     getitem row col = getitem row' col) ->
  analyze_row date_cols row = analyze_row date_cols row'.
Proof.
  intros H. unfold analyze_row.
  rewrite <- (H "Employee ID"%string) by (simpl; auto).
  rewrite <- (H "NAME"%string) by (simpl; auto).
  rewrite <- (H "Status"%string) by (simpl; auto).
  rewrite <- (H "Department"%string) by (simpl; auto).
  rewrite (count_shifts_reads_date_cols row row' date_cols)
    by (intros col Hcol; apply H; simpl; auto).
  reflexivity.
Qed.

Lemma analyze_row_reads_only_witness :
  analyze_row (date_cols_of History.df) History.asha
  = analyze_row (date_cols_of History.df) asha_with_remarks.
Proof.
  apply (analyze_row_reads_only (date_cols_of History.df) History.asha asha_with_remarks).
  intros col Hcol. vm_compute in Hcol.
  repeat (destruct Hcol as [<- | Hcol]; [reflexivity |]). destruct Hcol.
Defined.

(** ** The dict of profiles *)

Lemma cell_eqb_sym (a b : cell) : cell_eqb a b = cell_eqb b a.
Proof.
  destruct a, b; simpl; try reflexivity; [apply str_eqb_sym | apply Z.eqb_sym].
Qed.

Lemma cell_eqb_false (a b : cell) : cell_eqb a b = false <-> a <> b.
Proof.
  split.
  - intros H Heq. apply cell_eqb_eq in Heq. congruence.
  - intros H. destruct (cell_eqb a b) eqn:E; [| reflexivity].
    apply cell_eqb_eq in E. contradiction.
Qed.

Lemma existsb_cell_eqb (k : cell) (l : list cell) :
  existsb (cell_eqb k) l = true <-> In k l.
Proof.
  rewrite existsb_exists. split.
  - intros (x & Hx & Heq). apply cell_eqb_eq in Heq. subst. exact Hx.
  - intros H. exists k. split; [exact H | apply cell_eqb_refl].
Qed.

Lemma dict_get_set_same (d : dict) (k : cell) (v : profile) :
  dict_get (dict_set d k v) k = Some v.
Proof.
  induction d as [| [k' v'] d IH]; simpl.
  - rewrite cell_eqb_refl. reflexivity.
  - destruct (cell_eqb k' k) eqn:E; simpl; rewrite E; [reflexivity | exact IH].
Qed.

Lemma dict_get_set_other (d : dict) (k k' : cell) (v : profile) :
  k <> k' -> dict_get (dict_set d k v) k' = dict_get d k'.
Proof.
  intros Hne. induction d as [| [k0 v0] d IH]; simpl.
  - apply cell_eqb_false in Hne. rewrite Hne. reflexivity.
  - destruct (cell_eqb k0 k) eqn:E; simpl.
    + apply cell_eqb_eq in E. subst k0.
      apply cell_eqb_false in Hne. rewrite Hne. reflexivity.
    + rewrite IH. reflexivity.
Qed.

Lemma keys_dict_set (d : dict) (k : cell) (v : profile) :
  keys (dict_set d k v) = if existsb (cell_eqb k) (keys d) then keys d else keys d ++ [k].
Proof.
  unfold keys. induction d as [| [k' v'] d IH]; simpl; [reflexivity |].
  rewrite (cell_eqb_sym k k'). destruct (cell_eqb k' k); simpl; [reflexivity |].
  rewrite IH. destruct (existsb _ _); reflexivity.
Qed.

Lemma unique_from_seen (seen seen' l : list cell) :
  (forall x, In x seen <-> In x seen') -> unique_from seen l = unique_from seen' l.
Proof.
  revert seen seen'. induction l as [| x l IH]; intros seen seen' H; simpl; [reflexivity |].
  assert (existsb (cell_eqb x) seen = existsb (cell_eqb x) seen') as ->.
  { destruct (existsb (cell_eqb x) seen) eqn:E1; destruct (existsb (cell_eqb x) seen') eqn:E2;
      try reflexivity.
    - apply existsb_cell_eqb in E1. apply H in E1. apply existsb_cell_eqb in E1. congruence.
    - apply existsb_cell_eqb in E2. apply H in E2. apply existsb_cell_eqb in E2. congruence. }
  destruct (existsb _ _); [apply IH; exact H |].
  f_equal. apply IH. intros y. simpl. rewrite H. reflexivity.
Qed.

Lemma unique_from_NoDup (seen l : list cell) :
  NoDup (unique_from seen l) /\ forall x, In x (unique_from seen l) -> ~ In x seen.
Proof.
  revert seen. induction l as [| x l IH]; intros seen; simpl.
  - split; [constructor | intros x []].
  - destruct (existsb (cell_eqb x) seen) eqn:E; [apply IH |].
    destruct (IH (x :: seen)) as [Hnd Hnot]. split.
    + constructor; [| exact Hnd]. intros Hin. apply (Hnot x Hin). left. reflexivity.
    + intros y [<- | Hy].
      * intros Hin. apply existsb_cell_eqb in Hin. congruence.
      * intros Hin. apply (Hnot y Hy). right. exact Hin.
Qed.

(** The dict that the loop over the rows leaves: the pairs computed row by
    row, stored in order. *)
Lemma analyze_rows_fold (date_cols : list string) (rows : list Series) :
  forall employee_dna result,
    analyze_rows date_cols rows employee_dna = Returned result <->
    exists kvs,
      mapM (analyze_row date_cols) rows = Returned kvs
      /\ result = fold_left (fun d kv => dict_set d (fst kv) (snd kv)) kvs employee_dna.
Proof.
  induction rows as [| row rows IH]; simpl; intros d result.
  - split.
    + intros H. injection H as <-. exists []. auto.
    + intros (kvs & H & ->). injection H as <-. reflexivity.
  - split.
    + intros H. apply bind_Returned_inv in H. destruct H as (kv & Hkv & H).
      apply IH in H. destruct H as (kvs & Hkvs & ->).
      exists (kv :: kvs). rewrite Hkv, Hkvs. auto.
    + intros (kvs & H & ->).
      apply bind_Returned_inv in H. destruct H as (kv & Hkv & H).
      apply bind_Returned_inv in H. destruct H as (kvs' & Hkvs & H).
      injection H as <-. rewrite Hkv. simpl. apply IH. exists kvs'. auto.
Qed.

Lemma keys_fold_dict_set (kvs : list (cell * profile)) :
  forall d,
    keys (fold_left (fun d kv => dict_set d (fst kv) (snd kv)) kvs d)
    = keys d ++ unique_from (keys d) (map fst kvs).
Proof.
  induction kvs as [| [k v] kvs IH]; simpl; intros d.
  - rewrite app_nil_r. reflexivity.
  - rewrite IH, keys_dict_set.
    destruct (existsb (cell_eqb k) (keys d)) eqn:E; [reflexivity |].
    rewrite <- app_assoc. simpl. f_equal. f_equal.
    apply unique_from_seen. intros x. rewrite in_app_iff. simpl. tauto.
Qed.

Lemma get_fold_dict_set (kvs : list (cell * profile)) (k : cell) :
  forall d,
    ~ In k (map fst kvs) ->
    dict_get (fold_left (fun d kv => dict_set d (fst kv) (snd kv)) kvs d) k
    = dict_get d k.
Proof.
  induction kvs as [| [k' v'] kvs IH]; simpl; intros d Hnot; [reflexivity |].
  rewrite IH by tauto. apply dict_get_set_other. tauto.
Qed.

Lemma analyze_row_id (date_cols : list string) (row : Series) (kv : cell * profile) :
  analyze_row date_cols row = Returned kv ->
  getitem row "Employee ID" = Returned (fst kv).
Proof.
  unfold analyze_row. intros H.
  apply bind_Returned_inv in H. destruct H as (id & Hid & H).
  apply bind_Returned_inv in H. destruct H as (name & _ & H).
  apply bind_Returned_inv in H. destruct H as ([dc nc] & _ & H).
  apply bind_Returned_inv in H. destruct H as (st & _ & H).
  apply bind_Returned_inv in H. destruct H as (dep & _ & H).
  injection H as <-. exact Hid.
Qed.

Lemma analyzed_ids (date_cols : list string) (rows : list Series)
      (kvs : list (cell * profile)) :
  mapM (analyze_row date_cols) rows = Returned kvs ->
  employee_ids rows = Returned (map fst kvs).
Proof.
  intros H. apply mapM_Forall2 in H. unfold employee_ids. apply Forall2_mapM.
  induction H as [| row kv rows kvs Hkv _ IH]; simpl; constructor; [| exact IH].
  apply (analyze_row_id date_cols). exact Hkv.
Qed.

Lemma mapM_app_inv {A B : Type} (f : A -> outcome B) (l1 l2 : list A) (bs : list B) :
  mapM f (l1 ++ l2) = Returned bs ->
  exists b1 b2, bs = b1 ++ b2 /\ mapM f l1 = Returned b1 /\ mapM f l2 = Returned b2.
Proof.
  revert bs. induction l1 as [| a l1 IH]; simpl; intros bs H.
  - exists [], bs. auto.
  - apply bind_Returned_inv in H. destruct H as (b & Hb & H).
    apply bind_Returned_inv in H. destruct H as (bs' & Hbs & H).
    injection H as <-. destruct (IH _ Hbs) as (b1 & b2 & -> & H1 & H2).
    exists (b :: b1), b2. rewrite Hb, H1. auto.
Qed.

Lemma load_inv (df df' : DataFrame) (dna : dict) :
  load_and_analyze_data df = Returned (df', dna) ->
  df' = df
  /\ exists kvs,
       mapM (analyze_row (date_cols_of df)) (iterrows df) = Returned kvs
       /\ dna = fold_left (fun d kv => dict_set d (fst kv) (snd kv)) kvs [].
Proof.
  unfold load_and_analyze_data. intros H.
  apply bind_Returned_inv in H. destruct H as (d & Hd & H).
  injection H as <- <-. split; [reflexivity |].
  apply analyze_rows_fold. exact Hd.
Qed.

(** X5.  The dict of profiles has one entry per identifier, in the order
    in which the identifiers first appear in the table; an identifier that
    comes again adds no entry.  The table itself is handed back as it
    came. *)
Theorem load_keys_first_appearance (df df' : DataFrame) (dna : dict) :
  load_and_analyze_data df = Returned (df', dna) ->
  df' = df
  /\ NoDup (employees dna)
  /\ exists ids,
       employee_ids (iterrows df) = Returned ids
       /\ employees dna = unique ids.
Proof.
  intros H. destruct (load_inv _ _ _ H) as (Hdf & kvs & Hkvs & ->).
  split; [exact Hdf |].
  assert (employees (fold_left (fun d kv => dict_set d (fst kv) (snd kv)) kvs [])
          = unique (map fst kvs)) as Hkeys.
  { unfold employees. rewrite keys_fold_dict_set. reflexivity. }
  split.
  - rewrite Hkeys. apply (unique_from_NoDup [] (map fst kvs)).
  - exists (map fst kvs). split; [| exact Hkeys].
    apply (analyzed_ids (date_cols_of df)). exact Hkvs.
Qed.

Lemma load_keys_first_appearance_witness :
  df_with_repeated_id = df_with_repeated_id
  /\ NoDup [CInt 101; CInt 102]
  /\ exists ids,
       employee_ids (iterrows df_with_repeated_id) = Returned ids
       /\ [CInt 101; CInt 102] = unique ids.
Proof.
  apply (load_keys_first_appearance df_with_repeated_id df_with_repeated_id
           [(CInt 101, mkprofile (CStr "Asha") Fixed_Night 0 1 (CStr "Active") (CStr "Inbound"));
            (CInt 102, mkprofile (CStr "Bala") Fixed_Night 0 2 (CStr "Active") (CStr "Inbound"))]).
  vm_compute. reflexivity.
Defined.

Lemma profile_of_last_row (df df' : DataFrame) (dna : dict)
      (before after : list Series) (row : Series) (emp_id : cell) (p : profile) :
  load_and_analyze_data df = Returned (df', dna) ->
  iterrows df = before ++ row :: after ->
  analyze_row (date_cols_of df) row = Returned (emp_id, p) ->
  (forall row', In row' after -> getitem row' "Employee ID" <> Returned emp_id) ->
  dict_get dna emp_id = Some p.
Proof.
  intros H Hrows Hrow Hafter.
  destruct (load_inv _ _ _ H) as (_ & kvs & Hkvs & ->).
  rewrite Hrows in Hkvs.
  destruct (mapM_app_inv _ _ _ _ Hkvs) as (kvs1 & kvs2 & -> & H1 & H2).
  simpl in H2. rewrite Hrow in H2. simpl in H2.
  apply bind_Returned_inv in H2. destruct H2 as (kvs3 & H3 & H2).
  injection H2 as <-.
  rewrite fold_left_app. simpl.
  rewrite get_fold_dict_set; [apply dict_get_set_same |].
  intros Hin. apply in_map_iff in Hin. destruct Hin as (kv & Hfst & Hin).
  apply mapM_Forall2 in H3.
  destruct (Forall2_In_r _ _ _ H3 kv Hin) as (i & row' & Hi & _ & Hkv).
  apply (Hafter row' (nth_error_In _ _ Hi)).
  rewrite <- Hfst. apply (analyze_row_id (date_cols_of df)). exact Hkv.
Qed.

(** X6.  When an identifier comes on several rows, the profile kept for it
    is the one of the last such row: the earlier ones are overwritten. *)
Theorem load_last_row_wins (df df' : DataFrame) (dna : dict)
        (before after : list Series) (row : Series) (emp_id : cell) (p : profile) :
  load_and_analyze_data df = Returned (df', dna) ->
  iterrows df = before ++ row :: after ->
  analyze_row (date_cols_of df) row = Returned (emp_id, p) ->
  (forall row', In row' after -> getitem row' "Employee ID" <> Returned emp_id) ->
  dict_get dna emp_id = Some p.
Proof. apply profile_of_last_row. Qed.

Lemma load_last_row_wins_witness :
  dict_get
    [(CInt 101, mkprofile (CStr "Asha") Fixed_Night 0 1 (CStr "Active") (CStr "Inbound"));
     (CInt 102, mkprofile (CStr "Bala") Fixed_Night 0 2 (CStr "Active") (CStr "Inbound"))]
    (CInt 101)
  = Some (mkprofile (CStr "Asha") Fixed_Night 0 1 (CStr "Active") (CStr "Inbound")).
Proof.
  apply (load_last_row_wins df_with_repeated_id df_with_repeated_id _
           [History.asha; History.bala] []
           (History.line 101 (CStr "Asha") (CStr "Night") CNaN CNaN)).
  - vm_compute. reflexivity.
  - reflexivity.
  - vm_compute. reflexivity.
  - intros row' [].
Defined.

Lemma mapM_returns_iff {A B : Type} (f : A -> outcome B) (l : list A) :
  (exists bs, mapM f l = Returned bs) <-> forall a, In a l -> exists b, f a = Returned b.
Proof.
  split; [| apply mapM_total].
  intros (bs & H) a Ha. apply mapM_Forall2 in H.
  destruct (In_nth_error _ _ Ha) as (i & Hi).
  destruct (Forall2_nth_error_l _ _ _ H i a Hi) as (b & _ & Hb).
  exists b. exact Hb.
Qed.

Lemma bind_Raised_inv {A B : Type} (m : outcome A) (k : A -> outcome B) (e : exn) :
  bind m k = Raised e -> m = Raised e \/ exists a, m = Returned a /\ k a = Raised e.
Proof.
  destruct m as [a | e']; simpl; intros H.
  - right. exists a. auto.
  - left. injection H as ->. reflexivity.
Qed.

Lemma getitem_raises (row : Series) (col : string) (e : exn) :
  getitem row col = Raised e -> e = KeyError.
Proof.
  induction row as [| [k v] row IH]; simpl; intros H.
  - injection H as <-. reflexivity.
  - destruct (String.eqb k col); [discriminate | auto].
Qed.

Lemma count_shifts_raises (row : Series) (date_cols : list string) :
  forall day_count night_count e,
    count_shifts row date_cols day_count night_count = Raised e -> e = KeyError.
Proof.
  induction date_cols as [| col rest IH]; simpl; intros dc nc e H; [discriminate |].
  apply bind_Raised_inv in H. destruct H as [H | (c & _ & H)].
  - apply (getitem_raises _ _ _ H).
  - destruct (str_eqb _ "DAY"); [apply (IH _ _ _ H) |].
    destruct (str_eqb _ "NIGHT"); apply (IH _ _ _ H).
Qed.

Lemma analyze_row_raises (date_cols : list string) (row : Series) (e : exn) :
  analyze_row date_cols row = Raised e -> e = KeyError.
Proof.
  unfold analyze_row. intros H.
  apply bind_Raised_inv in H.
  destruct H as [H | (id & _ & H)]; [apply (getitem_raises _ _ _ H) |].
  apply bind_Raised_inv in H.
  destruct H as [H | (name & _ & H)]; [apply (getitem_raises _ _ _ H) |].
  apply bind_Raised_inv in H.
  destruct H as [H | ([dc nc] & _ & H)]; [apply (count_shifts_raises _ _ _ _ _ H) |].
  apply bind_Raised_inv in H.
  destruct H as [H | (st & _ & H)]; [apply (getitem_raises _ _ _ H) |].
  apply bind_Raised_inv in H.
  destruct H as [H | (dep & _ & H)]; [apply (getitem_raises _ _ _ H) | discriminate].
Qed.

Lemma analyze_rows_raises (date_cols : list string) (rows : list Series) :
  forall employee_dna e,
    analyze_rows date_cols rows employee_dna = Raised e -> e = KeyError.
Proof.
  induction rows as [| row rows IH]; simpl; intros d e H; [discriminate |].
  apply bind_Raised_inv in H.
  destruct H as [H | (kv & _ & H)]; [apply (analyze_row_raises _ _ _ H) | apply (IH _ _ H)].
Qed.

Lemma analyze_row_returns_iff (date_cols : list string) (row : Series) :
  (exists kv, analyze_row date_cols row = Returned kv)
  <-> forall col,
        In col ("Employee ID" :: "NAME" :: "Status" :: "Department" :: date_cols)%string ->
        exists c, getitem row col = Returned c.
Proof.
  split.
  - intros (kv & H). unfold analyze_row in H.
    apply bind_Returned_inv in H. destruct H as (id & Hid & H).
    apply bind_Returned_inv in H. destruct H as (name & Hname & H).
    apply bind_Returned_inv in H. destruct H as ([dc nc] & Hcount & H).
    apply bind_Returned_inv in H. destruct H as (st & Hst & H).
    apply bind_Returned_inv in H. destruct H as (dep & Hdep & H).
    destruct (count_shifts_reads _ _ _ _ _ Hcount) as (vals & Hvals).
    intros col [<- | [<- | [<- | [<- | Hcol]]]]; eauto.
    apply (proj1 (mapM_returns_iff (getitem row) date_cols)); eauto.
  - intros H. unfold analyze_row.
    destruct (H "Employee ID"%string) as (id & ->); [simpl; auto |].
    destruct (H "NAME"%string) as (name & ->); [simpl; auto |].
    destruct (H "Status"%string) as (st & ->); [simpl; auto 6 |].
    destruct (H "Department"%string) as (dep & ->); [simpl; auto 6 |].
    destruct (mapM_total (getitem row) date_cols) as (vals & Hvals).
    { intros col Hcol. apply H. simpl. auto 6. }
    simpl. rewrite (count_shifts_acc _ _ _ 0 0 Hvals). simpl. eexists. reflexivity.
Qed.

(** X7.  [load_and_analyze_data] returns exactly when every row has a cell
    under the four columns it reads by name and under every date column;
    otherwise it raises, and what it raises is a [KeyError]. *)
Theorem load_returns_iff (df : DataFrame) :
  ((exists dna, load_and_analyze_data df = Returned (df, dna))
   <-> forall row, In row (iterrows df) ->
       forall col,
         In col ("Employee ID" :: "NAME" :: "Status" :: "Department"
                   :: date_cols_of df)%string ->
         exists c, getitem row col = Returned c)
  /\ forall e, load_and_analyze_data df = Raised e -> e = KeyError.
Proof.
  split.
  - split.
    + intros (dna & H) row Hrow.
      destruct (load_inv _ _ _ H) as (_ & kvs & Hkvs & _).
      apply analyze_row_returns_iff.
      apply (proj1 (mapM_returns_iff (analyze_row (date_cols_of df)) (iterrows df)));
        eauto.
    + intros H.
      destruct (mapM_total (analyze_row (date_cols_of df)) (iterrows df)) as (kvs & Hkvs).
      { intros row Hrow. apply analyze_row_returns_iff. apply H. exact Hrow. }
      unfold load_and_analyze_data.
      assert (analyze_rows (date_cols_of df) (iterrows df) []
              = Returned (fold_left (fun d kv => dict_set d (fst kv) (snd kv)) kvs []))
        as -> by (apply analyze_rows_fold; eauto).
      simpl. eexists. reflexivity.
  - unfold load_and_analyze_data. intros e H.
    apply bind_Raised_inv in H. destruct H as [H | (d & _ & H)]; [| discriminate].
    apply (analyze_rows_raises _ _ _ _ H).
Qed.

Example row_without_name_raises :
  load_and_analyze_data
    (mkDataFrame ["Employee ID"; "2026-02-01"]%string
                 [[("Employee ID", CInt 1); ("2026-02-01", CStr "Day")]%string])
  = Raised KeyError.
Proof. vm_compute. reflexivity. Qed.

(** ** The weeks of a month, again *)

Lemma week_step_middle (l : list (nat * datetime.date)) :
  forall weeks current_week weeks' current_week',
    consecutive_days l ->
    Forall (fun w => length w = 7%nat) (tl weeks) ->
    (weeks <> [] ->
     match l with
     | [] => True
     | p :: _ => Z.of_nat (length current_week) = day_of_week (snd p)
     end) ->
    fold_left week_step l (weeks, current_week) = (weeks', current_week') ->
    Forall (fun w => length w = 7%nat) (tl weeks').
Proof.
  induction l as [| p l IH]; simpl fold_left; intros ws cur ws' cur' Hcons Hws Hpos H.
  - injection H as <- <-. exact Hws.
  - remember (week_step (ws, cur) p) as st eqn:Est. unfold week_step in Est.
    destruct (Z.eqb_spec (datetime.weekday (snd p)) 5) as [Hsat | Hsat]; subst st.
    + apply saturday_is_last in Hsat.
      apply (IH _ _ _ _) in H; auto.
      * destruct l as [| q l]; [exact I | apply Hcons].
      * destruct ws as [| w0 ws]; [constructor |]. simpl.
        apply Forall_app. split; [exact Hws |]. constructor; [| constructor].
        rewrite length_app. simpl.
        assert (Z.of_nat (length cur) = day_of_week (snd p)) by (apply Hpos; discriminate).
        lia.
      * intros _. destruct l as [| q l]; [exact I |]. simpl.
        destruct Hcons as [Hnext _]. rewrite (after_saturday _ _ Hnext Hsat). reflexivity.
    + assert (day_of_week (snd p) <> 6) as Hnot
          by (intros Heq; apply Hsat; apply saturday_is_last; exact Heq).
      apply (IH _ _ _ _) in H; auto.
      * destruct l as [| q l]; [exact I | apply Hcons].
      * intros Hne. specialize (Hpos Hne). destruct l as [| q l]; [exact I |].
        destruct Hcons as [Hnext _]. rewrite (next_day_of_week _ _ Hnext Hnot).
        rewrite length_app. simpl. lia.
Qed.

(** The weeks of a list of consecutive dates: a first week, then full
    weeks, then perhaps a last week. *)
Lemma group_weeks_split (dates : list datetime.date) :
  consecutive_days (enumerate dates) ->
  exists closed last,
    group_weeks dates = closed ++ last
    /\ Forall (fun w => length w = 7%nat) (tl closed)
    /\ (length last <= 1)%nat.
Proof.
  intros Hcons. unfold group_weeks.
  destruct (fold_left week_step (enumerate dates) ([], [])) as [ws cur] eqn:E.
  apply week_step_middle in E; [| exact Hcons | constructor | intros Hne; contradiction].
  destruct cur as [| d cur].
  - exists ws, []. rewrite app_nil_r. simpl. auto.
  - exists ws, [d :: cur]. simpl. auto.
Qed.

Lemma middle_weeks_full (weeks closed last : list (list nat)) :
  weeks = closed ++ last ->
  Forall (fun w => length w = 7%nat) (tl closed) ->
  (length last <= 1)%nat ->
  forall before w after,
    weeks = before ++ w :: after -> before <> [] -> after <> [] -> length w = 7%nat.
Proof.
  intros -> Hfull Hlast before w after Hsplit Hb Ha.
  assert (length before <> 0)%nat as Hb' by (destruct before; [contradiction | discriminate]).
  assert (length after <> 0)%nat as Ha' by (destruct after; [contradiction | discriminate]).
  pose proof (f_equal (@length (list nat)) Hsplit) as Hlen.
  rewrite !length_app in Hlen. simpl in Hlen.
  assert (nth_error closed (length before) = Some w) as Hnth.
  { rewrite <- (nth_error_app1 closed last) by lia.
    rewrite Hsplit, nth_error_app2, Nat.sub_diag by lia. reflexivity. }
  destruct closed as [| w0 closed]; [destruct (length before); discriminate |].
  destruct (length before) as [| i]; [contradiction |].
  simpl in Hnth, Hfull. rewrite Forall_forall in Hfull.
  apply Hfull. apply (nth_error_In _ _ Hnth).
Qed.

Lemma partial_weeks_at_most_two (weeks closed last : list (list nat)) :
  weeks = closed ++ last ->
  Forall (fun w => length w = 7%nat) (tl closed) ->
  (length last <= 1)%nat ->
  (length (filter is_partial weeks) <= 2)%nat.
Proof.
  intros -> Hfull Hlast. rewrite filter_app, length_app.
  assert (length (filter is_partial last) <= 1)%nat
    by (pose proof (filter_length_le is_partial last); lia).
  assert (length (filter is_partial closed) <= 1)%nat.
  { destruct closed as [| w0 closed]; simpl; [lia |]. simpl in Hfull.
    assert (filter is_partial closed = []) as ->.
    { induction Hfull as [| w ws Hw _ IH]; simpl; [reflexivity |].
      unfold is_partial at 1. rewrite Hw. simpl. exact IH. }
    destruct (is_partial w0); simpl; lia. }
  lia.
Qed.

Lemma roster_weeks_split (year month : Z) (weeks : list (list nat)) :
  roster_weeks year month = Returned weeks ->
  exists closed last,
    weeks = closed ++ last
    /\ Forall (fun w => length w = 7%nat) (tl closed)
    /\ (length last <= 1)%nat.
Proof.
  unfold roster_weeks. intros H.
  apply bind_Returned_inv in H. destruct H as ([num_days dates] & Hcal & H).
  injection H as <-. simpl. apply group_weeks_split.
  rewrite (month_calendar_dates _ _ _ _ Hcal). apply consecutive_enumerate.
Qed.

(** X8.  The weeks of the target month: they cover its days in order, each
    day once; every week has between one and seven days; a week that is
    neither the first nor the last has seven; so at most two weeks are
    partial. *)
Theorem weeks_of_month_structure (year month : Z) (weeks : list (list nat)) :
  roster_weeks year month = Returned weeks ->
  exists num_days dates,
    month_calendar year month = Returned (num_days, dates)
    /\ concat weeks = days_indices num_days
    /\ Forall (fun w => (1 <= length w <= 7)%nat) weeks
    /\ (forall before w after,
          weeks = before ++ w :: after -> before <> [] -> after <> [] ->
          length w = 7%nat)
    /\ (length (filter is_partial weeks) <= 2)%nat.
Proof.
  intros H.
  destruct (roster_weeks_shape _ _ _ H) as (num_days & dates & Hcal & Hcover & Hlen).
  destruct (roster_weeks_split _ _ _ H) as (closed & last & Hsplit & Hfull & Hlast).
  exists num_days, dates. repeat split; try assumption.
  - apply (middle_weeks_full weeks closed last); assumption.
  - apply (partial_weeks_at_most_two weeks closed last); assumption.
Qed.

Lemma weeks_of_month_structure_witness :
  exists num_days dates,
    month_calendar 2026 3 = Returned (num_days, dates)
    /\ concat Sample.march_weeks = days_indices num_days
    /\ Forall (fun w => (1 <= length w <= 7)%nat) Sample.march_weeks
    /\ (forall before w after,
          Sample.march_weeks = before ++ w :: after -> before <> [] -> after <> [] ->
          length w = 7%nat)
    /\ (length (filter is_partial Sample.march_weeks) <= 2)%nat.
Proof.
  apply (weeks_of_month_structure 2026 3 Sample.march_weeks).
  vm_compute. reflexivity.
Defined.

Example august_2026_weeks :
  match roster_weeks 2026 8 with
  | Returned weeks => map (@length nat) weeks = [1; 7; 7; 7; 7; 2]%nat
  | Raised _ => False
  end.
Proof. vm_compute. reflexivity. Qed.

(** ** How far apart two totals can be *)

Lemma days_with_concat (s : Solution) (e : nat) (v : Z) (weeks : list (list nat)) :
  days_with s e v (concat weeks) = list_sum (map (days_with s e v) weeks).
Proof.
  unfold days_with. induction weeks as [| w weeks IH]; simpl; [reflexivity |].
  rewrite filter_app, length_app, IH. reflexivity.
Qed.

Lemma work_and_rest (s : Solution) (e : nat) (days : list nat) :
  (length (filter (fun d => negb (s (shift_e_d e d) =? 0)%Z) days)
   + days_with s e 0 days = length days)%nat.
Proof.
  unfold days_with. induction days as [| d days IH]; simpl; [reflexivity |].
  destruct (s (shift_e_d e d) =? 0); simpl; lia.
Qed.

Lemma sums_differ_on_partial_weeks (f g : list nat -> nat) (weeks : list (list nat)) :
  (forall w, In w weeks -> is_partial w = false -> f w = g w) ->
  (forall w, In w weeks -> (f w <= 2)%nat) ->
  (list_sum (map f weeks)
   <= list_sum (map g weeks) + 2 * length (filter is_partial weeks))%nat.
Proof.
  induction weeks as [| w weeks IH]; simpl; intros Hfull Hle; [lia |].
  assert (list_sum (map f weeks)
          <= list_sum (map g weeks) + 2 * length (filter is_partial weeks))%nat as IH'.
  { apply IH; intros w' Hw'; [apply Hfull | apply Hle]; right; exact Hw'. }
  destruct (is_partial w) eqn:Ep; simpl.
  - specialize (Hle w (or_introl eq_refl)). lia.
  - rewrite (Hfull w (or_introl eq_refl) Ep). lia.
Qed.

Lemma rests_differ_by_partial_weeks (employee_dna : dict) (num_days : nat)
      (weeks : list (list nat)) (s : Solution) (a b : nat) :
  model_holds (build_model employee_dna num_days weeks) s = true ->
  In a (emp_indices employee_dna) -> In b (emp_indices employee_dna) ->
  (days_with s a 0 (concat weeks)
   <= days_with s b 0 (concat weeks) + 2 * length (filter is_partial weeks))%nat.
Proof.
  intros Hs Ha Hb. rewrite !days_with_concat.
  apply sums_differ_on_partial_weeks.
  - intros w Hw Hp. unfold is_partial in Hp. apply negb_false_iff in Hp.
    apply Nat.eqb_eq in Hp.
    destruct (weekly_rest_count _ _ _ _ Hs w a Hw Ha) as [Hfa _].
    destruct (weekly_rest_count _ _ _ _ Hs w b Hw Hb) as [Hfb _].
    rewrite (Hfa Hp), (Hfb Hp). reflexivity.
  - intros w Hw.
    destruct (weekly_rest_count _ _ _ _ Hs w a Hw Ha) as [Hfa Hpa].
    destruct (Nat.eq_dec (length w) 7) as [E | E]; [rewrite (Hfa E); lia | apply (Hpa E)].
Qed.

(** X9.  In a table returned by a run, the totals of two employees differ
    by at most 4 shifts: the full weeks give everyone five shifts, and only
    the (at most two) partial weeks can differ, by at most two rests
    each. *)
Theorem total_shifts_within_four (Solve : CpModel -> CpSolverResponse)
        (employee_dna : dict) (year month : Z) (df : RosterFrame)
        (row_a row_b : roster_row) :
  generate_roster Solve employee_dna year month = Returned (Some df, None) ->
  solver_sound Solve employee_dna year month ->
  In row_a (rows df) -> In row_b (rows df) ->
  Total_Shifts row_a - Total_Shifts row_b <= 4.
Proof.
  intros Hgen Hsound Ha Hb.
  destruct (run_facts _ _ _ _ _ Hgen Hsound) as (dates & s & Hcal & _ & Hs & _ & Hrows).
  destruct (Hrows row_a Ha) as (a & _ & Hea & Hrowa).
  destruct (Hrows row_b Hb) as (b & _ & Heb & Hrowb).
  destruct (row_total_shifts _ _ _ _ a row_a Hs Hea Hrowa) as [_ ->].
  destruct (row_total_shifts _ _ _ _ b row_b Hs Heb Hrowb) as [_ ->].
  unfold total_work_of.
  pose proof (work_and_rest s a (days_indices (length dates))) as Hwa.
  pose proof (work_and_rest s b (days_indices (length dates))) as Hwb.
  pose proof (rests_differ_by_partial_weeks _ _ _ s b a Hs Heb Hea) as Hdiff.
  destruct (group_weeks_partition dates) as [Hconcat _].
  rewrite Hconcat in Hdiff. fold (days_indices (length dates)) in Hdiff.
  destruct (group_weeks_split dates) as (closed & last & Hsplit & Hfull & Hlast).
  { rewrite (month_calendar_dates _ _ _ _ Hcal). apply consecutive_enumerate. }
  pose proof (partial_weeks_at_most_two _ _ _ Hsplit Hfull Hlast) as Hpartial.
  lia.
Qed.

Lemma total_shifts_within_four_witness :
  Total_Shifts (hd Scenario.A (rows Sample.roster_df))
  - Total_Shifts (last (rows Sample.roster_df) Scenario.A) <= 4.
Proof.
  apply (total_shifts_within_four Sample.Solve Sample.employee_dna 2026 3
           Sample.roster_df).
  - vm_compute. reflexivity.
  - unfold solver_sound. vm_compute. reflexivity.
  - vm_compute. auto.
  - vm_compute. auto.
Defined.

(** ** The names of the variables *)

(** X10.  The model of a run never creates two variables under one name:
    the f-string names of [generate_roster] are pairwise distinct, whatever
    the staff and the month. *)
Theorem model_names_are_distinct (employee_dna : dict) (year month : Z)
        (model : CpModel) :
  roster_model employee_dna year month = Returned model ->
  NoDup (created model).
Proof.
  unfold roster_model. intros H.
  apply bind_Returned_inv in H. destruct H as ([num_days dates] & Hcal & H).
  injection H as <-. simpl.
  destruct (group_weeks_partition dates) as [Hconcat Hne].
  apply variables_created_once; [| exact Hne].
  rewrite Hconcat. apply seq_NoDup.
Qed.

Lemma model_names_are_distinct_witness :
  NoDup (created (build_model Sample.employee_dna 31 Sample.march_weeks)).
Proof.
  apply (model_names_are_distinct Sample.employee_dna 2026 3).
  vm_compute. reflexivity.
Defined.

(** ** What the handler offers *)

Lemma In_unique_from_iff (seen l : list cell) (x : cell) :
  In x (unique_from seen l) <-> In x l /\ ~ In x seen.
Proof.
  split.
  - intros H. split; [apply (In_unique_from seen l x H) |].
    apply (proj2 (unique_from_NoDup seen l) x H).
  - revert seen. induction l as [| y l IH]; simpl; intros seen [Hin Hnot]; [exact Hin |].
    destruct (existsb (cell_eqb y) seen) eqn:E.
    + apply IH. split; [| exact Hnot].
      destruct Hin as [-> | Hin]; [| exact Hin].
      apply existsb_cell_eqb in E. contradiction.
    + destruct (cell_eqb_eq y x) as [_ Heq].
      destruct (cell_eqb y x) eqn:Eyx.
      * left. apply cell_eqb_eq. exact Eyx.
      * right. apply IH. split.
        -- destruct Hin as [-> | Hin]; [rewrite cell_eqb_refl in Eyx; discriminate | exact Hin].
        -- intros [-> | Hs]; [rewrite cell_eqb_refl in Eyx; discriminate | contradiction].
Qed.

(** X11.  The "Absent Employee" box offers each name once, and offers a
    name exactly when some row with that name shows Day or Night on the
    selected date. *)
Theorem options_are_working_names (roster_df : RosterFrame) (selected_date : nat) :
  NoDup (absent_employee_options roster_df selected_date)
  /\ forall name,
       In name (absent_employee_options roster_df selected_date)
       <-> exists row,
             In row (rows roster_df)
             /\ row_Name row = name
             /\ (cell_on row selected_date = Some Day
                 \/ cell_on row selected_date = Some Night).
Proof.
  unfold absent_employee_options, unique. split.
  - apply (unique_from_NoDup []).
  - intros name. rewrite In_unique_from_iff, in_map_iff. unfold working_on_date.
    split.
    + intros [(row & Hname & Hin) _]. apply filter_In in Hin. destruct Hin as [Hin Hw].
      exists row. split; [exact Hin |]. split; [exact Hname |].
      unfold is_working in Hw.
      destruct (cell_on row selected_date) as [[| |] |]; try discriminate; auto.
    + intros (row & Hin & Hname & Hw). split; [| intros []].
      exists row. split; [exact Hname |]. apply filter_In. split; [exact Hin |].
      unfold is_working. destruct Hw as [-> | ->]; reflexivity.
Qed.

Lemma find_replacement_inv (argsort : list Z -> list nat) (roster_df : RosterFrame)
      (selected_date : nat) (selected_emp_name : cell) (shown : sidebar) :
  find_replacement argsort roster_df selected_date selected_emp_name = Returned shown ->
  exists absent_emp_row,
    absent_row roster_df selected_emp_name = Returned absent_emp_row
    /\ shown
       = match sort_values argsort (candidates_for roster_df selected_date
                                      (cell_on absent_emp_row selected_date)) with
         | best_fit :: rest => success best_fit (firstn 5 (best_fit :: rest))
         | [] => error "No suitable replacement found!"
         end.
Proof.
  intros H. unfold find_replacement in H.
  apply bind_Returned_inv in H. destruct H as (absent & Habsent & H).
  exists absent. split; [exact Habsent |].
  destruct (sort_values _ _); injection H as <-; reflexivity.
Qed.

Lemma candidates_rest (roster_df : RosterFrame) (selected_date : nat)
      (absent_shift : option shift_label) (row : roster_row) :
  In row (candidates_for roster_df selected_date absent_shift) ->
  In row (rows roster_df) /\ cell_on row selected_date = Some WO.
Proof.
  unfold candidates_for. intros H.
  assert (In row (filter (fun r => is_resting r selected_date) (rows roster_df))) as Hr.
  { destruct absent_shift as [[| |] |]; try exact H;
      apply filter_In in H; destruct H as [H _]; exact H. }
  apply filter_In in Hr. destruct Hr as [Hin Hrest].
  split; [exact Hin | apply is_resting_iff; exact Hrest].
Qed.

Lemma In_firstn {A : Type} (n : nat) (l : list A) (x : A) :
  In x (firstn n l) -> In x l.
Proof.
  revert l. induction n as [| n IH]; intros l; destruct l as [| a l]; simpl; intros H.
  - exact H.
  - destruct H.
  - exact H.
  - destruct H as [H | H]; [left; exact H | right; apply IH; exact H].
Qed.

Lemma sorted_app_le {A : Type} (f : A -> Z) (l1 l2 : list A) :
  StronglySorted (fun a b => f a <= f b) (l1 ++ l2) ->
  StronglySorted (fun a b => f a <= f b) l1
  /\ forall a b, In a l1 -> In b l2 -> f a <= f b.
Proof.
  induction l1 as [| x l1 IH]; simpl; intros H.
  - split; [constructor | intros a b []].
  - inversion H as [| y l Hs Hall]; subst.
    destruct (IH Hs) as [Hs1 Hle]. rewrite Forall_forall in Hall. split.
    + constructor; [exact Hs1 |]. apply Forall_forall.
      intros b Hb. apply Hall. apply in_or_app. left. exact Hb.
    + intros a b [<- | Ha] Hb; [| apply Hle; assumption].
      apply Hall. apply in_or_app. right. exact Hb.
Qed.

(** X12.  When the handler shows a best fit, it is a candidate with the
    fewest total shifts among all candidates.  The alternatives shown start
    with the best fit and are five of the candidates, or all of them when
    there are fewer; they are in ascending order of total shifts, and no
    candidate left out has fewer shifts than one that is shown.  Everyone
    shown rests on the selected date.  All this holds whatever order the
    sort gives to candidates with equal totals. *)
Theorem best_fit_is_least_loaded (argsort : list Z -> list nat)
        (roster_df : RosterFrame) (selected_date : nat)
        (selected_emp_name : cell) (best_fit : roster_row)
        (top_alternatives : list roster_row) :
  argsort_sound argsort ->
  find_replacement argsort roster_df selected_date selected_emp_name
  = Returned (success best_fit top_alternatives) ->
  exists absent_emp_row,
    absent_row roster_df selected_emp_name = Returned absent_emp_row
    /\ let candidates :=
         candidates_for roster_df selected_date (cell_on absent_emp_row selected_date) in
       In best_fit candidates
       /\ (forall c, In c candidates -> Total_Shifts best_fit <= Total_Shifts c)
       /\ hd_error top_alternatives = Some best_fit
       /\ length top_alternatives = Nat.min 5 (length candidates)
       /\ StronglySorted (fun a b => Total_Shifts a <= Total_Shifts b) top_alternatives
       /\ (exists left_out,
             Permutation (top_alternatives ++ left_out) candidates
             /\ forall a b, In a top_alternatives -> In b left_out ->
                  Total_Shifts a <= Total_Shifts b)
       /\ forall shown, In shown top_alternatives ->
            In shown candidates
            /\ cell_on shown selected_date = Some WO
            /\ ~ In shown (working_on_date roster_df selected_date).
Proof.
  intros Hsound H.
  destruct (find_replacement_inv _ _ _ _ _ H) as (absent & Habsent & Hshown).
  exists absent. split; [exact Habsent |]. intros candidates. fold candidates in Hshown.
  pose proof (sort_values_perm argsort candidates Hsound) as Hperm.
  pose proof (sort_values_sorted argsort candidates Hsound) as Hsorted.
  destruct (sort_values argsort candidates) as [| best rest] eqn:Esort; [discriminate |].
  assert (best_fit = best) as -> by congruence.
  assert (top_alternatives = firstn 5 (best :: rest)) as -> by congruence.
  clear Hshown.
  assert (forall c, In c (best :: rest) -> In c candidates) as Hin
      by (intros c Hc; apply (Permutation_in _ Hperm); exact Hc).
  rewrite <- (firstn_skipn 5 (best :: rest)) in Hsorted.
  destruct (sorted_app_le Total_Shifts _ _ Hsorted) as [Htop Hle].
  split; [apply Hin; left; reflexivity |].
  split.
  { intros c Hc. apply (Permutation_in _ (Permutation_sym Hperm)) in Hc.
    rewrite <- (firstn_skipn 5 (best :: rest)) in Hc. apply in_app_or in Hc.
    destruct Hc as [Hc | Hc].
    - inversion Htop as [| x l _ Hall]; subst. rewrite Forall_forall in Hall.
      destruct Hc as [<- | Hc]; [lia | apply Hall; exact Hc].
    - apply Hle; [left; reflexivity | exact Hc]. }
  split; [reflexivity |].
  split.
  { rewrite length_firstn, <- (Permutation_length Hperm). reflexivity. }
  split; [exact Htop |].
  split.
  { exists (skipn 5 (best :: rest)). split; [| exact Hle].
    rewrite firstn_skipn. exact Hperm. }
  intros shown Hs. apply In_firstn in Hs. apply Hin in Hs.
  split; [exact Hs |].
  destruct (candidates_rest _ _ _ _ Hs) as [_ Hwo].
  split; [exact Hwo |].
  unfold working_on_date. rewrite filter_In. intros [_ Hw].
  unfold is_working in Hw. rewrite Hwo in Hw. discriminate.
Qed.

Lemma best_fit_is_least_loaded_witness :
  exists absent_emp_row,
    absent_row Crowd.roster_df (CStr "A") = Returned absent_emp_row
    /\ let candidates :=
         candidates_for Crowd.roster_df 0 (cell_on absent_emp_row 0) in
       In Crowd.C candidates
       /\ (forall c, In c candidates -> Total_Shifts Crowd.C <= Total_Shifts c)
       /\ hd_error [Crowd.C; Crowd.E; Crowd.G; Crowd.D; Crowd.I] = Some Crowd.C
       /\ length [Crowd.C; Crowd.E; Crowd.G; Crowd.D; Crowd.I]
          = Nat.min 5 (length candidates)
       /\ StronglySorted (fun a b => Total_Shifts a <= Total_Shifts b)
                         [Crowd.C; Crowd.E; Crowd.G; Crowd.D; Crowd.I]
       /\ (exists left_out,
             Permutation ([Crowd.C; Crowd.E; Crowd.G; Crowd.D; Crowd.I] ++ left_out)
                         candidates
             /\ forall a b, In a [Crowd.C; Crowd.E; Crowd.G; Crowd.D; Crowd.I] ->
                  In b left_out -> Total_Shifts a <= Total_Shifts b)
       /\ forall shown, In shown [Crowd.C; Crowd.E; Crowd.G; Crowd.D; Crowd.I] ->
            In shown candidates
            /\ cell_on shown 0 = Some WO
            /\ ~ In shown (working_on_date Crowd.roster_df 0).
Proof.
  apply (best_fit_is_least_loaded insertion_argsort Crowd.roster_df 0 (CStr "A") Crowd.C
           [Crowd.C; Crowd.E; Crowd.G; Crowd.D; Crowd.I]).
  - apply insertion_argsort_sound.
  - vm_compute. reflexivity.
Defined.

Example crowd_candidates :
  map row_Name (candidates_for Crowd.roster_df 0 (Some Day))
  = [CStr "H"; CStr "D"; CStr "C"; CStr "F"; CStr "E"; CStr "I"; CStr "G"].
Proof. vm_compute. reflexivity. Qed.

(** X13.  The two ways the handler fails.  It raises [IndexError], and
    nothing else, exactly when no row of the roster carries the selected
    name (a missing name equals no name); otherwise it shows "No suitable
    replacement found!" exactly when no candidate is left (the sort keeps
    the candidates, whatever their order). *)
Theorem find_replacement_failures (argsort : list Z -> list nat)
        (roster_df : RosterFrame) (selected_date : nat) (selected_emp_name : cell) :
  (forall e, find_replacement argsort roster_df selected_date selected_emp_name
             = Raised e <->
             e = IndexError
             /\ forall row, In row (rows roster_df) ->
                  series_eq (row_Name row) selected_emp_name = false)
  /\ (argsort_sound argsort ->
      forall absent_emp_row,
        absent_row roster_df selected_emp_name = Returned absent_emp_row ->
        (find_replacement argsort roster_df selected_date selected_emp_name
         = Returned (error "No suitable replacement found!")
         <-> candidates_for roster_df selected_date
               (cell_on absent_emp_row selected_date) = [])).
Proof.
  split.
  - intros e. unfold find_replacement, absent_row.
    destruct (filter (fun r => series_eq (row_Name r) selected_emp_name)
                     (rows roster_df)) as [| r rest] eqn:E; simpl.
    + split.
      * intros H. injection H as <-. split; [reflexivity |].
        intros row Hrow.
        destruct (series_eq (row_Name row) selected_emp_name) eqn:Eq; [| reflexivity].
        assert (In row []) as Hin by (rewrite <- E; apply filter_In; auto).
        destruct Hin.
      * intros [-> _]. reflexivity.
    + split.
      * intros H. destruct (sort_values _ _); discriminate H.
      * intros [_ Hnone]. exfalso.
        assert (In r (filter (fun r => series_eq (row_Name r) selected_emp_name)
                             (rows roster_df))) as Hin by (rewrite E; left; reflexivity).
        apply filter_In in Hin. destruct Hin as [Hin Heq].
        rewrite (Hnone r Hin) in Heq. discriminate.
  - intros Hsound absent Habsent. rewrite (find_replacement_shows _ _ _ _ _ Habsent).
    pose proof (sort_values_perm argsort
                  (candidates_for roster_df selected_date (cell_on absent selected_date))
                  Hsound)
      as Hperm.
    destruct (sort_values _ _) as [| best rest] eqn:Esort.
    + split; [intros _ | reflexivity].
      apply Permutation_nil. exact Hperm.
    + split; [discriminate |]. intros Hnil. rewrite Hnil in Hperm.
      apply Permutation_sym, Permutation_nil in Hperm. discriminate.
Qed.

Lemma find_replacement_failures_witness :
  find_replacement insertion_argsort Scenario.without_C 0 (CStr "A")
  = Returned (error "No suitable replacement found!")
  <-> candidates_for Scenario.without_C 0 (cell_on Scenario.A 0) = [].
Proof.
  apply (find_replacement_failures insertion_argsort Scenario.without_C 0 (CStr "A")).
  - apply insertion_argsort_sound.
  - reflexivity.
Defined.

(** ** From the history to the roster *)

Lemma row_respects_dna (employee_dna : dict) (num_days : nat)
      (weeks : list (list nat)) (s : Solution) (e : nat) (row : roster_row) :
  model_holds (build_model employee_dna num_days weeks) s = true ->
  row_of employee_dna num_days s e row ->
  (Shift_DNA row = Fixed_Day -> forall d, cell_on row d <> Some Night)
  /\ (Shift_DNA row = Fixed_Night -> forall d, cell_on row d <> Some Day).
Proof.
  intros Hs (emp_id & info & Hid & Hinfo & _ & _ & Hdna & Hlen & Hcell & _).
  assert (forall d l, cell_on row d = Some l ->
            In d (days_indices num_days) /\ s (shift_e_d e d) = label_value l) as Hval.
  { intros d l Hl.
    assert (In d (days_indices num_days)) as Hd.
    { unfold days_indices. apply in_seq. split; [lia |]. simpl.
      rewrite <- Hlen. apply nth_error_Some. unfold cell_on in Hl. congruence. }
    split; [exact Hd |].
    destruct (Hcell d Hd) as (l' & Hl' & Hv). congruence. }
  rewrite Hdna.
  split; intros Hfixed d Hl; destruct (Hval d _ Hl) as [Hd Hv];
    destruct (dna_respected _ _ _ _ Hs e d emp_id info Hid Hinfo Hd) as [Hday Hnight].
  - apply (Hday Hfixed). exact Hv.
  - apply (Hnight Hfixed). exact Hv.
Qed.

Lemma dict_get_In_keys (d : dict) (k : cell) (v : profile) :
  dict_get d k = Some v -> In k (keys d).
Proof.
  induction d as [| [k' v'] d IH]; simpl; intros H; [discriminate |].
  destruct (cell_eqb k' k) eqn:E.
  - left. apply cell_eqb_eq. exact E.
  - right. apply IH. exact H.
Qed.

Lemma analyze_row_profile (date_cols : list string) (row : Series)
      (emp_id : cell) (p : profile) :
  analyze_row date_cols row = Returned (emp_id, p) ->
  DNA_of p = determine_dna (Day_Count p) (Night_Count p).
Proof.
  unfold analyze_row. intros H.
  apply bind_Returned_inv in H. destruct H as (id & _ & H).
  apply bind_Returned_inv in H. destruct H as (name & _ & H).
  apply bind_Returned_inv in H. destruct H as ([dc nc] & _ & H).
  apply bind_Returned_inv in H. destruct H as (st & _ & H).
  apply bind_Returned_inv in H. destruct H as (dep & _ & H).
  injection H as _ <-. reflexivity.
Qed.

Lemma distinct_ids_no_later_row (rows before after : list Series) (row : Series)
      (ids : list cell) (emp_id : cell) :
  employee_ids rows = Returned ids -> NoDup ids ->
  rows = before ++ row :: after ->
  getitem row "Employee ID" = Returned emp_id ->
  forall row', In row' after -> getitem row' "Employee ID" <> Returned emp_id.
Proof.
  unfold employee_ids. intros Hids Hnd -> Hrow row' Hin Hrow'.
  destruct (mapM_app_inv _ _ _ _ Hids) as (ids1 & ids2 & -> & _ & H2).
  simpl in H2. rewrite Hrow in H2. simpl in H2.
  apply bind_Returned_inv in H2. destruct H2 as (ids3 & H3 & H2).
  injection H2 as <-.
  apply NoDup_app_remove_l in Hnd. inversion Hnd as [| x l Hnotin _]; subst.
  apply Hnotin. apply mapM_Forall2 in H3.
  destruct (In_nth_error _ _ Hin) as (i & Hi).
  destruct (Forall2_nth_error_l _ _ _ H3 i row' Hi) as (id & Hid & Hget).
  rewrite Hrow' in Hget. injection Hget as <-.
  apply (nth_error_In _ _ Hid).
Qed.

(** X14.  The whole pipeline, for a history whose rows carry distinct
    identifiers: every analysed row has its row in the generated roster,
    under the same identifier and name and with the DNA computed from its
    counts; and an employee whose history shows day shifts only is given no
    night shift in the roster (and the other way round). *)
Theorem pipeline_respects_history (Solve : CpModel -> CpSolverResponse)
        (df : DataFrame) (dna : dict) (table : RosterFrame)
        (row : Series) (emp_id : cell) (p : profile) (ids : list cell) :
  load_and_analyze_data df = Returned (df, dna) ->
  solver_sound Solve dna 2026 3 ->
  cached_generate_roster Solve df = Returned (Some table, None) ->
  employee_ids (iterrows df) = Returned ids -> NoDup ids ->
  In row (iterrows df) ->
  analyze_row (date_cols_of df) row = Returned (emp_id, p) ->
  exists r,
    In r (rows table)
    /\ Employee_ID r = emp_id
    /\ row_Name r = Name p
    /\ Shift_DNA r = determine_dna (Day_Count p) (Night_Count p)
    /\ (0 < Day_Count p -> Night_Count p = 0 -> forall d, cell_on r d <> Some Night)
    /\ (0 < Night_Count p -> Day_Count p = 0 -> forall d, cell_on r d <> Some Day).
Proof.
  intros Hload Hsound Hrun Hids Hnd Hin Hrow.
  unfold cached_generate_roster in Hrun. rewrite Hload in Hrun. cbn [bind] in Hrun.
  destruct (in_split _ _ Hin) as (before & after & Hsplit).
  assert (dict_get dna emp_id = Some p) as Hget.
  { apply (profile_of_last_row df df dna before after row); try assumption.
    apply (distinct_ids_no_later_row (iterrows df) before after row ids); try assumption.
    apply (analyze_row_id (date_cols_of df) row (emp_id, p)). exact Hrow. }
  destruct (generate_roster_success _ _ _ _ _ _ Hrun)
    as (dates & Hcal & Hst & _ & Hrows & _).
  pose proof (solver_sound_holds Solve dna 2026 3 dates Hsound Hcal Hst) as Hs.
  destruct (In_nth_error _ _ (dict_get_In_keys _ _ _ Hget)) as (e & He).
  fold (employees dna) in He.
  assert (In (e, emp_id) (enumerate (employees dna))) as Hen by (apply In_enumerate; exact He).
  destruct (In_nth_error _ _ Hen) as (i & Hi).
  apply mapM_Forall2 in Hrows.
  destruct (Forall2_nth_error_l _ _ _ Hrows i (e, emp_id) Hi) as (r & Hr & Hres).
  pose proof (result_row_inv _ _ _ _ _ _ He Hres) as Hrowof.
  exists r. split; [apply (nth_error_In _ _ Hr) |].
  destruct (row_respects_dna _ _ _ _ e r Hs Hrowof) as [Hday Hnight].
  destruct Hrowof as (emp_id' & info & Hid' & Hinfo & Hrid & Hname & Hdna & _).
  assert (emp_id' = emp_id) as -> by congruence.
  assert (info = p) as -> by congruence.
  rewrite (analyze_row_profile _ _ _ _ Hrow) in Hdna.
  split; [exact Hrid |]. split; [exact Hname |]. split; [exact Hdna |].
  split.
  - intros Hd Hn. apply Hday. rewrite Hdna. unfold determine_dna.
    apply Z.ltb_lt in Hd. rewrite Hd, Hn. reflexivity.
  - intros Hn Hd. apply Hnight. rewrite Hdna. unfold determine_dna.
    apply Z.ltb_lt in Hn. rewrite Hn, Hd. simpl.
    destruct (0 <? 0) eqn:E; [apply Z.ltb_lt in E; lia | reflexivity].
Qed.

Lemma pipeline_respects_history_witness :
  exists r,
    In r (rows Pipeline.table)
    /\ Employee_ID r = CInt 101
    /\ row_Name r = CStr "Asha"
    /\ Shift_DNA r = determine_dna 2 0
    /\ (0 < 2 -> 0 = 0 -> forall d, cell_on r d <> Some Night)
    /\ (0 < 0 -> 2 = 0 -> forall d, cell_on r d <> Some Day).
Proof.
  apply (pipeline_respects_history Pipeline.Solve History.df Pipeline.dna Pipeline.table
           History.asha (CInt 101)
           (mkprofile (CStr "Asha") Fixed_Day 2 0 (CStr "Active") (CStr "Inbound"))
           [CInt 101; CInt 102; CInt 103; CInt 104]).
  - vm_compute. reflexivity.
  - unfold solver_sound. vm_compute. reflexivity.
  - vm_compute. reflexivity.
  - vm_compute. reflexivity.
  - repeat (constructor; [simpl; intuition discriminate |]). constructor.
  - simpl. auto.
  - vm_compute. reflexivity.
Defined.

(** ** The model asks nothing more than the four conditions *)

Lemma model_holds_app (a b : CpModel) (s : Solution) :
  model_holds (a ++ b) s = model_holds a s && model_holds b s.
Proof. unfold model_holds. apply forallb_app. Qed.

Lemma model_holds_flat_map {A : Type} (f : A -> CpModel) (l : list A) (s : Solution) :
  (forall a, In a l -> model_holds (f a) s = true) ->
  model_holds (flat_map f l) s = true.
Proof.
  intros H. unfold model_holds in *. apply forallb_forall. intros c Hc.
  apply in_flat_map in Hc. destruct Hc as (a & Ha & Hc).
  specialize (H a Ha). rewrite forallb_forall in H. apply H. exact Hc.
Qed.

Lemma model_holds_map {A : Type} (g : A -> ModelCall) (l : list A) (s : Solution) :
  (forall a, In a l -> call_holds s (g a) = true) ->
  model_holds (map g l) s = true.
Proof.
  intros H. unfold model_holds. apply forallb_forall. intros c Hc.
  apply in_map_iff in Hc. destruct Hc as (a & <- & Ha). apply H. exact Ha.
Qed.

Lemma indicator_is_bool (b : bool) : (0 <=? (if b then 1 else 0)) && ((if b then 1 else 0) <=? 1) = true.
Proof. destruct b; reflexivity. Qed.

(** The two half-reified constraints hold for an indicator that is the
    truth value of the equality. *)
Lemma reified_holds (s : Solution) (b : IntVar) (x : LinearExpr) (c : Z) :
  s b = (if Value s x =? c then 1 else 0) ->
  call_holds s (NewBoolVar b) = true
  /\ call_holds s (Add (Eq x (Const c)) [Lit b]) = true
  /\ call_holds s (Add (Ne x (Const c)) [Not b]) = true.
Proof.
  intros Hb. simpl. rewrite Hb.
  destruct (Value s x =? c) eqn:E; simpl; rewrite ?E; auto.
Qed.

Lemma list_max_indicator (p : nat -> bool) (l : list nat) :
  l <> [] ->
  list_max (map (fun d => if p d then 1 else 0) l)
  = Some (if existsb p l then 1 else 0).
Proof.
  induction l as [| d l IH]; intros Hne; [contradiction |].
  destruct l as [| d' l].
  - simpl. rewrite orb_false_r. reflexivity.
  - change (list_max (map (fun d => if p d then 1 else 0) (d :: d' :: l)))
      with (match list_max (map (fun d => if p d then 1 else 0) (d' :: l)) with
            | None => Some (if p d then 1 else 0)
            | Some m => Some (Z.max (if p d then 1 else 0) m)
            end).
    rewrite IH by discriminate.
    change (existsb p (d :: d' :: l)) with (p d || existsb p (d' :: l)).
    destruct (p d); destruct (existsb p (d' :: l)); reflexivity.
Qed.

Lemma week_of_first (weeks : list (list nat)) (week_days : list nat) :
  NoDup (concat weeks) -> Forall (fun w => w <> []) weeks ->
  In week_days weeks ->
  week_of weeks (hd 0%nat week_days) = week_days.
Proof.
  intros Hcover Hne Hin. unfold week_of.
  destruct (find (fun w => (hd 0%nat w =? hd 0%nat week_days)%nat) weeks) as [w |] eqn:E.
  - apply find_some in E. destruct E as [Hw Hhd]. apply Nat.eqb_eq in Hhd.
    apply (week_of_first_day weeks Hcover Hne w week_days Hw Hin Hhd).
  - exfalso. apply (find_none _ _ E) in Hin. rewrite Nat.eqb_refl in Hin. discriminate.
Qed.

Lemma count_shift_bound (x : nat -> nat -> Z) (e : nat) (v : Z) (num_days : nat) :
  0 <= count_shift x e v (seq 0 num_days) <= Z.of_nat num_days.
Proof.
  unfold count_shift.
  pose proof (filter_length_le (fun d => x e d =? v) (seq 0 num_days)) as H.
  rewrite length_seq in H. lia.
Qed.

Lemma work_of_bound (x : nat -> nat -> Z) (e num_days : nat) :
  0 <= work_of num_days x e <= Z.of_nat num_days.
Proof.
  unfold work_of, count_shift.
  pose proof (filter_disjoint_length (fun d => x e d =? 1) (fun d => x e d =? 2)
                (seq 0 num_days)) as H.
  rewrite length_seq in H.
  assert (forall d, (x e d =? 1) = true -> (x e d =? 2) = false) as Hdis.
  { intros d Hd. apply Z.eqb_eq in Hd. rewrite Hd. reflexivity. }
  specialize (H Hdis). lia.
Qed.

Section Completed.

Variable employee_dna : dict.
Variable num_days : nat.
Variable weeks : list (list nat).
Variable x : nat -> nat -> Z.

Hypothesis x_acceptable : acceptable employee_dna num_days weeks x.
Hypothesis weeks_cover_once : NoDup (concat weeks).
Hypothesis weeks_not_empty : Forall (fun w => w <> []) weeks.
Hypothesis staff_not_empty : employees employee_dna <> [].

Lemma completed_roster_variables :
  model_holds (roster_variables employee_dna num_days)
              (completed employee_dna num_days weeks x) = true.
Proof.
  destruct x_acceptable as (Hdom & _).
  unfold roster_variables. apply model_holds_flat_map. intros e _.
  apply model_holds_map. intros d _. simpl.
  specialize (Hdom e d). apply andb_true_iff. split; apply Z.leb_le; lia.
Qed.

Lemma completed_dna_constraints :
  model_holds (dna_constraints employee_dna num_days)
              (completed employee_dna num_days weeks x) = true.
Proof.
  destruct x_acceptable as (_ & Hdna & _).
  unfold dna_constraints. apply model_holds_flat_map. intros [e emp_id] Hin.
  apply In_enumerate in Hin. unfold dna_constraints_of.
  apply model_holds_flat_map. intros d _.
  destruct (Hdna e emp_id d Hin) as [Hday Hnight].
  destruct (dna_lookup employee_dna emp_id) as [[| |] |]; try reflexivity;
    unfold model_holds, roster;
    cbn [forallb call_holds ct_holds Value completed complete];
    rewrite andb_true_r; apply negb_true_iff; apply Z.eqb_neq; auto.
Qed.

Lemma completed_weekly_off :
  model_holds (weekly_off_constraints employee_dna weeks)
              (completed employee_dna num_days weeks x) = true.
Proof.
  destruct x_acceptable as (_ & _ & Hrest & _).
  unfold weekly_off_constraints. apply model_holds_flat_map. intros w Hw.
  apply model_holds_flat_map. intros e _.
  unfold weekly_off_of. rewrite !model_holds_app.
  apply andb_true_iff; split; [| apply andb_true_iff; split].
  - rewrite map_map. apply model_holds_map. intros d _. simpl. apply indicator_is_bool.
  - apply model_holds_flat_map. intros d _.
    destruct (reified_holds (completed employee_dna num_days weeks x)
                (is_wo_e_d e d) (roster e d) 0 eq_refl) as (_ & H1 & H2).
    unfold model_holds. cbn [forallb]. rewrite H1, H2. reflexivity.
  - assert (Value (completed employee_dna num_days weeks x)
                  (py_sum (map Var (map (fun d => is_wo_e_d e d) w)))
            = Z.of_nat (length (filter (fun d => x e d =? 0) w))) as Hsum.
    { rewrite Value_py_sum, (map_map (fun d => is_wo_e_d e d) Var).
      apply (sum_reified (completed employee_dna num_days weeks x)
               (fun d => is_wo_e_d e d) (fun d => shift_e_d e d) 0).
      intros d _. reflexivity. }
    destruct (Hrest e w Hw) as [Hfull Hpart].
    unfold model_holds. cbn [forallb]. rewrite andb_true_r.
    destruct (Nat.eqb_spec (length w) 7) as [E | E]; cbn [call_holds forallb ct_holds];
      rewrite Hsum; cbn [Value].
    + rewrite (Hfull E). reflexivity.
    + apply Z.leb_le. specialize (Hpart E). lia.
Qed.

Lemma completed_shift_lock :
  model_holds (shift_lock_constraints employee_dna weeks)
              (completed employee_dna num_days weeks x) = true.
Proof.
  destruct x_acceptable as (_ & _ & _ & Hlock).
  unfold shift_lock_constraints. apply model_holds_flat_map. intros w Hw.
  apply model_holds_flat_map. intros e _.
  pose proof (week_of_first weeks w weeks_cover_once weeks_not_empty Hw) as Hweek.
  assert (w <> []) as Hwne
      by (rewrite Forall_forall in weeks_not_empty; apply weeks_not_empty; exact Hw).
  unfold shift_lock_of. rewrite !model_holds_app.
  apply andb_true_iff; split; [| apply andb_true_iff; split].
  - unfold model_holds. cbn [forallb call_holds completed complete].
    rewrite !indicator_is_bool. reflexivity.
  - apply model_holds_flat_map. intros d _.
    destruct (reified_holds (completed employee_dna num_days weeks x)
                (is_day_e_d e d) (roster e d) 1 eq_refl) as (Hb1 & H1 & H2).
    destruct (reified_holds (completed employee_dna num_days weeks x)
                (is_night_e_d e d) (roster e d) 2 eq_refl) as (Hb2 & H3 & H4).
    unfold model_holds. cbn [forallb]. rewrite Hb1, Hb2, H1, H2, H3, H4. reflexivity.
  - unfold model_holds. cbn [forallb call_holds]. rewrite !map_map.
    cbn [Value completed complete]. rewrite Hweek.
    rewrite (list_max_indicator (fun d => x e d =? 1) w Hwne).
    rewrite (list_max_indicator (fun d => x e d =? 2) w Hwne).
    rewrite !Z.eqb_refl. cbn [ct_holds Value completed complete]. rewrite Hweek.
    destruct (existsb (fun d => x e d =? 1) w) eqn:Ed;
      destruct (existsb (fun d => x e d =? 2) w) eqn:En; try reflexivity.
    exfalso. apply existsb_exists in Ed. destruct Ed as (d1 & Hd1 & H1).
    apply existsb_exists in En. destruct En as (d2 & Hd2 & H2).
    apply Z.eqb_eq in H1. apply Z.eqb_eq in H2.
    apply (Hlock e w d1 d2 Hw Hd1 Hd2). auto.
Qed.

Lemma completed_totals :
  model_holds (totals_constraints employee_dna num_days)
              (completed employee_dna num_days weeks x) = true.
Proof.
  unfold totals_constraints. rewrite !model_holds_app.
  apply andb_true_iff; split; [| apply andb_true_iff; split].
  - apply model_holds_map. intros e _. cbn [call_holds completed complete].
    pose proof (count_shift_bound x e 1 num_days).
    apply andb_true_iff. split; apply Z.leb_le; lia.
  - apply model_holds_map. intros e _. cbn [call_holds completed complete].
    pose proof (count_shift_bound x e 2 num_days).
    apply andb_true_iff. split; apply Z.leb_le; lia.
  - apply model_holds_flat_map. intros e _.
    unfold totals_of. rewrite model_holds_app. apply andb_true_iff. split.
    + apply model_holds_flat_map. intros d _.
      destruct (reified_holds (completed employee_dna num_days weeks x)
                  (obj_is_d_e_d e d) (roster e d) 1 eq_refl) as (Hb1 & H1 & H2).
      destruct (reified_holds (completed employee_dna num_days weeks x)
                  (obj_is_n_e_d e d) (roster e d) 2 eq_refl) as (Hb2 & H3 & H4).
      unfold model_holds. cbn [forallb]. rewrite Hb1, Hb2, H1, H2, H3, H4. reflexivity.
    + unfold model_holds. cbn [forallb call_holds ct_holds].
      rewrite !Value_py_sum.
      rewrite (sum_reified (completed employee_dna num_days weeks x)
                 (fun d => obj_is_d_e_d e d) (fun d => shift_e_d e d) 1)
        by (intros d _; reflexivity).
      rewrite (sum_reified (completed employee_dna num_days weeks x)
                 (fun d => obj_is_n_e_d e d) (fun d => shift_e_d e d) 2)
        by (intros d _; reflexivity).
      unfold total_days, total_nights. cbn [Value completed complete].
      unfold count_shift, days_indices. rewrite !Z.eqb_refl. reflexivity.
Qed.

Lemma completed_total_work_values :
  map (Value (completed employee_dna num_days weeks x))
      (map total_work (emp_indices employee_dna))
  = map (work_of num_days x) (seq 0 (length (employees employee_dna))).
Proof. rewrite map_map. reflexivity. Qed.

Lemma completed_spread :
  model_holds (spread_objective employee_dna num_days)
              (completed employee_dna num_days weeks x) = true.
Proof.
  assert (seq 0 (length (employees employee_dna)) <> []) as Hseq.
  { destruct (employees employee_dna); [contradiction | discriminate]. }
  assert (forall m, In m (map (work_of num_days x) (seq 0 (length (employees employee_dna)))) ->
                    0 <= m <= Z.of_nat num_days) as Hbound.
  { intros m Hm. apply in_map_iff in Hm. destruct Hm as (e & <- & _).
    apply work_of_bound. }
  unfold spread_objective. rewrite !model_holds_app.
  apply andb_true_iff; split; [| apply andb_true_iff; split].
  - apply model_holds_map. intros e _. cbn [call_holds completed complete].
    pose proof (work_of_bound x e num_days).
    apply andb_true_iff. split; apply Z.leb_le; lia.
  - apply model_holds_map. intros e _.
    unfold total_work, total_days, total_nights.
    cbn [call_holds forallb ct_holds Value completed complete].
    unfold work_of. apply Z.eqb_refl.
  - unfold model_holds. cbn [forallb call_holds].
    rewrite completed_total_work_values.
    cbn [Value completed complete].
    destruct (list_min (map (work_of num_days x) (seq 0 (length (employees employee_dna)))))
      as [lo |] eqn:Emin.
    2:{ exfalso. destruct (seq 0 (length (employees employee_dna))) as [| e l];
          [contradiction |]. simpl in Emin.
        destruct (list_min (map (work_of num_days x) l)); discriminate. }
    destruct (list_max (map (work_of num_days x) (seq 0 (length (employees employee_dna)))))
      as [hi |] eqn:Emax.
    2:{ exfalso. destruct (seq 0 (length (employees employee_dna))) as [| e l];
          [contradiction |]. simpl in Emax.
        destruct (list_max (map (work_of num_days x) l)); discriminate. }
    pose proof (Hbound lo (list_min_In _ _ Emin)) as Hlo.
    pose proof (Hbound hi (list_max_In _ _ Emax)) as Hhi.
    rewrite !Z.eqb_refl.
    assert ((0 <=? lo) && (lo <=? Z.of_nat num_days) = true) as ->
        by (apply andb_true_iff; split; apply Z.leb_le; lia).
    assert ((0 <=? hi) && (hi <=? Z.of_nat num_days) = true) as ->
        by (apply andb_true_iff; split; apply Z.leb_le; lia).
    reflexivity.
Qed.

Lemma completed_holds :
  model_holds (build_model employee_dna num_days weeks)
              (completed employee_dna num_days weeks x) = true.
Proof.
  unfold build_model. rewrite !model_holds_app.
  rewrite completed_roster_variables, completed_dna_constraints, completed_weekly_off,
    completed_shift_lock, completed_totals, completed_spread.
  reflexivity.
Qed.

End Completed.

(** X15.  The model asks nothing beyond the four conditions on the shifts:
    a roster that keeps every shift in 0..2, respects the DNA, has the
    weekly rests and mixes no days and nights in a week can be completed
    into a solution of the model, with the same shifts. *)
Theorem acceptable_roster_is_a_solution (employee_dna : dict) (num_days : nat)
        (weeks : list (list nat)) (x : nat -> nat -> Z) :
  acceptable employee_dna num_days weeks x ->
  NoDup (concat weeks) -> Forall (fun w => w <> []) weeks ->
  employees employee_dna <> [] ->
  exists s,
    model_holds (build_model employee_dna num_days weeks) s = true
    /\ forall e d, s (shift_e_d e d) = x e d.
Proof.
  intros Hacc Hcover Hne Hstaff.
  exists (completed employee_dna num_days weeks x). split; [| reflexivity].
  apply completed_holds; assumption.
Qed.

Lemma first_two_in_week (weeks : list (list nat)) (week_days : list nat) (d : nat) :
  NoDup (concat weeks) -> In week_days weeks -> In d week_days ->
  first_two weeks d = existsb (Nat.eqb d) (firstn 2 week_days).
Proof.
  intros Hcover Hw Hd. unfold first_two.
  destruct (existsb (Nat.eqb d) (firstn 2 week_days)) eqn:E.
  - apply existsb_exists. exists week_days. auto.
  - destruct (existsb _ weeks) eqn:E'; [| reflexivity].
    apply existsb_exists in E'. destruct E' as (w' & Hw' & Hin).
    assert (In d w') as Hd'.
    { apply existsb_exists in Hin. destruct Hin as (d' & Hd' & Heq).
      apply Nat.eqb_eq in Heq. subst d'. apply (In_firstn 2). exact Hd'. }
    rewrite (week_of_day weeks Hcover w' week_days d Hw' Hw Hd' Hd) in Hin. congruence.
Qed.

Lemma first_two_count (week_days : list nat) :
  NoDup week_days ->
  length (filter (fun d => existsb (Nat.eqb d) (firstn 2 week_days)) week_days)
  = Nat.min 2 (length week_days).
Proof.
  intros Hnd. destruct week_days as [| a [| b rest]]; [reflexivity | |].
  - simpl. rewrite Nat.eqb_refl. reflexivity.
  - inversion Hnd as [| a' l Ha Hnd']; subst.
    inversion Hnd' as [| b' l Hb _]; subst.
    cbn [firstn filter existsb]. rewrite !Nat.eqb_refl. cbn [orb].
    rewrite orb_true_r. cbn [length].
    assert (filter (fun d => (d =? a)%nat || ((d =? b)%nat || false)) rest = []) as ->.
    { clear Hnd Hnd'. induction rest as [| d rest IH]; [reflexivity |]. simpl.
      destruct (Nat.eqb_spec d a) as [-> | _]; [exfalso; apply Ha; simpl; auto |].
      destruct (Nat.eqb_spec d b) as [-> | _]; [exfalso; apply Hb; simpl; auto |].
      simpl. apply IH.
      - intros H. apply Ha. simpl in *. tauto.
      - intros H. apply Hb. simpl in *. tauto. }
    reflexivity.
Qed.

Lemma work_shift_cases (employee_dna : dict) (e : nat) :
  work_shift employee_dna e = 1 \/ work_shift employee_dna e = 2.
Proof.
  unfold work_shift. destruct (nth_error _ e) as [emp_id |]; [| auto].
  destruct (dna_lookup employee_dna emp_id) as [[| |] |]; auto.
Qed.

Lemma plain_roster_acceptable (employee_dna : dict) (num_days : nat)
      (weeks : list (list nat)) :
  NoDup (concat weeks) ->
  acceptable employee_dna num_days weeks (plain_roster employee_dna weeks).
Proof.
  intros Hcover. unfold acceptable, plain_roster. repeat split.
  - destruct (first_two weeks d); [lia |].
    destruct (work_shift_cases employee_dna e) as [-> | ->]; lia.
  - destruct (first_two weeks d); [lia |].
    destruct (work_shift_cases employee_dna e) as [-> | ->]; lia.
  - intros Hfixed. destruct (first_two weeks d); [discriminate |].
    unfold work_shift. rewrite H, Hfixed. discriminate.
  - intros Hfixed. destruct (first_two weeks d); [discriminate |].
    unfold work_shift. rewrite H, Hfixed. discriminate.
  - intros Hlen.
    rewrite (filter_ext_in _ (fun d => existsb (Nat.eqb d) (firstn 2 week_days))).
    + rewrite first_two_count by (apply (week_NoDup weeks Hcover); exact H).
      rewrite Hlen. reflexivity.
    + intros d Hd. rewrite (first_two_in_week weeks week_days d Hcover H Hd).
      destruct (existsb _ _); [reflexivity |].
      destruct (work_shift_cases employee_dna e) as [-> | ->]; reflexivity.
  - intros _.
    rewrite (filter_ext_in _ (fun d => existsb (Nat.eqb d) (firstn 2 week_days))).
    + rewrite first_two_count by (apply (week_NoDup weeks Hcover); exact H).
      apply Nat.le_min_l.
    + intros d Hd. rewrite (first_two_in_week weeks week_days d Hcover H Hd).
      destruct (existsb _ _); [reflexivity |].
      destruct (work_shift_cases employee_dna e) as [-> | ->]; reflexivity.
  - intros e w d1 d2 _ _ _ [H2 H3].
    destruct (first_two weeks d1); [discriminate |].
    destruct (first_two weeks d2); [discriminate |]. congruence.
Qed.

(** X16.  The constraints are never too strict: for every valid month and
    every non-empty staff the model has a solution (the first two days of
    each week off, nights for Fixed_Night and days for the others), and
    with a solver that answers with it [generate_roster] returns a table. *)
Theorem a_roster_always_exists (employee_dna : dict) (year month : Z) :
  employees employee_dna <> [] ->
  1 <= year <= 9999 -> 1 <= month <= 12 ->
  solver_sound (plain_Solve employee_dna year month) employee_dna year month
  /\ exists df,
       generate_roster (plain_Solve employee_dna year month) employee_dna year month
       = Returned (Some df, None).
Proof.
  intros Hstaff Hy Hm.
  destruct (month_calendar_returns year month Hy Hm) as (dates & Hcal & _).
  destruct (group_weeks_partition dates) as [Hconcat Hne].
  assert (NoDup (concat (group_weeks dates))) as Hcover
      by (rewrite Hconcat; apply seq_NoDup).
  assert (model_holds (build_model employee_dna (length dates) (group_weeks dates))
            (completed employee_dna (length dates) (group_weeks dates)
               (plain_roster employee_dna (group_weeks dates))) = true) as Hholds.
  { apply completed_holds; try assumption. apply plain_roster_acceptable. exact Hcover. }
  split.
  - unfold solver_sound, roster_model, response_sound, plain_Solve.
    rewrite Hcal. simpl. intros _. exact Hholds.
  - unfold generate_roster. rewrite Hcal. cbn [bind].
    unfold plain_Solve at 1. rewrite Hcal. cbn [status has_solution].
    destruct (result_rows_return employee_dna (length dates) (group_weeks dates)
                (plain_Solve employee_dna year month
                   (build_model employee_dna (length dates) (group_weeks dates))))
      as (data & Hdata).
    { unfold plain_Solve. rewrite Hcal. exact Hholds. }
    rewrite Hdata. cbn [bind]. eexists. reflexivity.
Qed.

Lemma a_roster_always_exists_witness :
  solver_sound (plain_Solve Sample.employee_dna 2026 8) Sample.employee_dna 2026 8
  /\ exists df,
       generate_roster (plain_Solve Sample.employee_dna 2026 8) Sample.employee_dna 2026 8
       = Returned (Some df, None).
Proof.
  apply (a_roster_always_exists Sample.employee_dna 2026 8).
  - discriminate.
  - lia.
  - lia.
Defined.

Ltac cases_of H :=
  repeat match type of H with
         | _ \/ _ => destruct H as [H | H]
         | False => destruct H
         end.

Lemma acceptable_roster_is_a_solution_witness :
  exists s,
    model_holds (build_model Sample.employee_dna 31 Sample.march_weeks) s = true
    /\ forall e d, s (shift_e_d e d) = Sample.x e d.
Proof.
  apply (acceptable_roster_is_a_solution Sample.employee_dna 31 Sample.march_weeks Sample.x).
  - unfold acceptable. split; [| split; [| split]].
    + intros e d. unfold Sample.x. destruct (d mod 7 <? 2)%nat; [lia |].
      destruct e as [| [| e]]; try lia. destruct (Nat.even (d / 7)); lia.
    + intros e emp_id d He.
      destruct e as [| [| [| [| e]]]]; vm_compute in He; try discriminate He;
        injection He as <-; unfold Sample.x;
        (split; intros Hdna; vm_compute in Hdna; try discriminate Hdna);
        destruct (d mod 7 <? 2)%nat; discriminate.
    + intros e w Hw. vm_compute in Hw. cases_of Hw; subst w;
        destruct e as [| [| e]]; vm_compute; split; intros H;
        try reflexivity; try lia; try (exfalso; apply H; reflexivity);
        try discriminate H.
    + intros e w d1 d2 Hw Hd1 Hd2 [H1 H2]. vm_compute in Hw. cases_of Hw; subst w;
        simpl in Hd1, Hd2; cases_of Hd1; cases_of Hd2; subst d1 d2;
        destruct e as [| [| e]]; vm_compute in H1, H2;
        first [discriminate H1 | discriminate H2].
  - vm_compute. repeat (constructor; [simpl; intuition discriminate |]). constructor.
  - vm_compute. repeat (constructor; [discriminate |]). constructor.
  - discriminate.
Defined.

(** ** The date columns of the table *)

Lemma month_calendar_days (year month : Z) (num_days : nat)
      (dates : list datetime.date) :
  month_calendar year month = Returned (num_days, dates) ->
  1 <= month <= 12
  /\ Z.of_nat num_days = datetime._days_in_month year month.
Proof.
  unfold month_calendar, calendar.monthrange. intros H.
  destruct ((1 <=? month) && (month <=? 12)) eqn:Hm; [| discriminate H].
  apply andb_true_iff in Hm. destruct Hm as [H1 H12].
  apply Z.leb_le in H1. apply Z.leb_le in H12.
  cbn [negb bind snd] in H.
  pose proof (days_in_month_agree year month (conj H1 H12)) as Hagree.
  destruct (month_has_days year month (conj H1 H12)) as (n & Hn).
  remember (nth (Z.to_nat month) calendar.mdays 0
            + (if (month =? 2) && calendar.isleap year then 1 else 0)) as nd eqn:End.
  apply bind_Returned_inv in H. destruct H as (ds & _ & H).
  injection H as <- _. split; [lia |]. lia.
Qed.

(** X17.  A returned table with at least one row has one date column per
    day of the target month, from the first day to the last, in order; the
    number of columns is the length of the month (29 for a February of a
    leap year), and every row has as many cells. *)
Theorem table_has_the_days_of_the_month (Solve : CpModel -> CpSolverResponse)
        (employee_dna : dict) (year month : Z) (df : RosterFrame) :
  generate_roster Solve employee_dna year month = Returned (Some df, None) ->
  rows df <> [] ->
  exists num_days,
    Z.of_nat num_days = datetime._days_in_month year month
    /\ date_columns df
       = map (fun day => datetime.mkdate year month (Z.of_nat day)) (seq 1 num_days)
    /\ forall row, In row (rows df) -> length (date_cells row) = num_days.
Proof.
  intros Hgen Hrows.
  destruct (generate_roster_success _ _ _ _ _ _ Hgen)
    as (dates & Hcal & _ & _ & Hdata & Hcols).
  exists (length dates).
  destruct (month_calendar_days _ _ _ _ Hcal) as [_ Hdays].
  split; [exact Hdays |]. split.
  - rewrite Hcols. destruct (rows df); [contradiction |].
    apply (month_calendar_dates _ _ _ _ Hcal).
  - intros row Hrow. destruct (rows_of_run _ _ _ _ Hdata) as [Hall _].
    destruct (Hall row Hrow) as (e & _ & _ & Hrowof).
    destruct Hrowof as (emp_id & info & _ & _ & _ & _ & _ & Hlen & _). exact Hlen.
Qed.

Lemma table_has_the_days_of_the_month_witness :
  exists num_days,
    Z.of_nat num_days = datetime._days_in_month 2026 3
    /\ date_columns Sample.roster_df
       = map (fun day => datetime.mkdate 2026 3 (Z.of_nat day)) (seq 1 num_days)
    /\ forall row, In row (rows Sample.roster_df) -> length (date_cells row) = num_days.
Proof.
  apply (table_has_the_days_of_the_month Sample.Solve Sample.employee_dna 2026 3
           Sample.roster_df).
  - vm_compute. reflexivity.
  - vm_compute. discriminate.
Defined.

Example february_2028_has_29_days :
  match month_calendar 2028 2 with
  | Returned (num_days, _) => num_days = 29%nat
  | Raised _ => False
  end.
Proof. vm_compute. reflexivity. Qed.

(** ** Sunday to Saturday *)

Lemma sunday_is_first (d : datetime.date) :
  day_of_week d = 0 <-> datetime.weekday d = 6.
Proof.
  unfold day_of_week.
  assert (0 <= datetime.weekday d < 7) as Hr
      by (unfold datetime.weekday; apply Z.mod_pos_bound; lia).
  split; intros H.
  - assert (datetime.weekday d = 0 \/ datetime.weekday d = 1 \/ datetime.weekday d = 2
            \/ datetime.weekday d = 3 \/ datetime.weekday d = 4 \/ datetime.weekday d = 5
            \/ datetime.weekday d = 6) as Hc by lia.
    repeat (destruct Hc as [Hc | Hc]); rewrite Hc in H; try discriminate H; exact Hc.
  - rewrite H. reflexivity.
Qed.

Section Alignment.

Variable dates : list datetime.date.

Lemma week_step_alignment (l : list (nat * datetime.date)) :
  forall weeks current_week weeks' current_week',
    (forall p, In p l -> nth_error dates (fst p) = Some (snd p)) ->
    consecutive_days l ->
    Forall (ends_on_saturday dates) weeks ->
    Forall (starts_on_sunday dates) (tl weeks) ->
    (weeks <> [] ->
     match current_week with
     | [] => match l with
             | [] => True
             | p :: _ => day_of_week (snd p) = 0
             end
     | d :: _ => weekday_of dates d = Some 6
     end) ->
    fold_left week_step l (weeks, current_week) = (weeks', current_week') ->
    Forall (ends_on_saturday dates) weeks'
    /\ Forall (starts_on_sunday dates) (tl weeks')
    /\ (weeks' <> [] -> current_week' <> [] -> starts_on_sunday dates current_week').
Proof.
  induction l as [| p l IH]; simpl fold_left;
    intros ws cur ws' cur' Hdates Hcons Hsat Hsun Hcur H.
  - injection H as <- <-. split; [exact Hsat |]. split; [exact Hsun |].
    intros Hne Hcne. specialize (Hcur Hne). unfold starts_on_sunday.
    destruct cur as [| d cur]; [contradiction | exact Hcur].
  - remember (week_step (ws, cur) p) as st eqn:Est. unfold week_step in Est.
    assert (weekday_of dates (fst p) = Some (datetime.weekday (snd p))) as Hp.
    { unfold weekday_of. rewrite (Hdates p (or_introl eq_refl)). reflexivity. }
    assert (forall q, In q l -> nth_error dates (fst q) = Some (snd q)) as Hdates'
        by (intros q Hq; apply Hdates; right; exact Hq).
    assert (consecutive_days l) as Hcons'
        by (destruct l as [| q l]; [exact I | apply Hcons]).
    assert (ws <> [] -> weekday_of dates (hd 0%nat (cur ++ [fst p])) = Some 6
                        \/ (cur = [] /\ day_of_week (snd p) = 0)) as Hhead.
    { intros Hne. specialize (Hcur Hne). destruct cur as [| d cur]; [right | left]; auto. }
    destruct (Z.eqb_spec (datetime.weekday (snd p)) 5) as [Hsat5 | Hnot5]; subst st.
    + apply (IH _ _ _ _ Hdates' Hcons') in H; [exact H | | |].
      * apply Forall_app. split; [exact Hsat |]. constructor; [| constructor].
        unfold ends_on_saturday. rewrite last_last, Hp, Hsat5. reflexivity.
      * destruct ws as [| w0 ws]; [constructor |]. simpl.
        apply Forall_app. split; [exact Hsun |]. constructor; [| constructor].
        destruct (Hhead ltac:(discriminate)) as [Hh | [_ Hh]]; [exact Hh |].
        apply sunday_is_first in Hh. congruence.
      * intros _. destruct l as [| q l]; [exact I |].
        destruct Hcons as [Hnext _].
        apply (after_saturday _ _ Hnext). apply saturday_is_last. exact Hsat5.
    + apply (IH _ _ _ _ Hdates' Hcons') in H; [exact H | exact Hsat | exact Hsun |].
      intros Hne. destruct (Hhead Hne) as [Hh | [-> Hh]].
      * destruct cur as [| d cur]; simpl in *; exact Hh.
      * simpl. rewrite Hp. f_equal. apply sunday_is_first. exact Hh.
Qed.

Lemma group_weeks_alignment :
  consecutive_days (enumerate dates) ->
  Forall (ends_on_saturday dates) (removelast (group_weeks dates))
  /\ Forall (starts_on_sunday dates) (tl (group_weeks dates)).
Proof.
  intros Hcons. unfold group_weeks.
  destruct (fold_left week_step (enumerate dates) ([], [])) as [ws cur] eqn:E.
  apply week_step_alignment in E; try assumption.
  - destruct E as (Hsat & Hsun & Hlast). destruct cur as [| d cur].
    + split; [| exact Hsun].
      rewrite Forall_forall in *. intros w Hw. apply Hsat.
      clear - Hw. induction ws as [| a [| b ws] IH]; simpl in Hw; try contradiction.
      destruct Hw as [<- | Hw]; [left; reflexivity | right; apply IH; exact Hw].
    + split; [rewrite removelast_last; exact Hsat |].
      destruct ws as [| w0 ws]; [constructor |]. simpl.
      apply Forall_app. split; [exact Hsun |]. constructor; [| constructor].
      apply Hlast; discriminate.
  - intros p Hp. destruct p as [i dt]. apply In_enumerate in Hp. exact Hp.
  - constructor.
  - constructor.
  - intros Hne. contradiction.
Qed.

End Alignment.

(** X18.  The weeks are Sunday-to-Saturday weeks: every week but the last
    ends on a Saturday, and every week but the first starts on a Sunday. *)
Theorem weeks_run_sunday_to_saturday (year month : Z) (num_days : nat)
        (dates : list datetime.date) (before after : list (list nat))
        (week_days : list nat) :
  month_calendar year month = Returned (num_days, dates) ->
  group_weeks dates = before ++ week_days :: after ->
  (after <> [] -> weekday_of dates (last week_days 0%nat) = Some 5)
  /\ (before <> [] -> weekday_of dates (hd 0%nat week_days) = Some 6).
Proof.
  intros Hcal Hsplit.
  destruct (group_weeks_alignment dates) as [Hsat Hsun].
  { rewrite (month_calendar_dates _ _ _ _ Hcal). apply consecutive_enumerate. }
  rewrite Hsplit in Hsat, Hsun. rewrite Forall_forall in Hsat, Hsun. split.
  - intros Ha. apply Hsat.
    rewrite removelast_app by discriminate. apply in_or_app. right.
    destruct after as [| a after]; [contradiction |]. left. reflexivity.
  - intros Hb. apply Hsun.
    destruct before as [| b before]; [contradiction |]. simpl. apply in_elt.
Qed.

Lemma weeks_run_sunday_to_saturday_witness :
  (([8; 9; 10; 11; 12; 13; 14] :: [[15; 16; 17; 18; 19; 20; 21];
      [22; 23; 24; 25; 26; 27; 28]; [29; 30]])%nat <> [] ->
   weekday_of
     (map (fun day => datetime.mkdate 2026 8 (Z.of_nat day)) (seq 1 31))
     (last [1; 2; 3; 4; 5; 6; 7]%nat 0%nat) = Some 5)
  /\ ([[0%nat]] <> [] ->
      weekday_of
        (map (fun day => datetime.mkdate 2026 8 (Z.of_nat day)) (seq 1 31))
        (hd 0%nat [1; 2; 3; 4; 5; 6; 7]%nat) = Some 6).
Proof.
  apply (weeks_run_sunday_to_saturday 2026 8 31
           (map (fun day => datetime.mkdate 2026 8 (Z.of_nat day)) (seq 1 31))).
  - vm_compute. reflexivity.
  - vm_compute. reflexivity.
Defined.

Lemma load_returns_iff_witness :
  exists dna, load_and_analyze_data History.df = Returned (History.df, dna).
Proof.
  apply (load_returns_iff History.df).
  intros row Hrow col Hcol. vm_compute in Hrow, Hcol.
  cases_of Hrow; subst row; cases_of Hcol; subst col; eexists; vm_compute; reflexivity.
Defined.

Lemma options_are_working_names_witness :
  In (CStr "A") (absent_employee_options Scenario.roster_df 0).
Proof.
  apply (options_are_working_names Scenario.roster_df 0).
  exists Scenario.A. split; [simpl; auto |]. split; [reflexivity | left; reflexivity].
Defined.
